(** * Climate-Monitor: a shallow embedding of CSE321_project3_brettsit_main.cpp

    The program is an Mbed application for an STM32 Nucleo board.  Its
    globals form one shared store that is touched by four column interrupt
    handlers ([isr_c0] .. [isr_c3]), by the keypad polling loop of [main],
    by the display thread [update_lcd] and by the monitor thread
    [monitor_state].

    Modelling decisions.
    - The globals are one record [State]; every function of the source is a
      computation in a small state-and-output monad [M] whose output is the
      list of calls made to the peripherals (LCD, LED, buzzer, event queue,
      watchdog, sleeps).  The drivers themselves (LCD, DHT11, GPIO) are
      outside the program: a sensor read is an input of the step that
      makes it, and [to_string] is left to the display.
    - [int] is a 32-bit two's complement integer carried in [Z]; [++] wraps.
    - [float] is IEEE 754 binary32 and [double] is binary64, both carried
      as [spec_float] and computed with the Standard Library's executable
      specification of IEEE arithmetic (round to nearest, ties to even).
    - An interrupt handler runs to completion, and so does one iteration
      of the polling loop.  The two threads are preempted between
      statements: the event [DisplayStatement] or [MonitorStatement] runs
      one statement of a thread, which is one test, one assignment to a
      global or one call that prints a global, together with the calls to
      the peripherals next to it that touch no global; any other event
      may come before the next statement.  So a key or the other thread can run between the test
      of [while (mode == MONITOR)] and the assignment of [alert], inside
      [update_sensor], between the two assignments that open a prompt,
      and so on.  A test that reads several globals is evaluated in one
      piece.
    - The events [Display] and [Monitor] run a thread from where it stands
      to its next loop test without preemption.  Such a stretch is a run
      of statement events ([stretch_is_run_of_statements]), so it is one
      schedule among those the statement events allow, and what holds of
      every reachable system is proved from the statement events alone
      ([reachable_by_statements]).  A statement about a stretch says what
      the thread does when nothing preempts it; it takes what it needs
      about the store as hypotheses.
    - The driver of the sensor is shared by the two threads: each of the
      three assignments of [update_sensor] takes what the driver hands out
      at that moment, which is an input of the event. *)

From Stdlib Require Import ZArith Bool List String Ascii Lia.
From Stdlib Require Import SpecFloat.
Import ListNotations.

Local Open Scope string_scope.
Local Open Scope list_scope.
Local Open Scope Z_scope.

(** The C++ return type of every handler and task; the record below has a
    field called [unit], so the one-point type gets the source's name. *)
Definition void : Type := Datatypes.unit.

(* ===================================================================== *)
(** ** Machine integers *)

Module Int.

Definition min_signed : Z := - 2 ^ 31.
Definition max_signed : Z := 2 ^ 31 - 1.

(** Reduction of a mathematical integer into the range of [int]. *)
Definition wrap (z : Z) : Z := (z + 2 ^ 31) mod 2 ^ 32 - 2 ^ 31.

(** [x++] *)
Definition incr (x : Z) : Z := wrap (x + 1).

Definition in_range (z : Z) : Prop := min_signed <= z <= max_signed.

Lemma wrap_in_range z : in_range (wrap z).
Proof.
  unfold in_range, wrap, min_signed, max_signed.
  pose proof (Z.mod_pos_bound (z + 2 ^ 31) (2 ^ 32) ltac:(lia)). lia.
Qed.

Lemma wrap_small z : in_range z -> wrap z = z.
Proof.
  unfold in_range, wrap, min_signed, max_signed. intros H.
  rewrite Z.mod_small; lia.
Qed.

Lemma incr_small x : min_signed <= x < max_signed -> incr x = x + 1.
Proof.
  unfold incr, min_signed, max_signed. intros H.
  apply wrap_small. unfold in_range, min_signed, max_signed. lia.
Qed.

End Int.

Arguments Int.wrap : simpl never.
Arguments Int.incr : simpl never.

(* ===================================================================== *)
(** ** Floating point: binary32 [float] and binary64 [double] *)

Module FP.

Definition float : Type := spec_float.
Definition double : Type := spec_float.

Definition prec32 : Z := 24.
Definition emax32 : Z := 128.
Definition prec64 : Z := 53.
Definition emax64 : Z := 1024.

(** Conversions between the arithmetic types of the program. *)
Definition int_to_float (z : Z) : float := binary_normalize prec32 emax32 z 0 false.
Definition int_to_double (z : Z) : double := binary_normalize prec64 emax64 z 0 false.

Definition float_to_double (x : float) : double :=
  match x with
  | S754_finite s m e => binary_round prec64 emax64 s m e
  | _ => x
  end.

Definition double_to_float (x : double) : float :=
  match x with
  | S754_finite s m e => binary_round prec32 emax32 s m e
  | _ => x
  end.

(** Conversion of a [double] to [int] discards the fractional part.  The
    C++ standard leaves the conversion undefined when the truncated value
    does not fit; the run-time library of the target saturates, and a NaN
    gives 0. *)
Definition double_to_int (x : double) : Z :=
  match x with
  | S754_zero _ => 0
  | S754_nan => 0
  | S754_infinity s => if s then Int.min_signed else Int.max_signed
  | S754_finite s m e =>
      let a := match e with
               | Zneg p => Z.shiftr (Zpos m) (Zpos p)
               | _ => Z.shiftl (Zpos m) e
               end in
      let v := if s then - a else a in
      Z.max Int.min_signed (Z.min Int.max_signed v)
  end.

Definition dadd : double -> double -> double := SFadd prec64 emax64.
Definition dmul : double -> double -> double := SFmul prec64 emax64.
Definition ddiv : double -> double -> double := SFdiv prec64 emax64.
Definition fsub : float -> float -> float := SFsub prec32 emax32.

(** The literal [1.8]: the binary64 number nearest to 18/10. *)
Definition lit_1_8 : double := S754_finite false 8106479329266893 (-52).

(** Comparisons of the source, [<=], [<] and [>] on [float]. *)
Definition fle (x y : float) : bool := SFleb x y.
Definition flt (x y : float) : bool := SFltb x y.
Definition fgt (x y : float) : bool := SFltb y x.

(** The value of a finite float times [2^k], an integer once [k] makes up
    for the exponent of the float. *)
Definition scaled (x : spec_float) (k : Z) : Z :=
  match x with
  | S754_finite s m e =>
      let a := Zpos m * 2 ^ (e + k) in if s then - a else a
  | _ => 0
  end.

End FP.

Import FP.

(* ===================================================================== *)
(** ** Tools for conversion (source lines 551-559) *)

(** [float toFahrenheit(int celcius) { return celcius * 1.8 + 32; }]
    The product and the sum are computed in [double]; the [return] rounds
    the result to [float]. *)
Definition toFahrenheit (celcius : Z) : float :=
  double_to_float (dadd (dmul (int_to_double celcius) lit_1_8) (int_to_double 32)).

(** [int toCelcius(float fahrenheit) { return (fahrenheit - 32) / 1.8; }]
    The difference is a [float] subtraction (the [int] 32 is converted to
    [float]); the quotient is computed in [double] and the [return]
    truncates it to [int]. *)
Definition toCelcius (fahrenheit : float) : Z :=
  double_to_int (ddiv (float_to_double (fsub fahrenheit (int_to_float 32))) lit_1_8).

(* ===================================================================== *)
(** ** The shared store *)

(** Constants of the source ([#define]). *)
Definition BOUNCE : Z := 1000.
Definition MAX_INPUT : Z := 9.
Definition TEMP_MIN_C : Z := 0.
Definition TEMP_MIN_F : Z := 32.
Definition TEMP_MAX_C : Z := 50.
Definition TEMP_MAX_F : Z := 122.
Definition HUMIDITY_MIN : Z := 20.
Definition HUMIDITY_MAX : Z := 95.
Definition FAHRENHEIT : bool := false.
Definition CELCIUS : bool := true.
Definition IDLE : Z := 0.
Definition INPUT : Z := 1.
Definition MONITOR : Z := 2.
Definition ALERT : Z := 3.
Definition TIMEOUT_MS : Z := 5000.

(** The global variables, in the order of their declarations. *)
Record State : Type := mkState {
  row : Z;
  celcius : Z;
  fahrenheit : float;
  humidity : Z;
  input_stage : Z;
  input_len : Z;
  input_str : string;
  input_modified : bool;
  temp_min_c : Z;
  temp_min_f : float;
  temp_max_c : Z;
  temp_max_f : float;
  humidity_min : Z;
  humidity_max : Z;
  unit : bool;
  mode : Z
}.

(** The store as the initialisers leave it. *)
Definition boot : State :=
  {| row := -1;
     celcius := 0;
     fahrenheit := S754_zero false;
     humidity := 0;
     input_stage := -1;
     input_len := -1;
     input_str := EmptyString;
     input_modified := false;
     temp_min_c := TEMP_MIN_C;
     temp_min_f := int_to_float TEMP_MIN_F;
     temp_max_c := TEMP_MAX_C;
     temp_max_f := int_to_float TEMP_MAX_F;
     humidity_min := HUMIDITY_MIN;
     humidity_max := HUMIDITY_MAX;
     unit := CELCIUS;
     mode := IDLE |}.

(** Assignment to one global. *)
Definition set_row (v : Z) (s : State) : State :=
  {| row := v;
     celcius := celcius s;
     fahrenheit := fahrenheit s;
     humidity := humidity s;
     input_stage := input_stage s;
     input_len := input_len s;
     input_str := input_str s;
     input_modified := input_modified s;
     temp_min_c := temp_min_c s;
     temp_min_f := temp_min_f s;
     temp_max_c := temp_max_c s;
     temp_max_f := temp_max_f s;
     humidity_min := humidity_min s;
     humidity_max := humidity_max s;
     unit := unit s;
     mode := mode s |}.

Definition set_celcius (v : Z) (s : State) : State :=
  {| row := row s;
     celcius := v;
     fahrenheit := fahrenheit s;
     humidity := humidity s;
     input_stage := input_stage s;
     input_len := input_len s;
     input_str := input_str s;
     input_modified := input_modified s;
     temp_min_c := temp_min_c s;
     temp_min_f := temp_min_f s;
     temp_max_c := temp_max_c s;
     temp_max_f := temp_max_f s;
     humidity_min := humidity_min s;
     humidity_max := humidity_max s;
     unit := unit s;
     mode := mode s |}.

Definition set_fahrenheit (v : float) (s : State) : State :=
  {| row := row s;
     celcius := celcius s;
     fahrenheit := v;
     humidity := humidity s;
     input_stage := input_stage s;
     input_len := input_len s;
     input_str := input_str s;
     input_modified := input_modified s;
     temp_min_c := temp_min_c s;
     temp_min_f := temp_min_f s;
     temp_max_c := temp_max_c s;
     temp_max_f := temp_max_f s;
     humidity_min := humidity_min s;
     humidity_max := humidity_max s;
     unit := unit s;
     mode := mode s |}.

Definition set_humidity (v : Z) (s : State) : State :=
  {| row := row s;
     celcius := celcius s;
     fahrenheit := fahrenheit s;
     humidity := v;
     input_stage := input_stage s;
     input_len := input_len s;
     input_str := input_str s;
     input_modified := input_modified s;
     temp_min_c := temp_min_c s;
     temp_min_f := temp_min_f s;
     temp_max_c := temp_max_c s;
     temp_max_f := temp_max_f s;
     humidity_min := humidity_min s;
     humidity_max := humidity_max s;
     unit := unit s;
     mode := mode s |}.

Definition set_input_stage (v : Z) (s : State) : State :=
  {| row := row s;
     celcius := celcius s;
     fahrenheit := fahrenheit s;
     humidity := humidity s;
     input_stage := v;
     input_len := input_len s;
     input_str := input_str s;
     input_modified := input_modified s;
     temp_min_c := temp_min_c s;
     temp_min_f := temp_min_f s;
     temp_max_c := temp_max_c s;
     temp_max_f := temp_max_f s;
     humidity_min := humidity_min s;
     humidity_max := humidity_max s;
     unit := unit s;
     mode := mode s |}.

Definition set_input_len (v : Z) (s : State) : State :=
  {| row := row s;
     celcius := celcius s;
     fahrenheit := fahrenheit s;
     humidity := humidity s;
     input_stage := input_stage s;
     input_len := v;
     input_str := input_str s;
     input_modified := input_modified s;
     temp_min_c := temp_min_c s;
     temp_min_f := temp_min_f s;
     temp_max_c := temp_max_c s;
     temp_max_f := temp_max_f s;
     humidity_min := humidity_min s;
     humidity_max := humidity_max s;
     unit := unit s;
     mode := mode s |}.

Definition set_input_str (v : string) (s : State) : State :=
  {| row := row s;
     celcius := celcius s;
     fahrenheit := fahrenheit s;
     humidity := humidity s;
     input_stage := input_stage s;
     input_len := input_len s;
     input_str := v;
     input_modified := input_modified s;
     temp_min_c := temp_min_c s;
     temp_min_f := temp_min_f s;
     temp_max_c := temp_max_c s;
     temp_max_f := temp_max_f s;
     humidity_min := humidity_min s;
     humidity_max := humidity_max s;
     unit := unit s;
     mode := mode s |}.

Definition set_input_modified (v : bool) (s : State) : State :=
  {| row := row s;
     celcius := celcius s;
     fahrenheit := fahrenheit s;
     humidity := humidity s;
     input_stage := input_stage s;
     input_len := input_len s;
     input_str := input_str s;
     input_modified := v;
     temp_min_c := temp_min_c s;
     temp_min_f := temp_min_f s;
     temp_max_c := temp_max_c s;
     temp_max_f := temp_max_f s;
     humidity_min := humidity_min s;
     humidity_max := humidity_max s;
     unit := unit s;
     mode := mode s |}.

Definition set_temp_min_c (v : Z) (s : State) : State :=
  {| row := row s;
     celcius := celcius s;
     fahrenheit := fahrenheit s;
     humidity := humidity s;
     input_stage := input_stage s;
     input_len := input_len s;
     input_str := input_str s;
     input_modified := input_modified s;
     temp_min_c := v;
     temp_min_f := temp_min_f s;
     temp_max_c := temp_max_c s;
     temp_max_f := temp_max_f s;
     humidity_min := humidity_min s;
     humidity_max := humidity_max s;
     unit := unit s;
     mode := mode s |}.

Definition set_temp_min_f (v : float) (s : State) : State :=
  {| row := row s;
     celcius := celcius s;
     fahrenheit := fahrenheit s;
     humidity := humidity s;
     input_stage := input_stage s;
     input_len := input_len s;
     input_str := input_str s;
     input_modified := input_modified s;
     temp_min_c := temp_min_c s;
     temp_min_f := v;
     temp_max_c := temp_max_c s;
     temp_max_f := temp_max_f s;
     humidity_min := humidity_min s;
     humidity_max := humidity_max s;
     unit := unit s;
     mode := mode s |}.

Definition set_temp_max_c (v : Z) (s : State) : State :=
  {| row := row s;
     celcius := celcius s;
     fahrenheit := fahrenheit s;
     humidity := humidity s;
     input_stage := input_stage s;
     input_len := input_len s;
     input_str := input_str s;
     input_modified := input_modified s;
     temp_min_c := temp_min_c s;
     temp_min_f := temp_min_f s;
     temp_max_c := v;
     temp_max_f := temp_max_f s;
     humidity_min := humidity_min s;
     humidity_max := humidity_max s;
     unit := unit s;
     mode := mode s |}.

Definition set_temp_max_f (v : float) (s : State) : State :=
  {| row := row s;
     celcius := celcius s;
     fahrenheit := fahrenheit s;
     humidity := humidity s;
     input_stage := input_stage s;
     input_len := input_len s;
     input_str := input_str s;
     input_modified := input_modified s;
     temp_min_c := temp_min_c s;
     temp_min_f := temp_min_f s;
     temp_max_c := temp_max_c s;
     temp_max_f := v;
     humidity_min := humidity_min s;
     humidity_max := humidity_max s;
     unit := unit s;
     mode := mode s |}.

Definition set_humidity_min (v : Z) (s : State) : State :=
  {| row := row s;
     celcius := celcius s;
     fahrenheit := fahrenheit s;
     humidity := humidity s;
     input_stage := input_stage s;
     input_len := input_len s;
     input_str := input_str s;
     input_modified := input_modified s;
     temp_min_c := temp_min_c s;
     temp_min_f := temp_min_f s;
     temp_max_c := temp_max_c s;
     temp_max_f := temp_max_f s;
     humidity_min := v;
     humidity_max := humidity_max s;
     unit := unit s;
     mode := mode s |}.

Definition set_humidity_max (v : Z) (s : State) : State :=
  {| row := row s;
     celcius := celcius s;
     fahrenheit := fahrenheit s;
     humidity := humidity s;
     input_stage := input_stage s;
     input_len := input_len s;
     input_str := input_str s;
     input_modified := input_modified s;
     temp_min_c := temp_min_c s;
     temp_min_f := temp_min_f s;
     temp_max_c := temp_max_c s;
     temp_max_f := temp_max_f s;
     humidity_min := humidity_min s;
     humidity_max := v;
     unit := unit s;
     mode := mode s |}.

Definition set_unit (v : bool) (s : State) : State :=
  {| row := row s;
     celcius := celcius s;
     fahrenheit := fahrenheit s;
     humidity := humidity s;
     input_stage := input_stage s;
     input_len := input_len s;
     input_str := input_str s;
     input_modified := input_modified s;
     temp_min_c := temp_min_c s;
     temp_min_f := temp_min_f s;
     temp_max_c := temp_max_c s;
     temp_max_f := temp_max_f s;
     humidity_min := humidity_min s;
     humidity_max := humidity_max s;
     unit := v;
     mode := mode s |}.

Definition set_mode (v : Z) (s : State) : State :=
  {| row := row s;
     celcius := celcius s;
     fahrenheit := fahrenheit s;
     humidity := humidity s;
     input_stage := input_stage s;
     input_len := input_len s;
     input_str := input_str s;
     input_modified := input_modified s;
     temp_min_c := temp_min_c s;
     temp_min_f := temp_min_f s;
     temp_max_c := temp_max_c s;
     temp_max_f := temp_max_f s;
     humidity_min := humidity_min s;
     humidity_max := humidity_max s;
     unit := unit s;
     mode := v |}.

(* ===================================================================== *)
(** ** Peripherals and the monad of the program *)

(** One call to a collaborator of the program.  [LcdPrintInt v] and
    [LcdPrintFloat v] stand for [lcd.print(to_string(v).c_str())]. *)
Inductive Effect : Type :=
| LcdClear
| LcdPrint (text : string)
| LcdPrintInt (value : Z)
| LcdPrintFloat (value : float)
| LcdSetCursor (col line : Z)
| SensorRead
| BuzzerWrite (level : Z)
| LedWrite (level : Z)
| SleepFor (millisec : Z)
| QueueCallFlash (millisec : Z)
| QueueDispatchOnce
| WatchdogKick
| RowsOff
| RowPower (odr_bits : Z).

(** What the DHT11 driver hands out after a [sensor.read()]. *)
Record Reading : Type := mkReading {
  getCelsius : Z;
  getFahrenheit : float;
  getHumidity : Z
}.

(** A computation reads and writes the store and calls peripherals. *)
Definition M (A : Type) : Type := State -> A * State * list Effect.

Definition ret {A} (a : A) : M A := fun s => (a, s, []).

Definition bind {A B} (m : M A) (k : A -> M B) : M B :=
  fun s =>
    let '(a, s1, o1) := m s in
    let '(b, s2, o2) := k a s1 in
    (b, s2, o1 ++ o2).

Definition get : M State := fun s => (s, s, []).
Definition modify (f : State -> State) : M void := fun s => (tt, f s, []).
Definition emit (e : Effect) : M void := fun s => (tt, s, [e]).

Declare Scope prog_scope.
Delimit Scope prog_scope with prog.
Notation "x <- m ;; k" := (bind m (fun x => k))
  (at level 61, m at next level, right associativity) : prog_scope.
Notation "m ;; k" := (bind m (fun _ => k))
  (at level 61, right associativity) : prog_scope.
Local Open Scope prog_scope.

Definition skip : M void := ret tt.

(** [if (c) { body }] *)
Definition when (c : bool) (body : M void) : M void := if c then body else skip.

(** Result, final store and output of a computation. *)
Definition value {A} (m : M A) (s : State) : A := fst (fst (m s)).
Definition exec {A} (m : M A) (s : State) : State := snd (fst (m s)).
Definition output {A} (m : M A) (s : State) : list Effect := snd (m s).

(* ===================================================================== *)
(** ** ISR - Keypad Input (source lines 328-421) *)

(** [input_str.append(digit)] *)
Definition input_str_append (digit : string) : M void :=
  modify (fun s => set_input_str (String.append (input_str s) digit) s).

(** [input_len++] *)
Definition input_len_incr : M void :=
  modify (fun s => set_input_len (Int.incr (input_len s)) s).

(** ISR for column 0: keys 1, 4, 7 and the star key. *)
Definition isr_c0 : M void :=
  s <- get ;;
  when ((mode s =? INPUT) && (input_len s <? MAX_INPUT))
    ((if row s =? 0 then input_str_append "1"
      else if row s =? 1 then input_str_append "4"
      else if row s =? 2 then input_str_append "7"
      else skip) ;;
     input_len_incr ;;
     modify (set_input_modified true)) ;;
  emit (QueueCallFlash BOUNCE).

(** ISR for column 1: keys 2, 5, 8 and 0. *)
Definition isr_c1 : M void :=
  s <- get ;;
  when ((mode s =? INPUT) && (input_len s <? MAX_INPUT))
    ((if row s =? 0 then input_str_append "2"
      else if row s =? 1 then input_str_append "5"
      else if row s =? 2 then input_str_append "8"
      else if row s =? 3 then input_str_append "0"
      else skip) ;;
     input_len_incr ;;
     modify (set_input_modified true)) ;;
  emit (QueueCallFlash BOUNCE).

(** ISR for column 2: keys 3, 6, 9 and the hash key. *)
Definition isr_c2 : M void :=
  s <- get ;;
  when ((mode s =? INPUT) && (input_len s <? MAX_INPUT))
    ((if row s =? 0 then input_str_append "3"
      else if row s =? 1 then input_str_append "6"
      else if row s =? 2 then input_str_append "9"
      else skip) ;;
     input_len_incr ;;
     modify (set_input_modified true)) ;;
  emit (QueueCallFlash BOUNCE).

(** ISR for column 3: the command keys A, B, C and D. *)
Definition isr_c3 : M void :=
  s <- get ;;
  (if row s =? 0 then
     when (negb (input_stage s =? -1))
       (modify (set_input_stage (Int.incr (input_stage s))))
   else if row s =? 1 then
     when (negb (mode s =? INPUT)) (modify (set_mode IDLE))
   else if row s =? 2 then
     (if mode s =? INPUT then
        modify (set_input_str EmptyString) ;;
        modify (set_input_len 0) ;;
        modify (set_input_modified true)
      else
        modify (set_unit (negb (unit s))))
   else if row s =? 3 then
     modify (set_mode INPUT)
   else skip) ;;
  emit (QueueCallFlash BOUNCE).

(* ===================================================================== *)
(** ** The polling loop of [main] (source lines 211-240) *)

(** One iteration of [while (true)]: power the next keypad row, feed the
    watchdog, run one queued event. *)
Definition main_loop : M void :=
  emit RowsOff ;;
  modify (fun s => set_row (Int.incr (row s)) s) ;;
  s <- get ;;
  when (row s >? 3) (modify (set_row 0)) ;;
  s <- get ;;
  (if row s =? 0 then emit (RowPower 4096)
   else if row s =? 1 then emit (RowPower 8192)
   else if row s =? 2 then emit (RowPower 16384)
   else emit (RowPower 32768)) ;;
  emit WatchdogKick ;;
  emit QueueDispatchOnce.

(** [flash], the event the handlers put on the queue. *)
Definition flash (millisec : Z) : M void :=
  emit (LedWrite 1) ;; emit (SleepFor millisec) ;; emit (LedWrite 0).

(* ===================================================================== *)
(** ** Update Monitor State (source lines 427-499) *)

Definition update_sensor (r : Reading) : M void :=
  emit SensorRead ;;
  modify (set_celcius (getCelsius r)) ;;
  modify (set_fahrenheit (getFahrenheit r)) ;;
  modify (set_humidity (getHumidity r)).

Definition beep_and_flash (millisec : Z) : M void :=
  emit (BuzzerWrite 1) ;; emit (LedWrite 1) ;;
  emit (SleepFor millisec) ;;
  emit (BuzzerWrite 0) ;; emit (LedWrite 0).

(** The four tests of [monitor_state], in the order of its [if] chain. *)
Definition temperature_too_low (s : State) : bool :=
  (Bool.eqb (unit s) FAHRENHEIT && flt (fahrenheit s) (temp_min_f s))
  || (Bool.eqb (unit s) CELCIUS && (celcius s <? temp_min_c s)).

Definition temperature_too_high (s : State) : bool :=
  (Bool.eqb (unit s) FAHRENHEIT && fgt (fahrenheit s) (temp_max_f s))
  || (Bool.eqb (unit s) CELCIUS && (celcius s >? temp_max_c s)).

Definition humidity_too_low (s : State) : bool := humidity s <? humidity_min s.

Definition humidity_too_high (s : State) : bool := humidity s >? humidity_max s.

(** The statements of the monitor thread between two loop tests; a point
    names the statement the thread executes next. *)
Inductive MonPoint : Type :=
| MonSensorRead            (* sensor.read(); *)
| MonGetCelsius            (* celcius = sensor.getCelsius(); *)
| MonGetFahrenheit         (* fahrenheit = sensor.getFahrenheit(); *)
| MonGetHumidity           (* humidity = sensor.getHumidity(); *)
| MonTestTemperatureLow    (* the first [if] of the chain *)
| MonTestTemperatureHigh   (* the second *)
| MonTestHumidityLow       (* the third *)
| MonTestHumidityHigh      (* the fourth *)
| MonAlertEnter.           (* mode = ALERT; *)

(** Where the monitor thread stands: at the test of its inner [while], at
    the test of the [while] of [alert], or at a statement between two
    tests. *)
Inductive MonPc : Type := MonLoop | MonAlert | MonAt (p : MonPoint).

Definition mon_at_test (pc : MonPc) : bool :=
  match pc with
  | MonAt _ => false
  | _ => true
  end.

(** [alert] up to its loop: [mode = ALERT; int interval = 1000;] *)
Definition alert_enter : M void := modify (set_mode ALERT).

(** One test of [while (mode == ALERT)] and, when it holds, one body. *)
Definition alert_poll : M bool :=
  let interval := 1000 in
  s <- get ;;
  if mode s =? ALERT then
    beep_and_flash interval ;; emit (SleepFor interval) ;; ret true
  else ret false.

(** Thread 3, [t_monitor], one statement at a time. *)
Definition monitor_statement (r : Reading) (pc : MonPc) : M MonPc :=
  match pc with
  | MonLoop =>
      s <- get ;;
      if mode s =? MONITOR then ret (MonAt MonSensorRead)
      else emit (SleepFor 1000) ;; ret MonLoop
  | MonAt MonSensorRead =>
      emit SensorRead ;; ret (MonAt MonGetCelsius)
  | MonAt MonGetCelsius =>
      modify (set_celcius (getCelsius r)) ;; ret (MonAt MonGetFahrenheit)
  | MonAt MonGetFahrenheit =>
      modify (set_fahrenheit (getFahrenheit r)) ;; ret (MonAt MonGetHumidity)
  | MonAt MonGetHumidity =>
      modify (set_humidity (getHumidity r)) ;;
      ret (MonAt MonTestTemperatureLow)
  | MonAt MonTestTemperatureLow =>
      s <- get ;;
      if temperature_too_low s then
        emit LcdClear ;; emit (LcdPrint "Temperature Too") ;;
        emit (LcdSetCursor 6 1) ;; emit (LcdPrint "Low") ;;
        ret (MonAt MonAlertEnter)
      else ret (MonAt MonTestTemperatureHigh)
  | MonAt MonTestTemperatureHigh =>
      s <- get ;;
      if temperature_too_high s then
        emit LcdClear ;; emit (LcdPrint "Temperature Too") ;;
        emit (LcdSetCursor 6 1) ;; emit (LcdPrint "High") ;;
        ret (MonAt MonAlertEnter)
      else ret (MonAt MonTestHumidityLow)
  | MonAt MonTestHumidityLow =>
      s <- get ;;
      if humidity_too_low s then
        emit LcdClear ;; emit (LcdPrint "Humidity Too Low") ;;
        ret (MonAt MonAlertEnter)
      else ret (MonAt MonTestHumidityHigh)
  | MonAt MonTestHumidityHigh =>
      s <- get ;;
      if humidity_too_high s then
        emit LcdClear ;; emit (LcdPrint "Humidity Too") ;;
        emit (LcdSetCursor 6 1) ;; emit (LcdPrint "High") ;;
        ret (MonAt MonAlertEnter)
      else ret MonLoop
  | MonAt MonAlertEnter =>
      alert_enter ;; ret MonAlert
  | MonAlert =>
      again <- alert_poll ;;
      ret (if again then MonAlert else MonLoop)
  end.

(** Statements up to the next loop test, at most [fuel] of them. *)
Fixpoint monitor_statements (r : Reading) (fuel : nat) (pc : MonPc)
  : M MonPc :=
  match fuel with
  | O => ret pc
  | S n =>
      pc' <- monitor_statement r pc ;;
      if mon_at_test pc' then ret pc' else monitor_statements r n pc'
  end.

(** Thread 3, [t_monitor]: from where the thread stands to the next loop
    test, without preemption.  From a loop test this is the code of the
    source up to the next test; from a point in between it is what is
    left of it.  No path between two tests has more than ten statements
    ([monitor_state_ends_at_test]). *)
Definition monitor_state (r : Reading) (pc : MonPc) : M MonPc :=
  match pc with
  | MonLoop =>
      s <- get ;;
      if mode s =? MONITOR then
        update_sensor r ;;
        s <- get ;;
        if temperature_too_low s then
          emit LcdClear ;; emit (LcdPrint "Temperature Too") ;;
          emit (LcdSetCursor 6 1) ;; emit (LcdPrint "Low") ;;
          alert_enter ;; ret MonAlert
        else if temperature_too_high s then
          emit LcdClear ;; emit (LcdPrint "Temperature Too") ;;
          emit (LcdSetCursor 6 1) ;; emit (LcdPrint "High") ;;
          alert_enter ;; ret MonAlert
        else if humidity_too_low s then
          emit LcdClear ;; emit (LcdPrint "Humidity Too Low") ;;
          alert_enter ;; ret MonAlert
        else if humidity_too_high s then
          emit LcdClear ;; emit (LcdPrint "Humidity Too") ;;
          emit (LcdSetCursor 6 1) ;; emit (LcdPrint "High") ;;
          alert_enter ;; ret MonAlert
        else ret MonLoop
      else
        emit (SleepFor 1000) ;; ret MonLoop
  | MonAlert =>
      again <- alert_poll ;;
      ret (if again then MonAlert else MonLoop)
  | MonAt p => monitor_statements r 10 (MonAt p)
  end.

(* ===================================================================== *)
(** ** Getting Input (source lines 505-545) *)

Definition prompts : list string :=
  ["Min Temperature?"; "Max Temperature?"; "Min Humidity?"; "Max Humidity?"].

Definition prompt (current_stage : Z) : string :=
  nth (Z.to_nat current_stage) prompts EmptyString.

Definition print_prompt (text : string) : M void :=
  emit LcdClear ;; emit (LcdPrint text) ;; emit (LcdSetCursor 0 1).

(** [get_input] up to its loop: the prompt is printed, the entry is
    emptied. *)
Definition get_input_enter (text : string) : M void :=
  print_prompt text ;;
  modify (set_input_str EmptyString) ;;
  modify (set_input_len 0).

(** One test of [while (input_stage <= current_stage)] and, when it holds,
    one body; the result tells whether the loop goes on. *)
Definition get_input_poll (text : string) (current_stage : Z) : M bool :=
  s <- get ;;
  if input_stage s <=? current_stage then
    when (input_modified s)
      (print_prompt text ;;
       emit (LcdPrint (input_str s)) ;;
       modify (set_input_modified false)) ;;
    ret true
  else ret false.

Definition validate_input (s : State) : bool :=
  let valid_temp_c :=
    (TEMP_MIN_C <=? temp_min_c s) && (temp_min_c s <=? temp_max_c s)
    && (temp_max_c s <=? TEMP_MAX_C) in
  let valid_temp_f :=
    fle (int_to_float TEMP_MIN_F) (temp_min_f s)
    && fle (temp_min_f s) (temp_max_f s)
    && fle (temp_max_f s) (int_to_float TEMP_MAX_F) in
  let valid_humidity :=
    (HUMIDITY_MIN <=? humidity_min s) && (humidity_min s <=? humidity_max s)
    && (humidity_max s <=? HUMIDITY_MAX) in
  valid_humidity && valid_temp_c && valid_temp_f.

(* ===================================================================== *)
(** ** [atoi] of the C library, on the characters of a [std::string] *)

Definition is_space (c : ascii) : bool :=
  let n := Z.of_nat (nat_of_ascii c) in
  (n =? 32) || ((9 <=? n) && (n <=? 13)).

Definition digit_value (c : ascii) : option Z :=
  let n := Z.of_nat (nat_of_ascii c) in
  if (48 <=? n) && (n <=? 57) then Some (n - 48) else None.

Fixpoint skip_spaces (s : string) : string :=
  match s with
  | String c rest => if is_space c then skip_spaces rest else s
  | EmptyString => s
  end.

Fixpoint atoi_digits (s : string) (acc : Z) : Z :=
  match s with
  | String c rest =>
      match digit_value c with
      | Some d => atoi_digits rest (acc * 10 + d)
      | None => acc
      end
  | EmptyString => acc
  end.

(** White space is skipped, one sign is accepted, then the longest run of
    decimal digits is read; a value outside [int] is undefined in C and
    wraps here. *)
Definition atoi (s : string) : Z :=
  match skip_spaces s with
  | String "-" rest => Int.wrap (- atoi_digits rest 0)
  | String "+" rest => Int.wrap (atoi_digits rest 0)
  | digits => Int.wrap (atoi_digits digits 0)
  end.

(* ===================================================================== *)
(** ** Thread 2, [t_lcd] (source lines 244-322) *)

(** The statements of the display thread between two loop tests; a point
    names the statement the thread executes next. *)
Inductive LcdPoint : Type :=
| LcdSensorRead                        (* sensor.read(); *)
| LcdGetCelsius                        (* celcius = sensor.getCelsius(); *)
| LcdGetFahrenheit                     (* fahrenheit = ... *)
| LcdGetHumidity                       (* humidity = ... *)
| LcdTestUnit                          (* if (unit == CELCIUS) *)
| LcdPrintCelsius                      (* lcd.print(to_string(celcius)..); *)
| LcdPrintFahrenheit                   (* lcd.print(to_string(fahrenheit)..); *)
| LcdPrintHumidity                     (* the second line, then the sleep *)
| LcdTestInput                         (* else if (mode == INPUT) *)
| LcdOpenSession                       (* input_stage = 0; *)
| LcdClearEntry (current_stage : Z)    (* input_str = ...; *)
| LcdClearLength (current_stage : Z)   (* input_len = 0; *)
| LcdTestModified (current_stage : Z)  (* if (input_modified) *)
| LcdPrintEntry (current_stage : Z)    (* lcd.print(input_str.c_str()); *)
| LcdLowerFlag (current_stage : Z)     (* input_modified = false; *)
| LcdConvert (current_stage : Z)       (* the tests on the stage and unit *)
| LcdStoreEntry (current_stage : Z) (celsius : bool)
                                       (* temp_.._c = atoi(..); or _f *)
| LcdStorePaired (current_stage : Z) (celsius : bool)
                                       (* temp_.._f = toFahrenheit(..); *)
| LcdStoreHumidity (current_stage : Z) (* humidity_.. = atoi(..); *)
| LcdCloseSession                      (* input_stage = -1; *)
| LcdValidate                          (* if (validate_input()) *)
| LcdSetMonitor.                       (* mode = MONITOR; *)

(** Where the display thread stands: at the test of [while (true)], at
    the test of the loop of [get_input] for prompt [current_stage], or at
    a statement between two tests. *)
Inductive LcdPc : Type :=
| LcdLoop
| LcdGetInput (current_stage : Z)
| LcdAt (p : LcdPoint).

Definition lcd_at_test (pc : LcdPc) : bool :=
  match pc with
  | LcdAt _ => false
  | _ => true
  end.

(** The branch for [MONITOR] and [IDLE]: display the climate. *)
Definition display_climate (r : Reading) : M void :=
  emit LcdClear ;;
  update_sensor r ;;
  s <- get ;;
  (if Bool.eqb (unit s) CELCIUS then
     emit (LcdPrint "Temp (C): ") ;; emit (LcdPrintInt (celcius s))
   else
     emit (LcdPrint "Temp (F): ") ;; emit (LcdPrintFloat (fahrenheit s))) ;;
  emit (LcdSetCursor 0 1) ;;
  emit (LcdPrint "Humidity: ") ;;
  emit (LcdPrintInt (humidity s)) ;;
  emit (SleepFor 1000).

(** The body of the [for] loop after [get_input] has returned: the entry
    is converted and stored. *)
Definition convert_input (current_stage : Z) : M void :=
  s <- get ;;
  if current_stage =? 0 then
    if Bool.eqb (unit s) CELCIUS then
      modify (set_temp_min_c (atoi (input_str s))) ;;
      modify (fun s => set_temp_min_f (toFahrenheit (temp_min_c s)) s)
    else
      modify (set_temp_min_f (int_to_float (atoi (input_str s)))) ;;
      modify (fun s => set_temp_min_c (toCelcius (temp_min_f s)) s)
  else if current_stage =? 1 then
    if Bool.eqb (unit s) CELCIUS then
      modify (set_temp_max_c (atoi (input_str s))) ;;
      modify (fun s => set_temp_max_f (toFahrenheit (temp_max_c s)) s)
    else
      modify (set_temp_max_f (int_to_float (atoi (input_str s)))) ;;
      modify (fun s => set_temp_max_c (toCelcius (temp_max_f s)) s)
  else if current_stage =? 2 then
    modify (set_humidity_min (atoi (input_str s)))
  else if current_stage =? 3 then
    modify (set_humidity_max (atoi (input_str s)))
  else skip.

(** The code after the [for] loop: the entries are validated. *)
Definition input_done : M void :=
  modify (set_input_stage (-1)) ;;
  s <- get ;;
  if validate_input s then
    modify (set_mode MONITOR)
  else
    emit LcdClear ;;
    emit (LcdPrint "Invalid Input") ;;
    emit (LcdSetCursor 0 1) ;;
    emit (LcdPrint "Please Try Again") ;;
    emit (SleepFor 3000).

(** The test [current_stage < 4] of the [for] loop and what follows it. *)
Definition for_stage (current_stage : Z) : M LcdPc :=
  if current_stage <? 4 then
    get_input_enter (prompt current_stage) ;;
    ret (LcdGetInput current_stage)
  else
    input_done ;; ret LcdLoop.

(** The test [current_stage < 4] of the [for] loop and the call of
    [print_prompt] that opens [get_input]. *)
Definition for_stage_statement (current_stage : Z) : M LcdPc :=
  if current_stage <? 4 then
    print_prompt (prompt current_stage) ;;
    ret (LcdAt (LcdClearEntry current_stage))
  else ret (LcdAt LcdCloseSession).

(** Thread 2, [t_lcd], one statement at a time. *)
Definition update_lcd_statement (r : Reading) (pc : LcdPc) : M LcdPc :=
  match pc with
  | LcdLoop =>
      s <- get ;;
      if (mode s =? MONITOR) || (mode s =? IDLE) then
        emit LcdClear ;; ret (LcdAt LcdSensorRead)
      else ret (LcdAt LcdTestInput)
  | LcdAt LcdSensorRead =>
      emit SensorRead ;; ret (LcdAt LcdGetCelsius)
  | LcdAt LcdGetCelsius =>
      modify (set_celcius (getCelsius r)) ;; ret (LcdAt LcdGetFahrenheit)
  | LcdAt LcdGetFahrenheit =>
      modify (set_fahrenheit (getFahrenheit r)) ;; ret (LcdAt LcdGetHumidity)
  | LcdAt LcdGetHumidity =>
      modify (set_humidity (getHumidity r)) ;; ret (LcdAt LcdTestUnit)
  | LcdAt LcdTestUnit =>
      s <- get ;;
      if Bool.eqb (unit s) CELCIUS then
        emit (LcdPrint "Temp (C): ") ;; ret (LcdAt LcdPrintCelsius)
      else
        emit (LcdPrint "Temp (F): ") ;; ret (LcdAt LcdPrintFahrenheit)
  | LcdAt LcdPrintCelsius =>
      s <- get ;;
      emit (LcdPrintInt (celcius s)) ;; ret (LcdAt LcdPrintHumidity)
  | LcdAt LcdPrintFahrenheit =>
      s <- get ;;
      emit (LcdPrintFloat (fahrenheit s)) ;; ret (LcdAt LcdPrintHumidity)
  | LcdAt LcdPrintHumidity =>
      s <- get ;;
      emit (LcdSetCursor 0 1) ;;
      emit (LcdPrint "Humidity: ") ;;
      emit (LcdPrintInt (humidity s)) ;;
      emit (SleepFor 1000) ;;
      ret LcdLoop
  | LcdAt LcdTestInput =>
      s <- get ;;
      if mode s =? INPUT then ret (LcdAt LcdOpenSession) else ret LcdLoop
  | LcdAt LcdOpenSession =>
      modify (set_input_stage 0) ;;
      for_stage_statement 0
  | LcdAt (LcdClearEntry current_stage) =>
      modify (set_input_str EmptyString) ;;
      ret (LcdAt (LcdClearLength current_stage))
  | LcdAt (LcdClearLength current_stage) =>
      modify (set_input_len 0) ;;
      ret (LcdGetInput current_stage)
  | LcdGetInput current_stage =>
      s <- get ;;
      if input_stage s <=? current_stage then
        ret (LcdAt (LcdTestModified current_stage))
      else ret (LcdAt (LcdConvert current_stage))
  | LcdAt (LcdTestModified current_stage) =>
      s <- get ;;
      if input_modified s then
        print_prompt (prompt current_stage) ;;
        ret (LcdAt (LcdPrintEntry current_stage))
      else ret (LcdGetInput current_stage)
  | LcdAt (LcdPrintEntry current_stage) =>
      s <- get ;;
      emit (LcdPrint (input_str s)) ;;
      ret (LcdAt (LcdLowerFlag current_stage))
  | LcdAt (LcdLowerFlag current_stage) =>
      modify (set_input_modified false) ;;
      ret (LcdGetInput current_stage)
  | LcdAt (LcdConvert current_stage) =>
      s <- get ;;
      if current_stage =? 0 then
        ret (LcdAt (LcdStoreEntry current_stage (Bool.eqb (unit s) CELCIUS)))
      else if current_stage =? 1 then
        ret (LcdAt (LcdStoreEntry current_stage (Bool.eqb (unit s) CELCIUS)))
      else if current_stage =? 2 then
        ret (LcdAt (LcdStoreHumidity current_stage))
      else if current_stage =? 3 then
        ret (LcdAt (LcdStoreHumidity current_stage))
      else for_stage_statement (Int.incr current_stage)
  | LcdAt (LcdStoreEntry current_stage celsius) =>
      s <- get ;;
      (if current_stage =? 0 then
         if celsius then modify (set_temp_min_c (atoi (input_str s)))
         else modify (set_temp_min_f (int_to_float (atoi (input_str s))))
       else
         if celsius then modify (set_temp_max_c (atoi (input_str s)))
         else modify (set_temp_max_f (int_to_float (atoi (input_str s))))) ;;
      ret (LcdAt (LcdStorePaired current_stage celsius))
  | LcdAt (LcdStorePaired current_stage celsius) =>
      (if current_stage =? 0 then
         if celsius then
           modify (fun s => set_temp_min_f (toFahrenheit (temp_min_c s)) s)
         else
           modify (fun s => set_temp_min_c (toCelcius (temp_min_f s)) s)
       else
         if celsius then
           modify (fun s => set_temp_max_f (toFahrenheit (temp_max_c s)) s)
         else
           modify (fun s => set_temp_max_c (toCelcius (temp_max_f s)) s)) ;;
      for_stage_statement (Int.incr current_stage)
  | LcdAt (LcdStoreHumidity current_stage) =>
      s <- get ;;
      (if current_stage =? 2 then
         modify (set_humidity_min (atoi (input_str s)))
       else modify (set_humidity_max (atoi (input_str s)))) ;;
      for_stage_statement (Int.incr current_stage)
  | LcdAt LcdCloseSession =>
      modify (set_input_stage (-1)) ;;
      ret (LcdAt LcdValidate)
  | LcdAt LcdValidate =>
      s <- get ;;
      if validate_input s then ret (LcdAt LcdSetMonitor)
      else
        emit LcdClear ;;
        emit (LcdPrint "Invalid Input") ;;
        emit (LcdSetCursor 0 1) ;;
        emit (LcdPrint "Please Try Again") ;;
        emit (SleepFor 3000) ;;
        ret LcdLoop
  | LcdAt LcdSetMonitor =>
      modify (set_mode MONITOR) ;; ret LcdLoop
  end.

(** Statements up to the next loop test, at most [fuel] of them. *)
Fixpoint update_lcd_statements (r : Reading) (fuel : nat) (pc : LcdPc)
  : M LcdPc :=
  match fuel with
  | O => ret pc
  | S n =>
      pc' <- update_lcd_statement r pc ;;
      if lcd_at_test pc' then ret pc' else update_lcd_statements r n pc'
  end.

(** Thread 2, [t_lcd]: from where the thread stands to the next loop
    test, without preemption.  From a loop test this is the code of the
    source up to the next test; from a point in between it is what is
    left of it.  No path between two tests has more than eight statements
    ([update_lcd_ends_at_test]). *)
Definition update_lcd (r : Reading) (pc : LcdPc) : M LcdPc :=
  match pc with
  | LcdLoop =>
      s <- get ;;
      if (mode s =? MONITOR) || (mode s =? IDLE) then
        display_climate r ;; ret LcdLoop
      else if mode s =? INPUT then
        modify (set_input_stage 0) ;;
        for_stage 0
      else ret LcdLoop
  | LcdGetInput current_stage =>
      again <- get_input_poll (prompt current_stage) current_stage ;;
      if again then ret (LcdGetInput current_stage)
      else
        convert_input current_stage ;;
        for_stage (Int.incr current_stage)
  | LcdAt p => update_lcd_statements r 8 (LcdAt p)
  end.

(* ===================================================================== *)
(** ** The keypad and the whole system *)

(** The interrupt lines of the source. *)
Inductive Column : Type := c0 | c1 | c2 | c3.

Definition isr (c : Column) : M void :=
  match c with
  | c0 => isr_c0
  | c1 => isr_c1
  | c2 => isr_c2
  | c3 => isr_c3
  end.

(** The sixteen keys, row by row as they are wired. *)
Inductive Key : Type :=
| K1 | K2 | K3 | KA
| K4 | K5 | K6 | KB
| K7 | K8 | K9 | KC
| KStar | K0 | KHash | KD.

Definition key_row (k : Key) : Z :=
  match k with
  | K1 | K2 | K3 | KA => 0
  | K4 | K5 | K6 | KB => 1
  | K7 | K8 | K9 | KC => 2
  | KStar | K0 | KHash | KD => 3
  end.

Definition key_column (k : Key) : Column :=
  match k with
  | K1 | K4 | K7 | KStar => c0
  | K2 | K5 | K8 | K0 => c1
  | K3 | K6 | K9 | KHash => c2
  | KA | KB | KC | KD => c3
  end.

(** The character printed on a digit key. *)
Definition key_digit (k : Key) : option string :=
  match k with
  | K0 => Some "0" | K1 => Some "1" | K2 => Some "2" | K3 => Some "3"
  | K4 => Some "4" | K5 => Some "5" | K6 => Some "6" | K7 => Some "7"
  | K8 => Some "8" | K9 => Some "9"
  | _ => None
  end.

Definition is_digit_key (k : Key) : bool :=
  match key_digit k with Some _ => true | None => false end.

(** The digits printed on a sequence of keys, in order. *)
Fixpoint digits_of (ks : list Key) : string :=
  match ks with
  | [] => EmptyString
  | k :: rest =>
      String.append (match key_digit k with Some d => d | None => EmptyString end)
                    (digits_of rest)
  end.

(** A key is seen by the program as the interrupt of its column, taken
    while the polling loop has the key's row powered. *)
Definition keypress (k : Key) : M void :=
  modify (set_row (key_row k)) ;; isr (key_column k).

Fixpoint keypresses (ks : list Key) : M void :=
  match ks with
  | [] => skip
  | k :: rest => keypress k ;; keypresses rest
  end.

(** The store together with the positions of the two threads. *)
Record System : Type := mkSystem {
  store : State;
  lcd_pc : LcdPc;
  mon_pc : MonPc
}.

Definition power_on : System :=
  {| store := boot; lcd_pc := LcdLoop; mon_pc := MonLoop |}.

(** What can happen next: an iteration of the polling loop, a key, one
    statement of the display thread or of the monitor thread, or a whole
    stretch of one of them up to its next loop test; the thread events
    carry what the driver of the sensor hands out if it is asked. *)
Inductive Event : Type :=
| Poll
| Press (k : Key)
| Display (r : Reading)
| Monitor (r : Reading)
| DisplayStatement (r : Reading)
| MonitorStatement (r : Reading).

Definition step (ev : Event) (sys : System) : System * list Effect :=
  match ev with
  | Poll =>
      let '(_, s, o) := main_loop (store sys) in
      ({| store := s; lcd_pc := lcd_pc sys; mon_pc := mon_pc sys |}, o)
  | Press k =>
      let '(_, s, o) := keypress k (store sys) in
      ({| store := s; lcd_pc := lcd_pc sys; mon_pc := mon_pc sys |}, o)
  | Display r =>
      let '(pc, s, o) := update_lcd r (lcd_pc sys) (store sys) in
      ({| store := s; lcd_pc := pc; mon_pc := mon_pc sys |}, o)
  | Monitor r =>
      let '(pc, s, o) := monitor_state r (mon_pc sys) (store sys) in
      ({| store := s; lcd_pc := lcd_pc sys; mon_pc := pc |}, o)
  | DisplayStatement r =>
      let '(pc, s, o) := update_lcd_statement r (lcd_pc sys) (store sys) in
      ({| store := s; lcd_pc := pc; mon_pc := mon_pc sys |}, o)
  | MonitorStatement r =>
      let '(pc, s, o) := monitor_statement r (mon_pc sys) (store sys) in
      ({| store := s; lcd_pc := lcd_pc sys; mon_pc := pc |}, o)
  end.

Definition next (ev : Event) (sys : System) : System := fst (step ev sys).

Fixpoint run (evs : list Event) (sys : System) : System :=
  match evs with
  | [] => sys
  | ev :: rest => run rest (next ev sys)
  end.

(** The output of a run. *)
Fixpoint run_output (evs : list Event) (sys : System) : list Effect :=
  match evs with
  | [] => []
  | ev :: rest => snd (step ev sys) ++ run_output rest (next ev sys)
  end.

(** The systems that some sequence of events produces after power-on. *)
Inductive Reachable : System -> Prop :=
| Reachable_power_on : Reachable power_on
| Reachable_next ev sys : Reachable sys -> Reachable (next ev sys).

(** The threshold configuration held by a store. *)
Definition thresholds (s : State) : Z * Z * float * float * Z * Z :=
  (temp_min_c s, temp_max_c s, temp_min_f s, temp_max_f s,
   humidity_min s, humidity_max s).

(* ===================================================================== *)
(** ** Notions used in the statements *)

(** *** Input sessions *)

(** The store at the start of a prompt, as [get_input] sets it up. *)
Definition prompt_open (s : State) : Prop :=
  mode s = INPUT /\ input_str s = EmptyString /\ input_len s = 0.

(** The display thread is at prompt [k], just opened, and the stage counter
    is [k]. *)
Definition prompting (k : Z) (sys : System) : Prop :=
  lcd_pc sys = LcdGetInput k
  /\ input_stage (store sys) = k
  /\ prompt_open (store sys).

(** A new input session: the display thread is at the first prompt, the
    stage counter is 0, the entry is empty. *)
Definition fresh_session (sys : System) : Prop := prompting 0 sys.

(** The three chains of inequalities tested by [validate_input]; the
    Fahrenheit chain is in [float] comparisons, as in the source. *)
Definition valid_chain (s : State) : Prop :=
  (0 <= temp_min_c s /\ temp_min_c s <= temp_max_c s /\ temp_max_c s <= 50)
  /\ (fle (int_to_float 32) (temp_min_f s) = true
      /\ fle (temp_min_f s) (temp_max_f s) = true
      /\ fle (temp_max_f s) (int_to_float 122) = true)
  /\ (20 <= humidity_min s /\ humidity_min s <= humidity_max s
      /\ humidity_max s <= 95).

Definition invalid_notice : list Effect :=
  [LcdClear; LcdPrint "Invalid Input"; LcdSetCursor 0 1;
   LcdPrint "Please Try Again"; SleepFor 3000].

(** The display thread is inside an input session: from the statement
    that opens it, [input_stage = 0], to the write of [mode] that ends
    it. *)
Definition in_session (pc : LcdPc) : bool :=
  match pc with
  | LcdLoop => false
  | LcdGetInput _ => true
  | LcdAt p =>
      match p with
      | LcdSensorRead | LcdGetCelsius | LcdGetFahrenheit | LcdGetHumidity
      | LcdTestUnit | LcdPrintCelsius | LcdPrintFahrenheit
      | LcdPrintHumidity | LcdTestInput => false
      | _ => true
      end
  end.

(** The events of the display thread, and those of the monitor thread. *)
Definition display_event (ev : Event) : bool :=
  match ev with
  | Display _ | DisplayStatement _ => true
  | _ => false
  end.

Definition monitor_event (ev : Event) : bool :=
  match ev with
  | Monitor _ | MonitorStatement _ => true
  | _ => false
  end.

(** *** Modes and alerts *)

Definition mode_valid (s : State) : Prop :=
  In (mode s) [IDLE; INPUT; MONITOR; ALERT].

(** While the alert is on, the monitor thread is inside [alert]. *)
Definition alert_is_sounding (sys : System) : Prop :=
  mode (store sys) = ALERT -> mon_pc sys = MonAlert.


(** The four breaches, and the order in which the specification ranks
    them. *)
Inductive Breach : Type :=
| TemperatureLow | TemperatureHigh | HumidityLow | HumidityHigh.

(** The ranking of the breaches. *)
Definition breach_order : list Breach :=
  [TemperatureLow; TemperatureHigh; HumidityLow; HumidityHigh].

(** A breach against the selected unit: Celsius reading against Celsius
    bound, or Fahrenheit reading against Fahrenheit bound. *)
Definition breached (s : State) (b : Breach) : bool :=
  match b with
  | TemperatureLow =>
      if unit s then celcius s <? temp_min_c s
      else flt (fahrenheit s) (temp_min_f s)
  | TemperatureHigh =>
      if unit s then celcius s >? temp_max_c s
      else fgt (fahrenheit s) (temp_max_f s)
  | HumidityLow => humidity s <? humidity_min s
  | HumidityHigh => humidity s >? humidity_max s
  end.

(** The first breach of the ranking that holds, if any. *)
Definition first_breach (s : State) : option Breach :=
  find (breached s) breach_order.

(** The text put on the display for a breach. *)
Definition breach_notice (b : Breach) : list Effect :=
  match b with
  | TemperatureLow =>
      [LcdClear; LcdPrint "Temperature Too"; LcdSetCursor 6 1; LcdPrint "Low"]
  | TemperatureHigh =>
      [LcdClear; LcdPrint "Temperature Too"; LcdSetCursor 6 1; LcdPrint "High"]
  | HumidityLow =>
      [LcdClear; LcdPrint "Humidity Too Low"]
  | HumidityHigh =>
      [LcdClear; LcdPrint "Humidity Too"; LcdSetCursor 6 1; LcdPrint "High"]
  end.

(** The statement of the monitor thread that tests a breach. *)
Definition breach_test (b : Breach) : MonPoint :=
  match b with
  | TemperatureLow => MonTestTemperatureLow
  | TemperatureHigh => MonTestTemperatureHigh
  | HumidityLow => MonTestHumidityLow
  | HumidityHigh => MonTestHumidityHigh
  end.

(** The display thread is converting an entry: between the return of
    [get_input] and the next prompt. *)
Definition converting (pc : LcdPc) : bool :=
  match pc with
  | LcdAt (LcdConvert _) | LcdAt (LcdStoreEntry _ _)
  | LcdAt (LcdStorePaired _ _) | LcdAt (LcdStoreHumidity _) => true
  | _ => false
  end.

(** *** Conversions on the supported range *)

(** The integers from [lo], [n] of them. *)
Definition Zrange (lo : Z) (n : nat) : list Z :=
  map (fun i => lo + Z.of_nat i) (seq 0 n).

(** The Celsius values whose Fahrenheit image converts back to the value
    below them. *)
Definition short_roundtrip : list Z :=
  [1; 2; 6; 7; 11; 12; 16; 17; 19; 22; 24; 27; 29; 32; 34; 37; 39; 42; 44;
   47; 49].

Definition is_short_roundtrip (c : Z) : bool := existsb (Z.eqb c) short_roundtrip.

(** [toFahrenheit c] was rounded to a [float] below the exact [1.8 c + 32]:
    five times its value is less than [9 c + 160]. *)
Definition rounded_below (c : Z) : bool :=
  5 * scaled (toFahrenheit c) 18 <? (9 * c + 160) * 2 ^ 18.

(** *** Concrete readings, key sequences and systems *)

(** A reading inside every range used below. *)
Definition mild : Reading :=
  {| getCelsius := 25; getFahrenheit := int_to_float 77; getHumidity := 50 |}.

(** A reading above the upper bound of [valid_session]. *)
Definition hot : Reading :=
  {| getCelsius := 45; getFahrenheit := int_to_float 113; getHumidity := 50 |}.

(** The D key, then four entries, each closed by the A key; the display
    thread takes one step after every command key. *)
Definition session (e0 e1 e2 e3 : list Key) : list Event :=
  [Press KD; Display mild]
  ++ map Press e0 ++ [Press KA; Display mild]
  ++ map Press e1 ++ [Press KA; Display mild]
  ++ map Press e2 ++ [Press KA; Display mild]
  ++ map Press e3 ++ [Press KA; Display mild].

(** Bounds 10..40 Celsius and 30..80 percent. *)
Definition valid_session : list Event :=
  session [K1; K0] [K4; K0] [K3; K0] [K8; K0].

(** The same with the temperature bounds exchanged. *)
Definition inverted_session : list Event :=
  session [K4; K0] [K1; K0] [K3; K0] [K8; K0].

(** The system after [valid_session], and after a hot reading. *)
Definition monitoring : System := run valid_session power_on.

Definition alarmed : System := next (Monitor hot) monitoring.

(** The first prompt of a session, just opened. *)
Definition first_prompt : System := run [Press KD; Display mild] power_on.


(** The same for the session 40, 10, 30, 80. *)
Definition confirmed_inverted : System :=
  run [Press KD; Display mild; Press K4; Press K0; Press KA; Display mild;
       Press K1; Press K0; Press KA; Display mild;
       Press K3; Press K0; Press KA; Display mild;
       Press K8; Press K0; Press KA] power_on.

(** The system after the session 40, 10, 30, 80 has been taken. *)
Definition rejected : System := next (Display mild) confirmed_inverted.

(** Nine times the star key. *)
Definition nine_stars : list Event := repeat (Press KStar) 9.

(** The system right after the D key at power-on: the mode is [INPUT],
    the display thread has not yet opened a prompt. *)
Definition awaiting_prompt : System := next (Press KD) power_on.

(** The system right after the D key that follows a validated session. *)
Definition awaiting_second_session : System := next (Press KD) monitoring.




(** A prompt as [get_input] opens it, and eleven digit keys. *)
Definition opened_prompt : State :=
  exec (get_input_enter (prompt 0)) (set_mode INPUT boot).

Definition eleven_digits : list Key :=
  [K1; K2; K3; K4; K5; K6; K7; K8; K9; K0; K1].

(** *** Further notions: the polling loop, entries, readings *)

(** The bit of [GPIOF->ODR] that powers keypad row [r]: [0x1000 << r]. *)
Definition row_power (r : Z) : Z := Z.shiftl 4096 r.

(** What one iteration of the polling loop sends out when it powers row
    [r]. *)
Definition poll_output (r : Z) : list Effect :=
  [RowsOff; RowPower (row_power r); WatchdogKick; QueueDispatchOnce].

(** The latest sensor reading held by a store. *)
Definition reading (s : State) : Z * float * Z :=
  (celcius s, fahrenheit s, humidity s).

(** The number printed on a digit key, and the decimal number written by
    a sequence of keys. *)
Definition key_value (k : Key) : Z :=
  match k with
  | K0 => 0 | K1 => 1 | K2 => 2 | K3 => 3 | K4 => 4
  | K5 => 5 | K6 => 6 | K7 => 7 | K8 => 8 | K9 => 9
  | _ => 0
  end.

Definition decimal (ks : list Key) : Z :=
  fold_left (fun acc k => acc * 10 + key_value k) ks 0.

(** While a session is open the mode is not [MONITOR], and the thread
    stands at [mode = MONITOR] only with thresholds that validate; outside
    a session the thresholds validate whenever the mode is [MONITOR]. *)
Definition monitor_validated (sys : System) : Prop :=
  (in_session (lcd_pc sys) = true -> mode (store sys) <> MONITOR)
  /\ (lcd_pc sys = LcdAt LcdSetMonitor -> validate_input (store sys) = true)
  /\ (mode (store sys) = MONITOR -> validate_input (store sys) = true).

(** The points of the display thread at which the stage counter is -1:
    outside a session, and after the statement that closes it. *)
Definition stage_idle (pc : LcdPc) : bool :=
  match pc with
  | LcdAt LcdValidate | LcdAt LcdSetMonitor => true
  | _ => negb (in_session pc)
  end.

(** The integer bound that prompt [k] sets when Celsius is selected. *)
Definition bound_of (k : Z) (s : State) : Z :=
  if k =? 0 then temp_min_c s
  else if k =? 1 then temp_max_c s
  else if k =? 2 then humidity_min s
  else humidity_max s.


(* ===================================================================== *)
(** * Properties *)


(** Unfolding of the monad, for goals about one computation. *)
Ltac prog :=
  unfold exec, value, output, when, skip, bind, ret, get, modify, emit in *;
  cbn [fst snd] in *.

(** Case analysis on every test that the goal still branches on. *)
Ltac branch_on b :=
  lazymatch b with
  | negb ?c => branch_on c
  | andb ?c _ => branch_on c
  | orb ?c _ => branch_on c
  | _ => destruct b eqn:?
  end.

Ltac branches :=
  repeat match goal with
         | |- context [if ?b then _ else _] => branch_on b; cbn [negb andb orb]
         end.

(** ** The literal and the conversions *)

Lemma lit_1_8_is_nearest :
  ddiv (int_to_double 18) (int_to_double 10) = lit_1_8.
Proof. vm_compute. reflexivity. Qed.

(** [lit_1_8] lies within half a unit in the last place of 18/10. *)
Lemma lit_1_8_error :
  Z.abs (10 * scaled lit_1_8 52 - 18 * 2 ^ 52) * 2 <= 10.
Proof. vm_compute. discriminate. Qed.

Lemma boot_thresholds_agree :
  temp_min_f boot = toFahrenheit (temp_min_c boot)
  /\ temp_max_f boot = toFahrenheit (temp_max_c boot).
Proof. split; vm_compute; reflexivity. Qed.

Lemma Zrange_In lo n z : lo <= z < lo + Z.of_nat n -> In z (Zrange lo n).
Proof.
  intros H. unfold Zrange. apply in_map_iff.
  exists (Z.to_nat (z - lo)). split; [lia|].
  apply in_seq. lia.
Qed.

(** A property checked on every element of a range holds in the range. *)
Lemma Zrange_forallb (p : Z -> bool) lo n :
  forallb p (Zrange lo n) = true ->
  forall z, lo <= z < lo + Z.of_nat n -> p z = true.
Proof.
  intros H z Hz. rewrite forallb_forall in H. apply H, Zrange_In, Hz.
Qed.

Lemma roundtrip_table :
  forallb (fun c =>
             (toCelcius (toFahrenheit c)
                =? (if is_short_roundtrip c then c - 1 else c))
             && Bool.eqb (is_short_roundtrip c) (rounded_below c))
          (Zrange 0 51) = true.
Proof. vm_compute. reflexivity. Qed.

(** C10, as stated, fails: 1 degree Celsius becomes the [float] just
    below 33.8, and that converts back to 0. *)
Lemma roundtrip_fails_at_1 :
  0 <= 1 <= 50
  /\ toFahrenheit 1 = S754_finite false 8860467 (-18)
  /\ toCelcius (toFahrenheit 1) = 0
  /\ toCelcius (toFahrenheit 1) <> 1.
Proof. vm_compute. repeat split; try discriminate; reflexivity. Qed.

(** C10, amended: on the supported range, [toCelcius (toFahrenheit c)] is
    [c] or [c - 1]; it is [c - 1] exactly for the 21 values of
    [short_roundtrip], which are the values where the single-precision
    result of [toFahrenheit] lies below the exact [1.8 c + 32], so that the
    truncation in [toCelcius] lands on the integer below. *)
Theorem roundtrip_on_supported_range (c : Z) :
  0 <= c <= 50 ->
  toCelcius (toFahrenheit c) = (if is_short_roundtrip c then c - 1 else c)
  /\ (c - 1 <= toCelcius (toFahrenheit c) <= c)
  /\ (toCelcius (toFahrenheit c) = c <-> ~ In c short_roundtrip)
  /\ (In c short_roundtrip <-> rounded_below c = true).
Proof.
  intros Hc.
  pose proof (Zrange_forallb _ 0 51 roundtrip_table c ltac:(lia)) as H.
  cbv beta in H. apply andb_true_iff in H. destruct H as [H1 H2].
  apply Z.eqb_eq in H1. apply Bool.eqb_prop in H2.
  assert (Hin : In c short_roundtrip <-> is_short_roundtrip c = true).
  { unfold is_short_roundtrip. rewrite existsb_exists. split.
    - intros Hi. exists c. split; [exact Hi | apply Z.eqb_refl].
    - intros [x [Hi Hx]]. apply Z.eqb_eq in Hx. subst x. exact Hi. }
  split; [exact H1|]. rewrite H1.
  destruct (is_short_roundtrip c) eqn:E.
  - split; [lia|]. split.
    + split; [lia|]. intros Hn. exfalso. apply Hn, Hin. reflexivity.
    + rewrite <- H2. tauto.
  - split; [lia|]. split.
    + split; [|reflexivity]. intros _ Hi. apply Hin in Hi. discriminate.
    + rewrite <- H2. rewrite Hin. tauto.
Qed.

Lemma roundtrip_on_supported_range_witness :
  0 <= 10 <= 50
  /\ toCelcius (toFahrenheit 10) = (if is_short_roundtrip 10 then 10 - 1 else 10)
  /\ (10 - 1 <= toCelcius (toFahrenheit 10) <= 10)
  /\ (toCelcius (toFahrenheit 10) = 10 <-> ~ In 10 short_roundtrip)
  /\ (In 10 short_roundtrip <-> rounded_below 10 = true).
Proof. split; [lia | apply (roundtrip_on_supported_range 10); lia]. Defined.

(* ===================================================================== *)
(** ** The keypad handlers *)

Section Handlers.

Variable s : State.

(** Every handler ends by queueing the LED pulse, whatever the store. *)
Lemma isr_output (c : Column) : output (isr c) s = [QueueCallFlash BOUNCE].
Proof.
  destruct c; unfold isr, isr_c0, isr_c1, isr_c2, isr_c3,
    input_str_append, input_len_incr; prog; branches; reflexivity.
Qed.

(** The digit handlers leave the store alone outside [INPUT] and when the
    entry is full. *)
Lemma digit_isr_closed (c : Column) :
  c <> c3 ->
  (mode s =? INPUT) && (input_len s <? MAX_INPUT) = false ->
  exec (isr c) s = s.
Proof.
  intros Hc H.
  destruct c; try congruence;
    unfold isr, isr_c0, isr_c1, isr_c2; prog; rewrite H; reflexivity.
Qed.

(** The polling loop only moves the row cursor, and keeps it in 0..3. *)
Lemma main_loop_store :
  exec main_loop s
  = set_row (if Int.incr (row s) >? 3 then 0 else Int.incr (row s)) s.
Proof.
  unfold main_loop. prog. cbn [row set_row].
  destruct (Int.incr (row s) >? 3); cbn [row set_row]; branches;
    destruct s; reflexivity.
Qed.

Lemma flash_store millisec : exec (flash millisec) s = s.
Proof. reflexivity. Qed.

End Handlers.

(** From any cursor position of a running system, four iterations of the
    polling loop visit the rows 0, 1, 2 and 3. *)
Lemma main_loop_next_row (s : State) :
  -1 <= row s <= 3 ->
  row (exec main_loop s) = (row s + 1) mod 4.
Proof.
  intros H. rewrite main_loop_store. cbn [row set_row].
  rewrite Int.incr_small by (unfold Int.min_signed, Int.max_signed; lia).
  assert (C : row s = -1 \/ row s = 0 \/ row s = 1 \/ row s = 2 \/ row s = 3) by lia.
  destruct C as [E|[E|[E|[E|E]]]]; rewrite E; reflexivity.
Qed.

(** ** C6: the unit key *)

(** C6. While the mode is not [INPUT], the interrupt of the C key (column
    3 taken with the cursor on row 2) replaces [unit] by its negation and
    leaves every other global as it was; the handler's only output is the
    queued LED pulse.  Two such interrupts in a row give back the store
    they started from, so the unit, the mode and the thresholds are those
    of before. *)
Theorem unit_key_toggles_unit_only (s : State) :
  row s = key_row KC ->
  mode s <> INPUT ->
  let once := exec (isr (key_column KC)) s in
  let twice := exec (isr (key_column KC)) once in
  once = set_unit (negb (unit s)) s
  /\ output (isr (key_column KC)) s = [QueueCallFlash BOUNCE]
  /\ twice = s
  /\ unit twice = unit s
  /\ mode once = mode s /\ mode twice = mode s
  /\ thresholds once = thresholds s /\ thresholds twice = thresholds s.
Proof.
  intros Hrow Hmode once twice.
  assert (Hm : (mode s =? INPUT) = false) by (apply Z.eqb_neq; exact Hmode).
  assert (H1 : once = set_unit (negb (unit s)) s).
  { subst once. cbn [key_column isr]. unfold isr_c3. prog.
    rewrite Hrow. cbn [key_row Z.eqb]. rewrite Hm. reflexivity. }
  assert (H2 : twice = s).
  { subst twice. rewrite H1. cbn [key_column isr]. unfold isr_c3. prog.
    cbn [row mode unit set_unit]. rewrite Hrow. cbn [key_row Z.eqb].
    rewrite Hm. cbn [unit set_unit]. rewrite negb_involutive.
    destruct s; reflexivity. }
  rewrite H2, H1.
  repeat split; try reflexivity. apply isr_output.
Qed.

Lemma unit_key_toggles_unit_only_witness :
  row (set_row 2 boot) = key_row KC
  /\ mode (set_row 2 boot) <> INPUT
  /\ exec (isr (key_column KC)) (set_row 2 boot)
     = set_unit (negb (unit (set_row 2 boot))) (set_row 2 boot)
  /\ exec (isr (key_column KC)) (exec (isr (key_column KC)) (set_row 2 boot))
     = set_row 2 boot.
Proof.
  assert (Hr : row (set_row 2 boot) = key_row KC) by reflexivity.
  assert (Hm : mode (set_row 2 boot) <> INPUT) by (vm_compute; discriminate).
  pose proof (unit_key_toggles_unit_only (set_row 2 boot) Hr Hm) as H.
  cbv zeta in H.
  split; [exact Hr|]. split; [exact Hm|].
  split; [apply H | apply H].
Defined.

(* ===================================================================== *)
(** ** C3: digits entered during a prompt *)

Lemma exec_bind {A B} (m : M A) (k : A -> M B) (s : State) :
  exec (bind m k) s = exec (k (value m s)) (exec m s).
Proof.
  unfold exec, value, bind. destruct (m s) as [[a s1] o1].
  cbn [fst snd]. destruct (k a s1) as [[b s2] o2]. reflexivity.
Qed.

Lemma append_length (a b : string) :
  String.length (String.append a b) = (String.length a + String.length b)%nat.
Proof. induction a as [|c a IH]; cbn; [reflexivity | now rewrite IH]. Qed.

Lemma append_assoc (a b c : string) :
  String.append (String.append a b) c = String.append a (String.append b c).
Proof. induction a as [|x a IH]; cbn; [reflexivity | now rewrite IH]. Qed.

Lemma append_empty_r (a : string) : String.append a EmptyString = a.
Proof. induction a as [|x a IH]; cbn; [reflexivity | now rewrite IH]. Qed.

Lemma key_digit_length k d : key_digit k = Some d -> String.length d = 1%nat.
Proof. destruct k; cbn; intros H; inversion H; reflexivity. Qed.

Lemma digits_of_length ks :
  forallb is_digit_key ks = true -> String.length (digits_of ks) = List.length ks.
Proof.
  induction ks as [|k ks IH]; cbn [forallb digits_of List.length]; [reflexivity|].
  intros H. apply andb_true_iff in H. destruct H as [Hk Hks].
  unfold is_digit_key in Hk. destruct (key_digit k) as [d|] eqn:E; [|discriminate].
  rewrite append_length, (key_digit_length _ _ E), IH by exact Hks. reflexivity.
Qed.

(** A digit key below the cap: the digit is appended, the length counted,
    the flag raised. *)
Lemma keypress_digit_accepted k d s :
  key_digit k = Some d ->
  mode s = INPUT ->
  0 <= input_len s < MAX_INPUT ->
  exec (keypress k) s
  = set_input_modified true
      (set_input_len (input_len s + 1)
         (set_input_str (String.append (input_str s) d)
            (set_row (key_row k) s))).
Proof.
  intros Hd Hm Hl.
  assert (Hi : Int.incr (input_len s) = input_len s + 1).
  { apply Int.incr_small. unfold Int.min_signed, Int.max_signed, MAX_INPUT in *. lia. }
  assert (Hc : (mode s =? INPUT) && (input_len s <? MAX_INPUT) = true).
  { rewrite Hm. apply andb_true_iff. split; [reflexivity | apply Z.ltb_lt; lia]. }
  destruct k; cbn in Hd; inversion Hd; subst d;
    unfold keypress; cbn [key_row key_column isr];
    unfold isr_c0, isr_c1, isr_c2, input_str_append, input_len_incr; prog;
    cbn [row mode input_len input_str set_row]; rewrite Hc; cbn;
    rewrite Hi; reflexivity.
Qed.

(** A digit key at the cap: only the row cursor has moved. *)
Lemma keypress_digit_rejected k s :
  is_digit_key k = true ->
  MAX_INPUT <= input_len s ->
  exec (keypress k) s = set_row (key_row k) s.
Proof.
  intros Hd Hl. unfold keypress. rewrite exec_bind.
  assert (Hk : key_column k <> c3) by (destruct k; cbn in *; congruence).
  change (exec (modify (set_row (key_row k))) s) with (set_row (key_row k) s).
  apply digit_isr_closed; [exact Hk|].
  cbn [mode input_len set_row]. apply andb_false_iff. right. apply Z.ltb_ge. exact Hl.
Qed.

(** The entry after a run of digit keys, from any store of a prompt in
    which the counter equals the length of the entry. *)
Lemma digit_keys_extend_entry ks :
  forall s,
    forallb is_digit_key ks = true ->
    mode s = INPUT ->
    input_len s = Z.of_nat (String.length (input_str s)) ->
    let s' := exec (keypresses ks) s in
    input_str s'
    = String.append (input_str s)
        (digits_of (firstn (9 - String.length (input_str s)) ks))
    /\ input_len s' = Z.of_nat (String.length (input_str s'))
    /\ mode s' = INPUT.
Proof.
  induction ks as [|k ks IH]; intros s Hks Hm Hl; cbv zeta.
  - cbn [keypresses]. change (exec skip s) with s.
    rewrite firstn_nil. cbn [digits_of]. rewrite append_empty_r. auto.
  - cbn [forallb] in Hks. apply andb_true_iff in Hks. destruct Hks as [Hk Hks].
    cbn [keypresses]. rewrite exec_bind.
    destruct (Z_lt_le_dec (input_len s) MAX_INPUT) as [Hlt|Hge].
    + pose proof Hk as Hk'. unfold is_digit_key in Hk'.
      destruct (key_digit k) as [d|] eqn:Ed; [|discriminate].
      rewrite (keypress_digit_accepted k d s Ed Hm) by lia.
      set (s1 := set_input_modified _ _).
      assert (Hs1 : input_str s1 = String.append (input_str s) d) by reflexivity.
      assert (Hlen1 : String.length (input_str s1) = S (String.length (input_str s))).
      { rewrite Hs1, append_length, (key_digit_length _ _ Ed). lia. }
      assert (Hl1 : input_len s1 = Z.of_nat (String.length (input_str s1))).
      { change (input_len s1) with (input_len s + 1). rewrite Hlen1, Hl. lia. }
      specialize (IH s1 Hks Hm Hl1). cbv zeta in IH.
      destruct IH as [I1 [I2 I3]].
      split; [|split; [exact I2 | exact I3]]. rewrite I1.
      unfold MAX_INPUT in Hlt.
      replace (9 - String.length (input_str s))%nat
        with (S (9 - String.length (input_str s1)))%nat by lia.
      cbn [firstn digits_of]. rewrite Ed, Hs1, append_assoc. reflexivity.
    + rewrite (keypress_digit_rejected k s Hk Hge).
      set (s1 := set_row _ _).
      specialize (IH s1 Hks Hm Hl). cbv zeta in IH.
      destruct IH as [I1 [I2 I3]].
      split; [|split; [exact I2 | exact I3]]. rewrite I1.
      change (input_str s1) with (input_str s).
      unfold MAX_INPUT in Hge.
      replace (9 - String.length (input_str s))%nat with 0%nat by lia.
      reflexivity.
Qed.

Lemma get_input_enter_opens text s :
  mode s = INPUT -> prompt_open (exec (get_input_enter text) s).
Proof. intros H. repeat split. exact H. Qed.

(** Up to nine digit keys at an open prompt: the entry is their digits. *)
Lemma digit_keys_from_open_prompt ks s :
  forallb is_digit_key ks = true ->
  prompt_open s ->
  (List.length ks <= 9)%nat ->
  input_str (exec (keypresses ks) s) = digits_of ks.
Proof.
  intros Hks [Hm [Hstr Hlen]] Hle.
  destruct (digit_keys_extend_entry ks s Hks Hm) as [I1 _].
  { rewrite Hstr, Hlen. reflexivity. }
  rewrite I1, Hstr.
  change (digits_of (firstn 9 ks) = digits_of ks).
  rewrite firstn_all2 by exact Hle. reflexivity.
Qed.

(** C3, as stated, fails in [INPUT] mode before the display thread has
    opened a prompt.  At power-on the counter is -1 and the entry empty:
    after the D key, ten digit keys give an entry of ten digits.  After a
    session, the D key and then the digit 5 give "805", which is not the
    digit pressed. *)
Lemma stale_counter_admits_ten_digits :
  (mode (store awaiting_prompt) = INPUT
   /\ input_str (store awaiting_prompt) = EmptyString
   /\ input_len (store awaiting_prompt) = -1)
  /\ forallb is_digit_key (repeat K0 10) = true
  /\ input_str (store (run (map Press (repeat K0 10)) awaiting_prompt))
     = "0000000000"
  /\ (String.length
        (input_str (store (run (map Press (repeat K0 10)) awaiting_prompt)))
      > 9)%nat
  /\ mode (store awaiting_second_session) = INPUT
  /\ input_str (store (next (Press K5) awaiting_second_session)) = "805".
Proof. vm_compute. repeat split; try reflexivity; try lia. Qed.

(** C3, amended.  From the start of a prompt, that is in [INPUT] mode with
    the entry emptied and the counter set to 0 by [get_input], after any
    sequence of digit keys the entry is the string of the first nine of
    them in the order pressed and the counter is its length.  So up to
    nine keys give exactly their digits; the entry is never longer than
    nine; and once nine keys have come, a further digit key changes
    neither the entry nor the counter. *)
Theorem digit_keys_fill_entry (ks : list Key) (s : State) :
  forallb is_digit_key ks = true ->
  prompt_open s ->
  let s' := exec (keypresses ks) s in
  input_str s' = digits_of (firstn 9 ks)
  /\ input_len s' = Z.of_nat (Nat.min 9 (List.length ks))
  /\ ((List.length ks <= 9)%nat -> input_str s' = digits_of ks)
  /\ (String.length (input_str s') <= 9)%nat
  /\ input_len s' <= MAX_INPUT
  /\ ((9 <= List.length ks)%nat ->
      forall k, is_digit_key k = true ->
        input_str (exec (keypress k) s') = input_str s'
        /\ input_len (exec (keypress k) s') = input_len s').
Proof.
  intros Hks [Hm [Hstr Hlen]] s'.
  destruct (digit_keys_extend_entry ks s Hks Hm) as [I1 [I2 I3]].
  { rewrite Hstr, Hlen. reflexivity. }
  fold s' in I1, I2, I3. rewrite Hstr in I1.
  change (input_str s' = digits_of (firstn 9 ks)) in I1.
  assert (Hf : forallb is_digit_key (firstn 9 ks) = true).
  { rewrite forallb_forall in *. intros x Hx. apply Hks.
    eapply (In_nth_error) in Hx. destruct Hx as [n Hn].
    apply nth_error_In with n. rewrite nth_error_firstn in Hn.
    destruct (Nat.ltb n 9); [exact Hn | discriminate]. }
  assert (HL : String.length (input_str s') = Nat.min 9 (List.length ks)).
  { rewrite I1, digits_of_length by exact Hf. apply length_firstn. }
  split; [exact I1|]. split; [rewrite I2, HL; reflexivity|].
  split; [intros Hle; rewrite I1, firstn_all2 by exact Hle; reflexivity|].
  split; [rewrite HL; lia|].
  split; [rewrite I2, HL; unfold MAX_INPUT; lia|].
  intros Hge k Hk.
  rewrite keypress_digit_rejected.
  - split; reflexivity.
  - exact Hk.
  - rewrite I2, HL. unfold MAX_INPUT. lia.
Qed.

Lemma digit_keys_fill_entry_witness :
  forallb is_digit_key eleven_digits = true
  /\ prompt_open opened_prompt
  /\ input_str (exec (keypresses eleven_digits) opened_prompt) = "123456789"
  /\ input_len (exec (keypresses eleven_digits) opened_prompt) = 9.
Proof.
  assert (Hk : forallb is_digit_key eleven_digits = true) by reflexivity.
  assert (Hs : prompt_open opened_prompt) by (repeat split).
  pose proof (digit_keys_fill_entry eleven_digits opened_prompt Hk Hs) as H.
  cbv zeta in H. destruct H as [H1 [H2 _]].
  split; [exact Hk|]. split; [exact Hs|]. split; [exact H1 | exact H2].
Defined.

(* ===================================================================== *)
(** ** How each event writes [mode] *)

Arguments toFahrenheit : simpl never.
Arguments toCelcius : simpl never.
Arguments atoi : simpl never.
Arguments int_to_float : simpl never.
Arguments validate_input : simpl never.
Arguments temperature_too_low : simpl never.
Arguments temperature_too_high : simpl never.
Arguments humidity_too_low : simpl never.
Arguments humidity_too_high : simpl never.
Arguments prompt : simpl never.

(** Unfolding of the source functions, then of the monad, then a case
    analysis on every test met. *)
Ltac source :=
  unfold next, step, keypress, isr, isr_c0, isr_c1, isr_c2, isr_c3,
    update_lcd, for_stage, input_done, convert_input, get_input_poll,
    get_input_enter, print_prompt, display_climate, update_sensor,
    monitor_state, alert_enter, alert_poll, beep_and_flash, main_loop,
    input_str_append, input_len_incr in *;
  prog; repeat (cbn; branches).

(** The same for one statement of a thread, and for what is left of a
    stretch. *)
Ltac known :=
  repeat match goal with
         | H : ?b = true |- context [if ?b then _ else _] => rewrite H
         | H : ?b = false |- context [if ?b then _ else _] => rewrite H
         end.

Ltac branch :=
  match goal with
  | |- context [if ?b then _ else _] => branch_on b
  end.

Ltac paths := cbn; known; cbn; repeat (branch; cbn; known; cbn).

Ltac statement :=
  unfold next, step, update_lcd, monitor_state, update_lcd_statements,
    monitor_statements, update_lcd_statement, monitor_statement,
    for_stage_statement, print_prompt, alert_enter, alert_poll,
    beep_and_flash in *;
  prog; paths.

Lemma mode_after_main_loop s : mode (exec main_loop s) = mode s.
Proof. rewrite main_loop_store. reflexivity. Qed.

Lemma mode_after_keypress k s :
  mode (exec (keypress k) s)
  = match k with
    | KB => if mode s =? INPUT then mode s else IDLE
    | KD => INPUT
    | _ => mode s
    end.
Proof. destruct k; source; reflexivity. Qed.

(** ** A stretch of a thread is a sequence of its statements *)

Lemma monitor_state_is_statements r pc s :
  monitor_state r pc s = monitor_statements r 10 pc s.
Proof.
  destruct pc as [| |p]; [| |reflexivity];
    unfold monitor_state, monitor_statements, monitor_statement,
      update_sensor, alert_enter, alert_poll, beep_and_flash;
    prog; paths; reflexivity.
Qed.

Lemma update_lcd_is_statements r pc s :
  update_lcd r pc s = update_lcd_statements r 8 pc s.
Proof.
  destruct pc as [|k|p]; [| |reflexivity];
    unfold update_lcd, update_lcd_statements, update_lcd_statement,
      for_stage_statement, for_stage, input_done, convert_input,
      get_input_poll, get_input_enter, print_prompt, display_climate,
      update_sensor;
    prog; paths; reflexivity.
Qed.

Lemma mode_after_monitor r pc s :
  mode (exec (monitor_state r pc) s)
  = match pc with
    | MonAlert => mode s
    | MonLoop =>
        if mode s =? MONITOR then
          let s1 := exec (update_sensor r) s in
          if temperature_too_low s1 || temperature_too_high s1
             || humidity_too_low s1 || humidity_too_high s1
          then ALERT else mode s
        else mode s
    | MonAt p => mode (exec (monitor_statements r 10 (MonAt p)) s)
    end.
Proof.
  destruct pc as [| |p]; [| |reflexivity]; source; try reflexivity;
    repeat match goal with
           | H : _ = true |- _ => rewrite H
           | H : _ = false |- _ => rewrite H
           end; cbn; try reflexivity.
Qed.

(** One statement of the monitor thread writes [mode] only if it is the
    assignment of [alert]. *)
Lemma mode_after_monitor_statement r pc s :
  mode (exec (monitor_statement r pc) s)
  = match pc with
    | MonAt MonAlertEnter => ALERT
    | _ => mode s
    end.
Proof. destruct pc as [| |p]; [| |destruct p]; statement; reflexivity. Qed.

Lemma mode_after_monitor_rest r p s :
  mode (exec (monitor_state r (MonAt p)) s) = mode s
  \/ mode (exec (monitor_state r (MonAt p)) s) = ALERT.
Proof. destruct p; statement; auto. Qed.

Lemma mode_after_display_loop r s : mode (exec (update_lcd r LcdLoop) s) = mode s.
Proof. source; reflexivity. Qed.

Lemma pc_after_display_loop r s :
  value (update_lcd r LcdLoop) s
  = if mode s =? INPUT then LcdGetInput 0 else LcdLoop.
Proof.
  source; try reflexivity;
    repeat match goal with
           | H : (_ =? _) = true |- _ => apply Z.eqb_eq in H
           end; exfalso; unfold IDLE, INPUT, MONITOR in *; lia.
Qed.

(** Inside a prompt the display thread writes [mode] only when the last
    entry has been taken and the entries validate. *)
Lemma mode_after_display_prompt r k s :
  mode (exec (update_lcd r (LcdGetInput k)) s) = mode s
  \/ (value (update_lcd r (LcdGetInput k)) s = LcdLoop
      /\ mode (exec (update_lcd r (LcdGetInput k)) s) = MONITOR).
Proof. source; auto. Qed.

Lemma pc_after_display_prompt r k s k' :
  value (update_lcd r (LcdGetInput k)) s = LcdGetInput k' ->
  mode (exec (update_lcd r (LcdGetInput k)) s) = mode s.
Proof. source; intros H; try discriminate; reflexivity. Qed.

(** One statement of the display thread writes [mode] only if it is the
    assignment that ends a validated session. *)
Lemma mode_after_display_statement r pc s :
  mode (exec (update_lcd_statement r pc) s)
  = match pc with
    | LcdAt LcdSetMonitor => MONITOR
    | _ => mode s
    end.
Proof. destruct pc as [|k|p]; [| |destruct p]; statement; reflexivity. Qed.

Lemma mode_after_display r pc s :
  mode (exec (update_lcd r pc) s) = mode s
  \/ (in_session pc = true /\ mode (exec (update_lcd r pc) s) = MONITOR).
Proof.
  destruct pc as [|k|p].
  - left. apply mode_after_display_loop.
  - destruct (mode_after_display_prompt r k s) as [H|[_ H]]; auto.
  - destruct p; statement; auto.
Qed.

(** The store, the display position and the monitor position after an
    event, in terms of the computations. *)
Lemma next_store ev sys :
  store (next ev sys)
  = match ev with
    | Poll => exec main_loop (store sys)
    | Press k => exec (keypress k) (store sys)
    | Display r => exec (update_lcd r (lcd_pc sys)) (store sys)
    | Monitor r => exec (monitor_state r (mon_pc sys)) (store sys)
    | DisplayStatement r =>
        exec (update_lcd_statement r (lcd_pc sys)) (store sys)
    | MonitorStatement r =>
        exec (monitor_statement r (mon_pc sys)) (store sys)
    end.
Proof.
  unfold next, step, exec. destruct ev.
  - destruct (main_loop (store sys)) as [[u s] o]. reflexivity.
  - destruct (keypress k (store sys)) as [[u s] o]. reflexivity.
  - destruct (update_lcd r (lcd_pc sys) (store sys)) as [[u s] o]. reflexivity.
  - destruct (monitor_state r (mon_pc sys) (store sys)) as [[u s] o]. reflexivity.
  - destruct (update_lcd_statement r (lcd_pc sys) (store sys)) as [[u s] o].
    reflexivity.
  - destruct (monitor_statement r (mon_pc sys) (store sys)) as [[u s] o].
    reflexivity.
Qed.

Lemma next_lcd_pc ev sys :
  lcd_pc (next ev sys)
  = match ev with
    | Display r => value (update_lcd r (lcd_pc sys)) (store sys)
    | DisplayStatement r =>
        value (update_lcd_statement r (lcd_pc sys)) (store sys)
    | _ => lcd_pc sys
    end.
Proof.
  unfold next, step, value. destruct ev.
  - destruct (main_loop (store sys)) as [[u s] o]. reflexivity.
  - destruct (keypress k (store sys)) as [[u s] o]. reflexivity.
  - destruct (update_lcd r (lcd_pc sys) (store sys)) as [[u s] o]. reflexivity.
  - destruct (monitor_state r (mon_pc sys) (store sys)) as [[u s] o]. reflexivity.
  - destruct (update_lcd_statement r (lcd_pc sys) (store sys)) as [[u s] o].
    reflexivity.
  - destruct (monitor_statement r (mon_pc sys) (store sys)) as [[u s] o].
    reflexivity.
Qed.

Lemma next_mon_pc ev sys :
  mon_pc (next ev sys)
  = match ev with
    | Monitor r => value (monitor_state r (mon_pc sys)) (store sys)
    | MonitorStatement r =>
        value (monitor_statement r (mon_pc sys)) (store sys)
    | _ => mon_pc sys
    end.
Proof.
  unfold next, step, value. destruct ev.
  - destruct (main_loop (store sys)) as [[u s] o]. reflexivity.
  - destruct (keypress k (store sys)) as [[u s] o]. reflexivity.
  - destruct (update_lcd r (lcd_pc sys) (store sys)) as [[u s] o]. reflexivity.
  - destruct (monitor_state r (mon_pc sys) (store sys)) as [[u s] o]. reflexivity.
  - destruct (update_lcd_statement r (lcd_pc sys) (store sys)) as [[u s] o].
    reflexivity.
  - destruct (monitor_statement r (mon_pc sys) (store sys)) as [[u s] o].
    reflexivity.
Qed.

Lemma run_app evs1 evs2 sys : run (evs1 ++ evs2) sys = run evs2 (run evs1 sys).
Proof. revert sys. induction evs1 as [|ev evs1 IH]; intros sys; cbn; auto. Qed.

Lemma run_reachable evs sys : Reachable sys -> Reachable (run evs sys).
Proof.
  revert sys. induction evs as [|ev evs IH]; intros sys H; cbn; [exact H|].
  apply IH. constructor. exact H.
Qed.

(** A stretch of a thread is the run of its statements: the event
    [Display] or [Monitor] leads where a sequence of statement events
    leads. *)
Lemma statements_run_display r n sys :
  exists evs,
    Forall (fun ev => ev = DisplayStatement r) evs
    /\ run evs sys
       = {| store := exec (update_lcd_statements r n (lcd_pc sys)) (store sys);
            lcd_pc := value (update_lcd_statements r n (lcd_pc sys)) (store sys);
            mon_pc := mon_pc sys |}.
Proof.
  revert sys. induction n as [|n IH]; intros sys.
  - exists []. split; [constructor|]. destruct sys; reflexivity.
  - destruct (lcd_at_test (lcd_pc (next (DisplayStatement r) sys))) eqn:E.
    + exists [DisplayStatement r]. split; [repeat constructor|].
      revert E. cbn [run update_lcd_statements].
      unfold next, step, exec, value, bind, ret.
      destruct (update_lcd_statement r (lcd_pc sys) (store sys)) as [[pc s] o].
      cbn. intros E. rewrite E. reflexivity.
    + destruct (IH (next (DisplayStatement r) sys)) as [evs [F R]].
      exists (DisplayStatement r :: evs). split; [constructor; auto|].
      cbn [run update_lcd_statements]. rewrite R. revert E.
      unfold next, step, exec, value, bind, ret.
      destruct (update_lcd_statement r (lcd_pc sys) (store sys)) as [[pc s] o].
      cbn. intros E. rewrite E.
      destruct (update_lcd_statements r n pc s) as [[pc' s'] o']. reflexivity.
Qed.

Lemma statements_run_monitor r n sys :
  exists evs,
    Forall (fun ev => ev = MonitorStatement r) evs
    /\ run evs sys
       = {| store := exec (monitor_statements r n (mon_pc sys)) (store sys);
            lcd_pc := lcd_pc sys;
            mon_pc := value (monitor_statements r n (mon_pc sys)) (store sys) |}.
Proof.
  revert sys. induction n as [|n IH]; intros sys.
  - exists []. split; [constructor|]. destruct sys; reflexivity.
  - destruct (mon_at_test (mon_pc (next (MonitorStatement r) sys))) eqn:E.
    + exists [MonitorStatement r]. split; [repeat constructor|].
      revert E. cbn [run monitor_statements].
      unfold next, step, exec, value, bind, ret.
      destruct (monitor_statement r (mon_pc sys) (store sys)) as [[pc s] o].
      cbn. intros E. rewrite E. reflexivity.
    + destruct (IH (next (MonitorStatement r) sys)) as [evs [F R]].
      exists (MonitorStatement r :: evs). split; [constructor; auto|].
      cbn [run monitor_statements]. rewrite R. revert E.
      unfold next, step, exec, value, bind, ret.
      destruct (monitor_statement r (mon_pc sys) (store sys)) as [[pc s] o].
      cbn. intros E. rewrite E.
      destruct (monitor_statements r n pc s) as [[pc' s'] o']. reflexivity.
Qed.

(** Every stretch of the two threads is a run of statement events. *)
Lemma stretch_is_run_of_statements ev sys :
  exists evs,
    Forall (fun e => match ev with
                     | Display r => e = DisplayStatement r
                     | Monitor r => e = MonitorStatement r
                     | _ => e = ev
                     end) evs
    /\ run evs sys = next ev sys.
Proof.
  destruct ev as [|k|r|r|r|r].
  - exists [Poll]. split; [repeat constructor|reflexivity].
  - exists [Press k]. split; [repeat constructor|reflexivity].
  - destruct (statements_run_display r 8 sys) as [evs [F R]].
    exists evs. split; [exact F|]. rewrite R.
    unfold next, step, exec, value. rewrite update_lcd_is_statements.
    destruct (update_lcd_statements r 8 (lcd_pc sys) (store sys)) as [[pc s] o].
    reflexivity.
  - destruct (statements_run_monitor r 10 sys) as [evs [F R]].
    exists evs. split; [exact F|]. rewrite R.
    unfold next, step, exec, value. rewrite monitor_state_is_statements.
    destruct (monitor_statements r 10 (mon_pc sys) (store sys)) as [[pc s] o].
    reflexivity.
  - exists [DisplayStatement r]. split; [repeat constructor|reflexivity].
  - exists [MonitorStatement r]. split; [repeat constructor|reflexivity].
Qed.

(** A stretch ends at a loop test: the bound on the number of statements
    is never met. *)
Lemma monitor_state_ends_at_test r pc s :
  mon_at_test (value (monitor_state r pc) s) = true.
Proof.
  destruct pc as [| |p]; [| |destruct p];
    unfold update_sensor in *; statement; reflexivity.
Qed.

Lemma update_lcd_ends_at_test r pc s :
  lcd_at_test (value (update_lcd r pc) s) = true.
Proof.
  destruct pc as [|k|p]; [source | source | destruct p; statement];
    reflexivity.
Qed.

(** What every statement of a thread keeps, a stretch of it keeps. *)
Lemma update_lcd_keeps {A} (f : State -> A) r :
  (forall pc s, f (exec (update_lcd_statement r pc) s) = f s) ->
  forall pc s, f (exec (update_lcd r pc) s) = f s.
Proof.
  intros H. assert (G : forall n pc s,
                       f (exec (update_lcd_statements r n pc) s) = f s).
  { induction n as [|n IH]; intros pc s; [reflexivity|].
    specialize (H pc s). revert H. unfold exec. cbn [update_lcd_statements].
    unfold bind, ret.
    destruct (update_lcd_statement r pc s) as [[pc' s'] o']. cbn [fst snd].
    intros H. destruct (lcd_at_test pc'); [exact H|].
    specialize (IH pc' s'). unfold exec in IH.
    destruct (update_lcd_statements r n pc' s') as [[pc2 s2] o2].
    cbn [fst snd] in *. congruence. }
  intros pc s. unfold exec. rewrite update_lcd_is_statements. apply G.
Qed.

Lemma monitor_state_keeps {A} (f : State -> A) r :
  (forall pc s, f (exec (monitor_statement r pc) s) = f s) ->
  forall pc s, f (exec (monitor_state r pc) s) = f s.
Proof.
  intros H. assert (G : forall n pc s,
                       f (exec (monitor_statements r n pc) s) = f s).
  { induction n as [|n IH]; intros pc s; [reflexivity|].
    specialize (H pc s). revert H. unfold exec. cbn [monitor_statements].
    unfold bind, ret.
    destruct (monitor_statement r pc s) as [[pc' s'] o']. cbn [fst snd].
    intros H. destruct (mon_at_test pc'); [exact H|].
    specialize (IH pc' s'). unfold exec in IH.
    destruct (monitor_statements r n pc' s') as [[pc2 s2] o2].
    cbn [fst snd] in *. congruence. }
  intros pc s. unfold exec. rewrite monitor_state_is_statements. apply G.
Qed.

(** No statement of a thread writes the row cursor or the unit. *)
Lemma update_lcd_statement_keeps r pc s :
  row (exec (update_lcd_statement r pc) s) = row s
  /\ unit (exec (update_lcd_statement r pc) s) = unit s.
Proof. destruct pc as [|k|p]; [| |destruct p]; statement; auto. Qed.

Lemma monitor_statement_keeps r pc s :
  row (exec (monitor_statement r pc) s) = row s
  /\ unit (exec (monitor_statement r pc) s) = unit s.
Proof. destruct pc as [| |p]; [| |destruct p]; statement; auto. Qed.

(** An event of a thread keeps the row cursor and the unit. *)
Lemma thread_event_keeps ev sys :
  display_event ev = true \/ monitor_event ev = true ->
  row (store (next ev sys)) = row (store sys)
  /\ unit (store (next ev sys)) = unit (store sys).
Proof.
  intros H. rewrite next_store. destruct ev; cbn in H.
  - destruct H; discriminate.
  - destruct H; discriminate.
  - split.
    + apply (update_lcd_keeps row). intros. apply update_lcd_statement_keeps.
    + apply (update_lcd_keeps unit). intros. apply update_lcd_statement_keeps.
  - split.
    + apply (monitor_state_keeps row). intros. apply monitor_statement_keeps.
    + apply (monitor_state_keeps unit). intros. apply monitor_statement_keeps.
  - apply update_lcd_statement_keeps.
  - apply monitor_statement_keeps.
Qed.

(** ** C9: the values of [mode] *)

(** Whatever the store, an event leaves [mode] as it is or assigns one of
    the four constants. *)
Lemma mode_write ev sys :
  mode (store (next ev sys)) = mode (store sys)
  \/ mode_valid (store (next ev sys)).
Proof.
  rewrite next_store. unfold mode_valid. destruct ev.
  - left. apply mode_after_main_loop.
  - rewrite mode_after_keypress. destruct k; auto; cbn; branches; auto 8.
  - destruct (mode_after_display r (lcd_pc sys) (store sys)) as [H|[_ H]];
      rewrite H; cbn; auto 8.
  - destruct (mon_pc sys) as [| |p].
    + rewrite mode_after_monitor. cbn; branches; cbn; auto 8.
    + left. rewrite mode_after_monitor. reflexivity.
    + destruct (mode_after_monitor_rest r p (store sys)) as [H|H];
        rewrite H; cbn; auto 8.
  - rewrite mode_after_display_statement.
    destruct (lcd_pc sys) as [|k|p]; auto. destruct p; cbn; auto 8.
  - rewrite mode_after_monitor_statement.
    destruct (mon_pc sys) as [| |p]; auto. destruct p; cbn; auto 8.
Qed.

(** C9. [mode] is initialised to [IDLE]; the four constants are 0, 1, 2
    and 3; every event (an iteration of the polling loop, any of the
    sixteen keys through its interrupt handler, a statement or a stretch
    of the display thread, a statement or a stretch of the monitor
    thread) either leaves [mode] alone or assigns one of the four
    constants, so a valid mode stays valid; hence [mode] is one of the
    four values in every reachable system. *)
Theorem mode_is_one_of_four :
  mode boot = IDLE
  /\ [IDLE; INPUT; MONITOR; ALERT] = [0; 1; 2; 3]
  /\ (forall ev sys,
        mode (store (next ev sys)) = mode (store sys)
        \/ mode_valid (store (next ev sys)))
  /\ (forall ev sys,
        mode_valid (store sys) -> mode_valid (store (next ev sys)))
  /\ (forall sys, Reachable sys -> mode_valid (store sys)).
Proof.
  split; [reflexivity|]. split; [reflexivity|]. split; [exact mode_write|].
  assert (P : forall ev sys,
             mode_valid (store sys) -> mode_valid (store (next ev sys))).
  { intros ev sys H. destruct (mode_write ev sys) as [E|E]; [|exact E].
    unfold mode_valid in *. rewrite E. exact H. }
  split; [exact P|].
  induction 1 as [|ev sys _ IH]; [left; reflexivity | apply P, IH].
Qed.

(** ** Invariants of the reachable systems *)

(** What holds at power-on and is kept by the polling loop, by every key
    and by every statement of the two threads holds in every reachable
    system: a stretch is a run of statements. *)
Lemma reachable_by_statements (P : System -> Prop) :
  P power_on ->
  (forall sys, P sys -> P (next Poll sys)) ->
  (forall k sys, P sys -> P (next (Press k) sys)) ->
  (forall r sys, P sys -> P (next (DisplayStatement r) sys)) ->
  (forall r sys, P sys -> P (next (MonitorStatement r) sys)) ->
  forall sys, Reachable sys -> P sys.
Proof.
  intros H0 HP HK HD HM.
  assert (Hrun : forall ev evs sys,
             Forall (fun e => match ev with
                              | Display r => e = DisplayStatement r
                              | Monitor r => e = MonitorStatement r
                              | _ => e = ev
                              end) evs ->
             P sys -> P (run evs sys)).
  { intros ev evs. induction evs as [|e evs IH]; intros sys F H; [exact H|].
    inversion F as [|? ? He F']; subst. cbn [run]. apply IH; [exact F'|].
    destruct ev; subst; auto. }
  induction 1 as [|ev sys _ IH]; [exact H0|].
  destruct (stretch_is_run_of_statements ev sys) as [evs [F R]].
  rewrite <- R. apply (Hrun ev); assumption.
Qed.

Lemma pc_after_monitor_alert r s :
  value (monitor_state r MonAlert) s
  = if mode s =? ALERT then MonAlert else MonLoop.
Proof. source; reflexivity. Qed.

(** While the mode is [ALERT] the monitor thread is at the test of the
    loop of [alert]. *)
Lemma reachable_alert_is_sounding sys : Reachable sys -> alert_is_sounding sys.
Proof.
  apply reachable_by_statements; unfold alert_is_sounding.
  - discriminate.
  - intros s IH. rewrite next_mon_pc, next_store, mode_after_main_loop.
    exact IH.
  - intros k s IH. rewrite next_mon_pc, next_store, mode_after_keypress.
    intros H. apply IH.
    destruct k; try exact H; [|discriminate].
    destruct (mode (store s) =? INPUT); [exact H | discriminate].
  - intros r s IH.
    rewrite next_mon_pc, next_store, mode_after_display_statement.
    intros H. apply IH. destruct (lcd_pc s) as [|k|p]; try exact H.
    destruct p; try exact H. discriminate.
  - intros r s IH.
    rewrite next_mon_pc, next_store, mode_after_monitor_statement.
    destruct (mon_pc s) as [| |p] eqn:Epc.
    + intros H. specialize (IH H). discriminate.
    + intros H. unfold monitor_statement, alert_poll, beep_and_flash. prog.
      rewrite H. reflexivity.
    + destruct p; try (intros H; specialize (IH H); discriminate).
      reflexivity.
Qed.

(** ** C7: leaving the alert *)



Lemma display_opens_session r sys :
  lcd_pc sys = LcdLoop ->
  mode (store sys) = INPUT ->
  fresh_session (next (Display r) sys)
  /\ snd (step (Display r) sys)
     = [LcdClear; LcdPrint "Min Temperature?"; LcdSetCursor 0 1].
Proof.
  intros Hpc Hm. unfold fresh_session, prompting, prompt_open, next, step.
  rewrite Hpc. unfold update_lcd. prog. rewrite Hm. cbn. auto 6.
Qed.





(* ===================================================================== *)
(** ** C4: the order of the breach tests *)

Lemma temperature_too_low_selected_unit s :
  temperature_too_low s = breached s TemperatureLow.
Proof.
  unfold temperature_too_low, breached, FAHRENHEIT, CELCIUS.
  destruct (unit s); cbn; [reflexivity | apply orb_false_r].
Qed.

Lemma temperature_too_high_selected_unit s :
  temperature_too_high s = breached s TemperatureHigh.
Proof.
  unfold temperature_too_high, breached, FAHRENHEIT, CELCIUS.
  destruct (unit s); cbn; [reflexivity | apply orb_false_r].
Qed.

(** The monitor step in [MONITOR] mode, by the first breach of the
    ranking. *)
Lemma monitor_step_by_first_breach r s :
  mode s = MONITOR ->
  let s1 := exec (update_sensor r) s in
  monitor_state r MonLoop s
  = match first_breach s1 with
    | Some b => (MonAlert, set_mode ALERT s1, SensorRead :: breach_notice b)
    | None => (MonLoop, s1, [SensorRead])
    end.
Proof.
  intros Hm. cbv zeta. unfold first_breach, breach_order. cbn [find].
  rewrite <- temperature_too_low_selected_unit,
          <- temperature_too_high_selected_unit.
  change (breached (exec (update_sensor r) s) HumidityLow)
    with (humidity_too_low (exec (update_sensor r) s)).
  change (breached (exec (update_sensor r) s) HumidityHigh)
    with (humidity_too_high (exec (update_sensor r) s)).
  unfold monitor_state, alert_enter. prog. rewrite Hm. cbn.
  destruct (temperature_too_low _); [reflexivity|].
  destruct (temperature_too_high _); [reflexivity|].
  destruct (humidity_too_low _); [reflexivity|].
  destruct (humidity_too_high _); reflexivity.
Qed.

(** C4. In [MONITOR] mode a monitor step reads the sensor and then acts on
    the first breach, in the order low temperature, high temperature, low
    humidity, high humidity, that holds for the fresh reading against the
    bounds of the selected unit: it prints that one notice and sets the
    mode to [ALERT]; with no breach it prints nothing and stays.  With
    bounds 10..40 Celsius and 30..80 percent, Celsius selected, a reading
    of 45 Celsius gives the notice "Temperature Too" / "High" and the mode
    [ALERT], with humidity 50 and with any other humidity. *)
Theorem monitor_reports_first_breach (s : State) (r : Reading) :
  mode s = MONITOR ->
  let s1 := exec (update_sensor r) s in
  (celcius s1 = getCelsius r /\ fahrenheit s1 = getFahrenheit r
   /\ humidity s1 = getHumidity r /\ thresholds s1 = thresholds s
   /\ unit s1 = unit s)
  /\ monitor_state r MonLoop s
     = match first_breach s1 with
       | Some b => (MonAlert, set_mode ALERT s1, SensorRead :: breach_notice b)
       | None => (MonLoop, s1, [SensorRead])
       end
  /\ (forall b, first_breach s1 = Some b ->
        breached s1 b = true
        /\ forall b', In b' breach_order -> breached s1 b' = true ->
             b' = b
             \/ exists before after, breach_order = before ++ b :: after
                                     /\ In b' after)
  /\ (unit s = CELCIUS -> temp_min_c s = 10 -> temp_max_c s = 40 ->
      humidity_min s = 30 -> humidity_max s = 80 ->
      getCelsius r = 45 ->
      monitor_state r MonLoop s
      = (MonAlert, set_mode ALERT s1,
         [SensorRead; LcdClear; LcdPrint "Temperature Too"; LcdSetCursor 6 1;
          LcdPrint "High"])).
Proof.
  intros Hm s1.
  split; [repeat split|].
  split; [exact (monitor_step_by_first_breach r s Hm)|].
  split.
  - intros b Hb. unfold first_breach in Hb.
    split; [apply (find_some _ _ Hb)|].
    intros b' _ Hb'. unfold breach_order in *. cbn [find] in Hb.
    destruct (breached s1 TemperatureLow) eqn:E1.
    { inversion Hb; subst b. destruct b'; auto;
        right; exists [], [TemperatureHigh; HumidityLow; HumidityHigh];
        cbn; auto 6. }
    destruct (breached s1 TemperatureHigh) eqn:E2.
    { inversion Hb; subst b. destruct b'; auto; try congruence;
        right; exists [TemperatureLow], [HumidityLow; HumidityHigh];
        cbn; auto 6. }
    destruct (breached s1 HumidityLow) eqn:E3.
    { inversion Hb; subst b. destruct b'; auto; try congruence;
        right; exists [TemperatureLow; TemperatureHigh], [HumidityHigh];
        cbn; auto 6. }
    destruct (breached s1 HumidityHigh) eqn:E4; [|discriminate].
    inversion Hb; subst b. destruct b'; auto; congruence.
  - intros Hu Hmin Hmax _ _ Hc.
    rewrite (monitor_step_by_first_breach r s Hm). fold s1.
    assert (E : first_breach s1 = Some TemperatureHigh).
    { unfold first_breach, breach_order, breached. cbn [find].
      change (unit s1) with (unit s). change (celcius s1) with (getCelsius r).
      change (temp_min_c s1) with (temp_min_c s).
      change (temp_max_c s1) with (temp_max_c s).
      rewrite Hu, Hmin, Hmax, Hc. reflexivity. }
    rewrite E. reflexivity.
Qed.

(* ===================================================================== *)
(** ** Concrete runs *)

Lemma monitoring_store :
  thresholds (store monitoring)
  = (10, 40, int_to_float 50, int_to_float 104, 30, 80)
  /\ mode (store monitoring) = MONITOR
  /\ unit (store monitoring) = CELCIUS
  /\ lcd_pc monitoring = LcdLoop.
Proof. vm_compute. auto. Qed.

Lemma alarmed_store :
  mode (store alarmed) = ALERT /\ mon_pc alarmed = MonAlert.
Proof. vm_compute. auto. Qed.

Lemma monitor_reports_first_breach_witness :
  mode (store monitoring) = MONITOR
  /\ monitor_state hot MonLoop (store monitoring)
     = (MonAlert, set_mode ALERT (exec (update_sensor hot) (store monitoring)),
        [SensorRead; LcdClear; LcdPrint "Temperature Too"; LcdSetCursor 6 1;
         LcdPrint "High"]).
Proof.
  assert (Hm : mode (store monitoring) = MONITOR) by (vm_compute; reflexivity).
  split; [exact Hm|].
  apply (monitor_reports_first_breach (store monitoring) hot Hm);
    vm_compute; reflexivity.
Defined.

Lemma mode_is_one_of_four_witness :
  Reachable alarmed
  /\ mode_valid (store alarmed)
  /\ mode_valid (store (next (Press KB) alarmed)).
Proof.
  assert (Hr : Reachable alarmed).
  { apply Reachable_next. apply run_reachable. apply Reachable_power_on. }
  destruct mode_is_one_of_four as [_ [_ [_ [Hstep Hreach]]]].
  split; [exact Hr|]. split; [apply Hreach, Hr|].
  apply Hstep, Hreach, Hr.
Defined.


(* ===================================================================== *)
(** ** C5 and C1: the end of an input session *)

Lemma validate_input_spec s : validate_input s = true <-> valid_chain s.
Proof.
  unfold validate_input, valid_chain, TEMP_MIN_C, TEMP_MAX_C, TEMP_MIN_F,
    TEMP_MAX_F, HUMIDITY_MIN, HUMIDITY_MAX.
  rewrite !andb_true_iff, !Z.leb_le. tauto.
Qed.

(** The step of the display thread that ends the fourth prompt. *)
Lemma display_ends_session r s :
  3 < input_stage s ->
  let s1 := set_input_stage (-1) (set_humidity_max (atoi (input_str s)) s) in
  update_lcd r (LcdGetInput 3) s
  = if validate_input s1 then (LcdLoop, set_mode MONITOR s1, [])
    else (LcdLoop, s1, invalid_notice).
Proof.
  intros H. cbv zeta.
  assert (E : (input_stage s <=? 3) = false) by (apply Z.leb_gt; exact H).
  unfold update_lcd, get_input_poll, convert_input, for_stage, input_done.
  prog. rewrite E. change (Int.incr 3) with 4. cbn.
  destruct (validate_input _); reflexivity.
Qed.

(** The step of the display thread that ends a session: the fourth entry
    is stored and [input_stage] reset; then the mode is set to [MONITOR],
    or the notice is shown. *)
Lemma last_entry_taken (sys : System) (r : Reading) :
  lcd_pc sys = LcdGetInput 3 ->
  3 < input_stage (store sys) ->
  let s1 := set_input_stage (-1)
              (set_humidity_max (atoi (input_str (store sys))) (store sys)) in
  step (Display r) sys
  = if validate_input s1
    then ({| store := set_mode MONITOR s1; lcd_pc := LcdLoop;
             mon_pc := mon_pc sys |}, [])
    else ({| store := s1; lcd_pc := LcdLoop; mon_pc := mon_pc sys |},
          invalid_notice).
Proof.
  intros Hpc Hst. cbv zeta.
  unfold step. rewrite Hpc, (display_ends_session r (store sys) Hst).
  destruct (validate_input _); reflexivity.
Qed.



(** C1, as stated, fails.  From power-on, the session 40, 10, 30, 80 does
    not validate and its notice is shown, but the thresholds are those
    entered, not those of before the session, and the mode is [INPUT], not
    [IDLE]. *)
Lemma invalid_session_overwrites_thresholds :
  rejected = run inverted_session power_on
  /\ validate_input (store rejected) = false
  /\ snd (step (Display mild) confirmed_inverted) = invalid_notice
  /\ thresholds (store power_on)
     = (0, 50, int_to_float 32, int_to_float 122, 20, 95)
  /\ thresholds (store rejected)
     = (40, 10, int_to_float 104, int_to_float 50, 30, 80)
  /\ thresholds (store rejected) <> thresholds (store power_on)
  /\ mode (store rejected) = INPUT
  /\ mode (store rejected) <> IDLE.
Proof. vm_compute. repeat split; try reflexivity; discriminate. Qed.

(** C1, amended.  When the display thread takes the entry of the fourth
    prompt while the mode is [INPUT], and the configuration entered does
    not validate: the notice "Invalid Input" / "Please Try Again" is shown
    and the thread sleeps 3000 ms; the thresholds are the values entered
    in the session (the fourth entry completes them, nothing is restored);
    [input_stage] is -1; the mode is still [INPUT], and the next stretch of
    the display thread opens a new session at the first prompt. *)
Theorem invalid_session_asks_again (sys : System) (r : Reading) :
  lcd_pc sys = LcdGetInput 3 ->
  3 < input_stage (store sys) ->
  mode (store sys) = INPUT ->
  ~ valid_chain (store (next (Display r) sys)) ->
  let s := store sys in
  let sys' := next (Display r) sys in
  snd (step (Display r) sys) = invalid_notice
  /\ thresholds (store sys')
     = (temp_min_c s, temp_max_c s, temp_min_f s, temp_max_f s,
        humidity_min s, atoi (input_str s))
  /\ input_stage (store sys') = -1
  /\ mode (store sys') = INPUT
  /\ lcd_pc sys' = LcdLoop
  /\ (forall r',
        fresh_session (next (Display r') sys')
        /\ snd (step (Display r') sys')
           = [LcdClear; LcdPrint "Min Temperature?"; LcdSetCursor 0 1]).
Proof.
  intros Hpc Hst Hm Hinv s sys'.
  pose proof (last_entry_taken sys r Hpc Hst) as E. cbv zeta in E.
  fold s in Hm, E.
  set (s1 := set_input_stage (-1) (set_humidity_max (atoi (input_str s)) s)) in *.
  assert (V : validate_input s1 = false).
  { destruct (validate_input s1) eqn:V; [|reflexivity].
    exfalso. apply Hinv. unfold next. rewrite E. cbn [fst store].
    apply validate_input_spec. exact V. }
  rewrite V in E.
  assert (Es : sys' = {| store := s1; lcd_pc := LcdLoop; mon_pc := mon_pc sys |}).
  { subst sys'. unfold next. rewrite E. reflexivity. }
  rewrite E, Es. cbn [fst snd store lcd_pc].
  split; [reflexivity|]. split; [reflexivity|]. split; [reflexivity|].
  split; [exact Hm|]. split; [reflexivity|].
  intros r'. apply display_opens_session; [reflexivity | exact Hm].
Qed.

Lemma invalid_session_asks_again_witness :
  lcd_pc confirmed_inverted = LcdGetInput 3
  /\ 3 < input_stage (store confirmed_inverted)
  /\ mode (store confirmed_inverted) = INPUT
  /\ ~ valid_chain (store (next (Display mild) confirmed_inverted))
  /\ snd (step (Display mild) confirmed_inverted) = invalid_notice
  /\ mode (store (next (Display mild) confirmed_inverted)) = INPUT.
Proof.
  assert (Hpc : lcd_pc confirmed_inverted = LcdGetInput 3) by reflexivity.
  assert (Hst : 3 < input_stage (store confirmed_inverted))
    by (vm_compute; reflexivity).
  assert (Hm : mode (store confirmed_inverted) = INPUT)
    by (vm_compute; reflexivity).
  assert (Hinv : ~ valid_chain (store (next (Display mild) confirmed_inverted))).
  { intros [[_ [C _]] _]. vm_compute in C. apply C. reflexivity. }
  destruct (invalid_session_asks_again confirmed_inverted mild Hpc Hst Hm Hinv)
    as [H1 [_ [_ [H4 _]]]].
  repeat split; assumption.
Defined.

(* ===================================================================== *)
(** ** A whole session, entry by entry *)

Lemma next_press k sys :
  next (Press k) sys
  = {| store := exec (keypress k) (store sys);
       lcd_pc := lcd_pc sys; mon_pc := mon_pc sys |}.
Proof.
  unfold next, step, exec. destruct (keypress k (store sys)) as [[u s] o].
  reflexivity.
Qed.

Lemma next_display r sys :
  next (Display r) sys
  = {| store := exec (update_lcd r (lcd_pc sys)) (store sys);
       lcd_pc := value (update_lcd r (lcd_pc sys)) (store sys);
       mon_pc := mon_pc sys |}.
Proof.
  unfold next, step, exec, value.
  destruct (update_lcd r (lcd_pc sys) (store sys)) as [[u s] o]. reflexivity.
Qed.

Lemma run_presses ks sys :
  run (map Press ks) sys
  = {| store := exec (keypresses ks) (store sys);
       lcd_pc := lcd_pc sys; mon_pc := mon_pc sys |}.
Proof.
  revert sys. induction ks as [|k ks IH]; intros sys; cbn [map run keypresses].
  - destruct sys; reflexivity.
  - rewrite IH, next_press, exec_bind. reflexivity.
Qed.

(** A digit key leaves the stage counter, the mode, the unit and the
    thresholds alone. *)
Lemma keypress_digit_frame k s :
  is_digit_key k = true ->
  let s' := exec (keypress k) s in
  input_stage s' = input_stage s /\ mode s' = mode s /\ unit s' = unit s
  /\ thresholds s' = thresholds s.
Proof. destruct k; intros H; try discriminate; source; auto. Qed.

Lemma keypresses_digits_frame ks :
  forall s,
    forallb is_digit_key ks = true ->
    let s' := exec (keypresses ks) s in
    input_stage s' = input_stage s /\ mode s' = mode s /\ unit s' = unit s
    /\ thresholds s' = thresholds s.
Proof.
  induction ks as [|k ks IH]; intros s H; cbn [keypresses]; [cbn; auto|].
  cbn [forallb] in H. apply andb_true_iff in H. destruct H as [Hk Hks].
  cbv zeta. rewrite exec_bind.
  destruct (IH (exec (keypress k) s) Hks) as [I1 [I2 [I3 I4]]].
  destruct (keypress_digit_frame k s Hk) as [F1 [F2 [F3 F4]]].
  rewrite I1, I2, I3, I4. auto.
Qed.

Lemma keypress_A s :
  input_stage s <> -1 ->
  exec (keypress KA) s = set_input_stage (Int.incr (input_stage s)) (set_row 0 s).
Proof.
  intros H. apply Z.eqb_neq in H.
  unfold keypress, isr, key_column, key_row, isr_c3. prog.
  cbn [row set_row input_stage Z.eqb]. rewrite H. reflexivity.
Qed.

Lemma display_takes_entry r k s :
  k < input_stage s ->
  exec (update_lcd r (LcdGetInput k)) s
  = exec (for_stage (Int.incr k)) (exec (convert_input k) s)
  /\ value (update_lcd r (LcdGetInput k)) s
     = value (for_stage (Int.incr k)) (exec (convert_input k) s).
Proof.
  intros H. apply Z.leb_gt in H.
  unfold update_lcd, get_input_poll. prog. rewrite H.
  destruct (convert_input k s) as [[u s1] o1]. cbn [fst snd].
  destruct (for_stage (Int.incr k) s1) as [[pc s2] o2]. auto.
Qed.

Lemma validate_input_thresholds a b :
  thresholds a = thresholds b -> validate_input a = validate_input b.
Proof.
  unfold thresholds, validate_input. intros H. inversion H.
  repeat match goal with E : _ = _ |- _ => rewrite E; clear E end. reflexivity.
Qed.

Lemma convert_input_depends k x y :
  input_str x = input_str y -> unit x = unit y -> thresholds x = thresholds y ->
  thresholds (exec (convert_input k) x) = thresholds (exec (convert_input k) y).
Proof.
  unfold thresholds. intros Hs Hu Ht. inversion Ht.
  unfold convert_input. prog. rewrite Hs, Hu.
  branches; cbn; congruence.
Qed.

Lemma convert_input_frame k x :
  let x' := exec (convert_input k) x in
  unit x' = unit x /\ mode x' = mode x /\ input_stage x' = input_stage x.
Proof. unfold convert_input. prog. branches; cbn; auto. Qed.

Lemma for_stage_next j x :
  j < 4 ->
  exec (for_stage j) x = set_input_len 0 (set_input_str EmptyString x)
  /\ value (for_stage j) x = LcdGetInput j.
Proof.
  intros H. apply Z.ltb_lt in H.
  unfold for_stage, get_input_enter, print_prompt. rewrite H. split; reflexivity.
Qed.

Lemma for_stage_end j x :
  4 <= j ->
  value (for_stage j) x = LcdLoop
  /\ exec (for_stage j) x
     = if validate_input x then set_mode MONITOR (set_input_stage (-1) x)
       else set_input_stage (-1) x.
Proof.
  intros H. apply Z.ltb_ge in H.
  unfold for_stage, input_done. rewrite H. prog.
  change (validate_input (set_input_stage (-1) x)) with (validate_input x).
  destruct (validate_input x); split; reflexivity.
Qed.

(** One prompt of a session: the digits, the A key, the step of the
    display thread that takes the entry. *)
Lemma stage_taken k e r sys :
  0 <= k <= 3 ->
  prompting k sys ->
  forallb is_digit_key e = true ->
  (List.length e <= 9)%nat ->
  let sys' := run (map Press e ++ [Press KA; Display r]) sys in
  let s1 := exec (convert_input k) (set_input_str (digits_of e) (store sys)) in
  thresholds (store sys') = thresholds s1
  /\ unit (store sys') = unit (store sys)
  /\ mon_pc sys' = mon_pc sys
  /\ (k < 3 -> prompting (k + 1) sys')
  /\ (k = 3 ->
      lcd_pc sys' = LcdLoop
      /\ mode (store sys') = if validate_input s1 then MONITOR else INPUT).
Proof.
  intros Hk [Hpc [Hst Hopen]] He Hlen. cbv zeta.
  rewrite run_app, run_presses. cbn [run]. rewrite next_press, next_display.
  cbn [store lcd_pc mon_pc]. rewrite Hpc.
  set (s0 := store sys) in *.
  set (sa := exec (keypresses e) s0).
  pose proof (digit_keys_from_open_prompt e s0 He Hopen Hlen) as Hstr.
  fold sa in Hstr.
  destruct (keypresses_digits_frame e s0 He) as [F1 [F2 [F3 F4]]].
  fold sa in F1, F2, F3, F4.
  destruct Hopen as [Hm _].
  rewrite keypress_A by (rewrite F1, Hst; lia).
  rewrite F1, Hst.
  assert (Hi : Int.incr k = k + 1).
  { apply Int.incr_small. unfold Int.min_signed, Int.max_signed. lia. }
  rewrite Hi.
  set (sb := set_input_stage (k + 1) (set_row 0 sa)).
  destruct (display_takes_entry r k sb) as [E1 E2]; [cbn; lia|].
  rewrite E1, E2, Hi.
  set (sc := exec (convert_input k) sb).
  set (s1 := exec (convert_input k) (set_input_str (digits_of e) s0)).
  assert (Tc : thresholds sc = thresholds s1).
  { apply convert_input_depends; [exact Hstr | exact F3 | exact F4]. }
  destruct (convert_input_frame k sb) as [C1 [C2 C3]]. fold sc in C1, C2, C3.
  assert (Hmc : mode sc = INPUT) by (rewrite C2; cbn; rewrite F2; exact Hm).
  assert (Huc : unit sc = unit s0) by (rewrite C1; exact F3).
  destruct (Z_lt_le_dec (k + 1) 4) as [Hlt|Hge].
  - destruct (for_stage_next (k + 1) sc Hlt) as [X1 X2]. rewrite X1, X2.
    split; [exact Tc|]. split; [exact Huc|]. split; [reflexivity|].
    split; [|intros; lia].
    intros _. unfold prompting, prompt_open. cbn.
    repeat split; try assumption; try (rewrite C3; reflexivity).
  - destruct (for_stage_end (k + 1) sc Hge) as [X1 X2]. rewrite X1, X2.
    rewrite (validate_input_thresholds sc s1 Tc).
    destruct (validate_input s1); cbn;
      (split; [exact Tc|]); (split; [exact Huc|]); (split; [reflexivity|]);
      (split; [intros; lia|]); intros _; auto.
Qed.

Lemma convert_input_celsius d x :
  unit x = CELCIUS ->
  thresholds (exec (convert_input 0) (set_input_str d x))
  = (atoi d, temp_max_c x, toFahrenheit (atoi d), temp_max_f x,
     humidity_min x, humidity_max x)
  /\ thresholds (exec (convert_input 1) (set_input_str d x))
     = (temp_min_c x, atoi d, temp_min_f x, toFahrenheit (atoi d),
        humidity_min x, humidity_max x)
  /\ thresholds (exec (convert_input 2) (set_input_str d x))
     = (temp_min_c x, temp_max_c x, temp_min_f x, temp_max_f x,
        atoi d, humidity_max x)
  /\ thresholds (exec (convert_input 3) (set_input_str d x))
     = (temp_min_c x, temp_max_c x, temp_min_f x, temp_max_f x,
        humidity_min x, atoi d).
Proof.
  intros U. unfold convert_input. prog. cbn [Z.eqb unit set_input_str].
  rewrite U. cbn. auto.
Qed.

Lemma session_opens r sys :
  lcd_pc sys = LcdLoop ->
  let sys1 := run [Press KD; Display r] sys in
  prompting 0 sys1
  /\ thresholds (store sys1) = thresholds (store sys)
  /\ unit (store sys1) = unit (store sys).
Proof.
  intros Hpc. cbv zeta. cbn [run].
  assert (Hm : mode (store (next (Press KD) sys)) = INPUT).
  { rewrite next_store, mode_after_keypress. reflexivity. }
  assert (Hl : lcd_pc (next (Press KD) sys) = LcdLoop).
  { rewrite next_lcd_pc. exact Hpc. }
  destruct (display_opens_session r _ Hl Hm) as [F _].
  split; [exact F|].
  rewrite next_display, Hl. rewrite next_press. cbn [store].
  unfold update_lcd, for_stage, get_input_enter, print_prompt, keypress, isr,
    key_column, key_row, isr_c3.
  prog. cbn. auto.
Qed.

(** A whole session with Celsius selected: after the D key and four
    entries of at most nine digits, each closed by the A key and taken by
    the display thread, the thresholds are the four numbers entered, with
    the Fahrenheit bounds computed from the Celsius ones; the mode is
    [MONITOR] when they validate and [INPUT] otherwise. *)
Theorem session_outcome (sys : System) (e0 e1 e2 e3 : list Key) :
  lcd_pc sys = LcdLoop ->
  unit (store sys) = CELCIUS ->
  forallb is_digit_key (e0 ++ e1 ++ e2 ++ e3) = true ->
  (List.length e0 <= 9 /\ List.length e1 <= 9
   /\ List.length e2 <= 9 /\ List.length e3 <= 9)%nat ->
  let sys' := run (session e0 e1 e2 e3) sys in
  thresholds (store sys')
  = (atoi (digits_of e0), atoi (digits_of e1),
     toFahrenheit (atoi (digits_of e0)), toFahrenheit (atoi (digits_of e1)),
     atoi (digits_of e2), atoi (digits_of e3))
  /\ lcd_pc sys' = LcdLoop
  /\ mode (store sys') = if validate_input (store sys') then MONITOR else INPUT.
Proof.
  intros Hpc Hu He [L0 [L1 [L2 L3]]]. cbv zeta.
  rewrite !forallb_app, !andb_true_iff in He. destruct He as [D0 [D1 [D2 D3]]].
  destruct (session_opens mild sys Hpc) as [P0 [T0 U0]].
  set (sys0 := run [Press KD; Display mild] sys) in *.
  destruct (stage_taken 0 e0 mild sys0 ltac:(lia) P0 D0 L0) as [T1 [U1 [_ [P1 _]]]].
  specialize (P1 ltac:(lia)).
  set (sys1 := run (map Press e0 ++ [Press KA; Display mild]) sys0) in *.
  destruct (stage_taken 1 e1 mild sys1 ltac:(lia) P1 D1 L1) as [T2 [U2 [_ [P2 _]]]].
  specialize (P2 ltac:(lia)).
  set (sys2 := run (map Press e1 ++ [Press KA; Display mild]) sys1) in *.
  destruct (stage_taken 2 e2 mild sys2 ltac:(lia) P2 D2 L2) as [T3 [U3 [_ [P3 _]]]].
  specialize (P3 ltac:(lia)).
  set (sys3 := run (map Press e2 ++ [Press KA; Display mild]) sys2) in *.
  destruct (stage_taken 3 e3 mild sys3 ltac:(lia) P3 D3 L3) as [T4 [U4 [_ [_ E4]]]].
  destruct (E4 eq_refl) as [E5 E6].
  set (sys4 := run (map Press e3 ++ [Press KA; Display mild]) sys3) in *.
  assert (Esys : run (session e0 e1 e2 e3) sys = sys4).
  { unfold session, sys4, sys3, sys2, sys1, sys0. rewrite !run_app. reflexivity. }
  rewrite Esys.
  assert (C0 : unit (store sys0) = CELCIUS) by congruence.
  assert (C1 : unit (store sys1) = CELCIUS) by congruence.
  assert (C2 : unit (store sys2) = CELCIUS) by congruence.
  assert (C3 : unit (store sys3) = CELCIUS) by congruence.
  destruct (convert_input_celsius (digits_of e0) (store sys0) C0) as [X0 _].
  destruct (convert_input_celsius (digits_of e1) (store sys1) C1) as [_ [X1 _]].
  destruct (convert_input_celsius (digits_of e2) (store sys2) C2) as [_ [_ [X2 _]]].
  destruct (convert_input_celsius (digits_of e3) (store sys3) C3) as [_ [_ [_ X3]]].
  assert (V : validate_input (store sys4)
              = validate_input
                  (exec (convert_input 3)
                     (set_input_str (digits_of e3) (store sys3)))).
  { apply validate_input_thresholds. exact T4. }
  rewrite X0 in T1. rewrite X1 in T2. rewrite X2 in T3. rewrite X3 in T4.
  split.
  - rewrite T4. unfold thresholds in T1, T2, T3.
    inversion T1. inversion T2. inversion T3. congruence.
  - split; [exact E5|]. rewrite E6, V. reflexivity.
Qed.

(* ===================================================================== *)
(** ** C8: the paired temperature bound *)

Lemma toFahrenheit_table :
  forallb (fun c =>
             Z.abs (5 * scaled (toFahrenheit c) 18 - (9 * c + 160) * 2 ^ 18) <=? 4)
          (Zrange 0 51) = true.
Proof. vm_compute. reflexivity. Qed.

Lemma toCelcius_table :
  forallb (fun f => toCelcius (int_to_float f) =? 5 * (f - 32) / 9)
          (Zrange 32 91) = true.
Proof. vm_compute. reflexivity. Qed.

(** C8. The conversion of the first and of the second entry stores the
    bound in the selected unit and, in the same step, the paired bound as
    the conversion of the bound just stored: [toFahrenheit] of the Celsius
    bound when Celsius is selected, [toCelcius] of the Fahrenheit bound
    otherwise.  On the supported range the two agree up to the rounding of
    the conversion: five times the [float] from [toFahrenheit c] differs
    from [9 c + 160] by at most [4 / 2^18], and [toCelcius] of a whole
    Fahrenheit value [f] is the integer part of [5 (f - 32) / 9].  The
    entries 10 and 40 with Celsius selected give exactly 50 and 104. *)
Theorem paired_bound_recomputed (s : State) :
  let s0 := exec (convert_input 0) s in
  let s1 := exec (convert_input 1) s in
  (unit s = CELCIUS ->
   temp_min_c s0 = atoi (input_str s)
   /\ temp_min_f s0 = toFahrenheit (temp_min_c s0)
   /\ temp_max_c s1 = atoi (input_str s)
   /\ temp_max_f s1 = toFahrenheit (temp_max_c s1))
  /\ (unit s = FAHRENHEIT ->
      temp_min_f s0 = int_to_float (atoi (input_str s))
      /\ temp_min_c s0 = toCelcius (temp_min_f s0)
      /\ temp_max_f s1 = int_to_float (atoi (input_str s))
      /\ temp_max_c s1 = toCelcius (temp_max_f s1))
  /\ (forall c, 0 <= c <= 50 ->
        Z.abs (5 * scaled (toFahrenheit c) 18 - (9 * c + 160) * 2 ^ 18) <= 4)
  /\ (forall f, 32 <= f <= 122 ->
        toCelcius (int_to_float f) = 5 * (f - 32) / 9)
  /\ (unit s = CELCIUS -> input_str s = "10" ->
      temp_min_c s0 = 10 /\ temp_min_f s0 = int_to_float 50)
  /\ (unit s = CELCIUS -> input_str s = "40" ->
      temp_max_c s1 = 40 /\ temp_max_f s1 = int_to_float 104).
Proof.
  cbv zeta. unfold convert_input, CELCIUS, FAHRENHEIT. prog. cbn [Z.eqb].
  split; [intros U; rewrite U; cbn; auto|].
  split; [intros U; rewrite U; cbn; auto|].
  split.
  { intros c Hc. apply Z.leb_le.
    apply (Zrange_forallb _ 0 51 toFahrenheit_table c). lia. }
  split.
  { intros f Hf. apply Z.eqb_eq.
    apply (Zrange_forallb _ 32 91 toCelcius_table f). lia. }
  split; intros U E; rewrite U, E; cbn; split; vm_compute; reflexivity.
Qed.

Lemma paired_bound_recomputed_witness :
  unit (store monitoring) = CELCIUS
  /\ 0 <= 10 <= 50
  /\ temp_min_f (exec (convert_input 0) (store monitoring))
     = toFahrenheit (temp_min_c (exec (convert_input 0) (store monitoring)))
  /\ Z.abs (5 * scaled (toFahrenheit 10) 18 - (9 * 10 + 160) * 2 ^ 18) <= 4
  /\ temp_min_f (store monitoring) = int_to_float 50
  /\ temp_max_f (store monitoring) = int_to_float 104.
Proof.
  assert (U : unit (store monitoring) = CELCIUS) by reflexivity.
  destruct (paired_bound_recomputed (store monitoring)) as [H1 [_ [H3 _]]].
  split; [exact U|]. split; [lia|].
  split; [apply (H1 U)|]. split; [apply H3; lia|].
  split; vm_compute; reflexivity.
Defined.

(* ===================================================================== *)
(** ** C2: the star key and the hash key *)

(** Outside [INPUT] mode, and at a full entry, the two keys only show in
    the position of the row cursor. *)
Lemma unassigned_key_closed k s :
  k = KStar \/ k = KHash ->
  (mode s =? INPUT) && (input_len s <? MAX_INPUT) = false ->
  exec (keypress k) s = set_row 3 s.
Proof.
  intros Hk H. unfold keypress. rewrite exec_bind.
  change (exec (modify (set_row (key_row k))) s) with (set_row (key_row k) s).
  destruct Hk; subst k; cbn [key_row key_column];
    apply digit_isr_closed; try discriminate; exact H.
Qed.

(** In [INPUT] mode below the cap, the two keys are counted as a
    character of the entry although none is appended. *)
Lemma unassigned_key_counted k s :
  k = KStar \/ k = KHash ->
  mode s = INPUT ->
  input_len s < MAX_INPUT ->
  exec (keypress k) s
  = set_input_modified true
      (set_input_len (Int.incr (input_len s)) (set_row 3 s)).
Proof.
  intros Hk Hm Hl.
  assert (Hc : (mode s =? INPUT) && (input_len s <? MAX_INPUT) = true).
  { rewrite Hm. apply andb_true_iff. split; [reflexivity | apply Z.ltb_lt; lia]. }
  destruct Hk; subst k; unfold keypress; cbn [key_row key_column isr];
    unfold isr_c0, isr_c2, input_str_append, input_len_incr; prog;
    cbn [row mode input_len input_str set_row]; rewrite Hc; reflexivity.
Qed.

(** C2 fails on the code.  At the first prompt of a session, with the
    entry empty, the star key and the hash key each leave the entry empty
    but raise [input_len] from 0 to 1 and set [input_modified]; after nine
    star keys the entry is still empty and the digit 5 is refused. *)
Theorem star_and_hash_are_counted :
  (input_str (store first_prompt) = EmptyString
   /\ input_len (store first_prompt) = 0
   /\ input_modified (store first_prompt) = false
   /\ mode (store first_prompt) = INPUT)
  /\ (input_str (store (next (Press KStar) first_prompt)) = EmptyString
      /\ input_len (store (next (Press KStar) first_prompt)) = 1
      /\ input_modified (store (next (Press KStar) first_prompt)) = true)
  /\ (input_str (store (next (Press KHash) first_prompt)) = EmptyString
      /\ input_len (store (next (Press KHash) first_prompt)) = 1
      /\ input_modified (store (next (Press KHash) first_prompt)) = true)
  /\ (input_str (store (run (nine_stars ++ [Press K5]) first_prompt)) = EmptyString
      /\ input_len (store (run (nine_stars ++ [Press K5]) first_prompt)) = 9)
  /\ input_str (store (next (Press K5) first_prompt)) = "5".
Proof. vm_compute. repeat split; reflexivity. Qed.

(* ===================================================================== *)
(** * Further properties of the program *)

(** ** The polling loop *)

Lemma row_cases z : -1 <= z <= 3 -> z = -1 \/ z = 0 \/ z = 1 \/ z = 2 \/ z = 3.
Proof. lia. Qed.

Lemma main_loop_from_row s z :
  -1 <= z <= 3 ->
  main_loop (set_row z s)
  = (tt, set_row ((z + 1) mod 4) s, poll_output ((z + 1) mod 4)).
Proof.
  intros H. destruct (row_cases z H) as [E|[E|[E|[E|E]]]]; subst z;
    destruct s; vm_compute; reflexivity.
Qed.

Lemma set_row_same s : set_row (row s) s = s.
Proof. destruct s; reflexivity. Qed.

(** X1. One iteration of the polling loop, from a cursor in -1..3: the
    cursor moves to the next row, 3 being followed by 0; nothing else in
    the store changes; all rows are switched off and then exactly the row
    of the new cursor is powered, so that a handler reads the row that is
    live; the watchdog is fed once and one queued event is run. *)
Theorem main_loop_scans_rows (s : State) :
  -1 <= row s <= 3 ->
  let r := (row s + 1) mod 4 in
  main_loop s = (tt, set_row r s, poll_output r)
  /\ 0 <= r <= 3
  /\ poll_output r
     = [RowsOff; RowPower (4096 * 2 ^ r); WatchdogKick; QueueDispatchOnce].
Proof.
  intros H r.
  split.
  - rewrite <- (set_row_same s) at 1.
    rewrite (main_loop_from_row s (row s) H).
    destruct s; reflexivity.
  - split.
    + subst r. pose proof (Z.mod_pos_bound (row s + 1) 4 ltac:(lia)). lia.
    + unfold poll_output, row_power. rewrite Z.shiftl_mul_pow2; [reflexivity|].
      subst r. pose proof (Z.mod_pos_bound (row s + 1) 4 ltac:(lia)). lia.
Qed.

Lemma main_loop_scans_rows_witness :
  -1 <= row boot <= 3
  /\ main_loop boot = (tt, set_row 0 boot, poll_output 0).
Proof.
  assert (H : -1 <= row boot <= 3) by (cbn; lia).
  split; [exact H|].
  exact (proj1 (main_loop_scans_rows boot H)).
Defined.

Lemma next_poll sys :
  next Poll sys
  = {| store := exec main_loop (store sys);
       lcd_pc := lcd_pc sys; mon_pc := mon_pc sys |}.
Proof.
  unfold next, step, exec. destruct (main_loop (store sys)) as [[u s] o].
  reflexivity.
Qed.

(** The cursor of a reachable system. *)
Lemma row_after_event ev sys :
  -1 <= row (store sys) <= 3 ->
  row (store (next ev sys))
  = match ev with
    | Poll => (row (store sys) + 1) mod 4
    | Press k => key_row k
    | _ => row (store sys)
    end.
Proof.
  intros H. destruct ev;
    try solve [apply thread_event_keeps; cbn; auto].
  - rewrite next_store. apply main_loop_next_row. exact H.
  - rewrite next_store. destruct k; source; reflexivity.
Qed.

Lemma reachable_row_range sys : Reachable sys -> -1 <= row (store sys) <= 3.
Proof.
  induction 1 as [|ev sys _ IH]; [cbn; lia|].
  rewrite row_after_event by exact IH. destruct ev; try exact IH.
  - pose proof (Z.mod_pos_bound (row (store sys) + 1) 4 ltac:(lia)). lia.
  - destruct k; cbn; lia.
Qed.

(** X2. In every reachable system the cursor is in -1..3, and -1 is left
    for good by the first event that moves it.  From a cursor in 0..3,
    four iterations of the polling loop bring back the very same store;
    they power the four rows once each, in cyclic order after the cursor,
    and feed the watchdog four times. *)
Theorem polling_has_period_four (sys : System) :
  Reachable sys ->
  -1 <= row (store sys) <= 3
  /\ (forall ev, 0 <= row (store sys) -> 0 <= row (store (next ev sys)))
  /\ (0 <= row (store sys) ->
      run [Poll; Poll; Poll; Poll] sys = sys
      /\ run_output [Poll; Poll; Poll; Poll] sys
         = poll_output ((row (store sys) + 1) mod 4)
           ++ poll_output ((row (store sys) + 2) mod 4)
           ++ poll_output ((row (store sys) + 3) mod 4)
           ++ poll_output (row (store sys))).
Proof.
  intros Hr. pose proof (reachable_row_range sys Hr) as H.
  split; [exact H|]. split.
  - intros ev H0. rewrite row_after_event by exact H.
    destruct ev; try exact H0.
    + pose proof (Z.mod_pos_bound (row (store sys) + 1) 4 ltac:(lia)). lia.
    + destruct k; cbn; lia.
  - intros H0. destruct sys as [s lpc mpc]. cbn [store] in *.
    assert (C : row s = 0 \/ row s = 1 \/ row s = 2 \/ row s = 3) by lia.
    destruct s as [rw ? ? ? ? ? ? ? ? ? ? ? ? ? ? ?]. cbn [row] in *.
    destruct C as [E|[E|[E|E]]]; subst rw; vm_compute; split; reflexivity.
Qed.

Lemma polling_has_period_four_witness :
  Reachable monitoring
  /\ -1 <= row (store monitoring) <= 3
  /\ run [Poll; Poll; Poll; Poll] monitoring = monitoring.
Proof.
  assert (Hr : Reachable monitoring) by apply run_reachable, Reachable_power_on.
  destruct (polling_has_period_four monitoring Hr) as [H1 [_ H3]].
  split; [exact Hr|]. split; [exact H1|].
  apply H3. vm_compute. discriminate.
Defined.

(** ** The LED pulse *)

Lemma keypress_output k s : output (keypress k) s = [QueueCallFlash BOUNCE].
Proof. destruct k; source; reflexivity. Qed.

Lemma step_press_output k sys : snd (step (Press k) sys) = [QueueCallFlash BOUNCE].
Proof.
  pose proof (keypress_output k (store sys)) as H. unfold output in H.
  unfold step. destruct (keypress k (store sys)) as [[u s] o]. exact H.
Qed.

(** X3. Every key, in every state of the store, puts exactly one call
    [flash(1000)] on the event queue and makes no other call: [n] keys
    queue [n] pulses.  The pulse itself lights the LED, sleeps for the time
    given and puts the LED out, and does not touch the store. *)
Theorem every_key_queues_one_pulse (ks : list Key) (sys : System) :
  run_output (map Press ks) sys = repeat (QueueCallFlash 1000) (List.length ks)
  /\ (forall k s, output (keypress k) s = [QueueCallFlash 1000])
  /\ (forall millisec s,
        flash millisec s
        = (tt, s, [LedWrite 1; SleepFor millisec; LedWrite 0])).
Proof.
  split; [|split; [exact keypress_output | reflexivity]].
  revert sys. induction ks as [|k ks IH]; intros sys;
    cbn [map run_output List.length repeat]; [reflexivity|].
  rewrite step_press_output, IH. reflexivity.
Qed.

(* ===================================================================== *)
(** ** Who writes what *)

(** A step of the display thread inside prompt [k]: it waits, or takes the
    entry and opens the next prompt, or takes the entry and ends the
    session. *)
Lemma display_prompt_step r k s :
  let s' := exec (update_lcd r (LcdGetInput k)) s in
  let pc' := value (update_lcd r (LcdGetInput k)) s in
  (input_stage s <= k /\ pc' = LcdGetInput k
   /\ s' = (if input_modified s then set_input_modified false s else s))
  \/ (k < input_stage s /\ Int.incr k < 4 /\ pc' = LcdGetInput (Int.incr k)
      /\ s' = set_input_len 0 (set_input_str EmptyString (exec (convert_input k) s)))
  \/ (k < input_stage s /\ 4 <= Int.incr k /\ pc' = LcdLoop
      /\ s' = (if validate_input (exec (convert_input k) s)
               then set_mode MONITOR
                      (set_input_stage (-1) (exec (convert_input k) s))
               else set_input_stage (-1) (exec (convert_input k) s))).
Proof.
  cbv zeta. destruct (Z_le_gt_dec (input_stage s) k) as [Hle|Hgt].
  - left. split; [exact Hle|]. apply Z.leb_le in Hle.
    unfold update_lcd, get_input_poll, print_prompt. prog. rewrite Hle.
    destruct (input_modified s); auto.
  - right. assert (Hlt : k < input_stage s) by lia.
    destruct (display_takes_entry r k s Hlt) as [E1 E2]. rewrite E1, E2.
    destruct (Z_lt_le_dec (Int.incr k) 4) as [H4|H4].
    + left. destruct (for_stage_next _ (exec (convert_input k) s) H4) as [X1 X2].
      rewrite X1, X2. auto.
    + right. destruct (for_stage_end _ (exec (convert_input k) s) H4) as [X1 X2].
      rewrite X1, X2. auto.
Qed.

Lemma convert_input_keeps k s :
  let s' := exec (convert_input k) s in
  unit s' = unit s /\ mode s' = mode s /\ reading s' = reading s
  /\ input_stage s' = input_stage s /\ row s' = row s.
Proof. unfold convert_input, reading. prog. branches; cbn; auto. Qed.

(** The monitor thread writes neither the thresholds nor the entry. *)
Lemma monitor_statement_keeps_thresholds r pc s :
  thresholds (exec (monitor_statement r pc) s) = thresholds s.
Proof. destruct pc as [| |p]; [| |destruct p]; statement; reflexivity. Qed.

Lemma monitor_state_keeps_thresholds r pc s :
  thresholds (exec (monitor_state r pc) s) = thresholds s.
Proof.
  apply (monitor_state_keeps thresholds). intros.
  apply monitor_statement_keeps_thresholds.
Qed.

(** X4. The thresholds are written by one piece of code only: the
    conversion of a confirmed entry, which the display thread runs after
    [get_input] has returned.  No key, no iteration of the polling loop
    and no statement of the monitor thread changes them; the display
    thread changes them only by a stretch that takes the entry of a prompt
    [k], which leaves the thresholds that [convert_input k] gives, or from
    a point inside the conversion. *)
Theorem thresholds_written_only_by_entries (sys : System) (ev : Event) :
  thresholds (store (next ev sys)) = thresholds (store sys)
  \/ (exists r k,
        ev = Display r /\ lcd_pc sys = LcdGetInput k
        /\ k < input_stage (store sys)
        /\ thresholds (store (next ev sys))
           = thresholds (exec (convert_input k) (store sys)))
  \/ (display_event ev = true /\ converting (lcd_pc sys) = true).
Proof.
  rewrite next_store. destruct ev.
  - left. rewrite main_loop_store. reflexivity.
  - left. destruct k; source; reflexivity.
  - destruct (lcd_pc sys) as [|k|p] eqn:Epc.
    + left. source; reflexivity.
    + destruct (display_prompt_step r k (store sys)) as [[_ [_ E]]|[[H [_ [_ E]]]|[H [_ [_ E]]]]];
        cbv zeta in E; rewrite E.
      * left. destruct (input_modified (store sys)); reflexivity.
      * right. left. exists r, k. auto.
      * right. left. exists r, k. repeat split; auto.
        destruct (validate_input _); reflexivity.
    + destruct p; try (right; right; split; reflexivity);
        left; statement; reflexivity.
  - left. apply monitor_state_keeps_thresholds.
  - destruct (lcd_pc sys) as [|k|p] eqn:Epc.
    + left. statement; reflexivity.
    + left. statement; reflexivity.
    + destruct p; try (right; right; split; reflexivity);
        left; statement; reflexivity.
  - left. apply monitor_statement_keeps_thresholds.
Qed.

(** X5. The unit of measurement is written by one piece of code only: the
    handler of column 3 taken on row 2 (the C key) while the mode is not
    [INPUT], which negates it.  Every other event, in every state, leaves
    the unit as it is; in particular a session is converted with one unit
    throughout. *)
Theorem unit_written_only_by_C (sys : System) (ev : Event) :
  unit (store (next ev sys)) = unit (store sys)
  \/ (ev = Press KC /\ mode (store sys) <> INPUT
      /\ unit (store (next ev sys)) = negb (unit (store sys))).
Proof.
  destruct ev; try solve [left; apply thread_event_keeps; cbn; auto];
    rewrite next_store.
  - left. rewrite main_loop_store. reflexivity.
  - destruct k; try (left; source; reflexivity).
    destruct (Z.eq_dec (mode (store sys)) INPUT) as [E|E].
    + left. source; try reflexivity. apply Z.eqb_neq in Heqb. contradiction.
    + right. split; [reflexivity|]. split; [exact E|].
      source; try reflexivity. apply Z.eqb_eq in Heqb. contradiction.
Qed.

(** Inside a session the display thread does not write the reading, and
    neither does the monitor thread inside the loop of [alert]. *)
Lemma reading_after_display_in_session r pc s :
  in_session pc = true ->
  reading (exec (update_lcd r pc) s) = reading s
  /\ reading (exec (update_lcd_statement r pc) s) = reading s.
Proof.
  intros H. destruct pc as [|k|p]; [discriminate| |].
  - split; [|statement; reflexivity].
    destruct (convert_input_keeps k s) as [_ [_ [R _]]].
    destruct (display_prompt_step r k s) as [[_ [_ E]]|[[_ [_ [_ E]]]|[_ [_ [_ E]]]]];
      cbv zeta in E; rewrite E.
    + destruct (input_modified s); reflexivity.
    + exact R.
    + destruct (validate_input _); exact R.
  - destruct p; try discriminate; split; statement; reflexivity.
Qed.

Lemma reading_after_monitor_in_alert r s :
  reading (exec (monitor_state r MonAlert) s) = reading s
  /\ reading (exec (monitor_statement r MonAlert) s) = reading s.
Proof. split; statement; reflexivity. Qed.

(** The reading held by the store after an event. *)
Lemma reading_after_event ev sys :
  reading (store (next ev sys)) = reading (store sys)
  \/ (display_event ev = true /\ in_session (lcd_pc sys) = false)
  \/ (monitor_event ev = true /\ mon_pc sys <> MonAlert).
Proof.
  rewrite next_store. destruct ev.
  - left. rewrite main_loop_store. reflexivity.
  - left. destruct k; source; reflexivity.
  - destruct (in_session (lcd_pc sys)) eqn:E; [left|right; left; auto].
    apply reading_after_display_in_session, E.
  - destruct (mon_pc sys) as [| |p].
    + right. right. split; [reflexivity | discriminate].
    + left. apply reading_after_monitor_in_alert.
    + right. right. split; [reflexivity | discriminate].
  - destruct (in_session (lcd_pc sys)) eqn:E; [left|right; left; auto].
    apply reading_after_display_in_session, E.
  - destruct (mon_pc sys) as [| |p].
    + right. right. split; [reflexivity | discriminate].
    + left. apply reading_after_monitor_in_alert.
    + right. right. split; [reflexivity | discriminate].
Qed.

(** A stretch that reads the sensor stores what the driver hands out. *)
Lemma reading_after_sensor_read r sys ev :
  (ev = Display r /\ lcd_pc sys = LcdLoop
   /\ (mode (store sys) = MONITOR \/ mode (store sys) = IDLE))
  \/ (ev = Monitor r /\ mon_pc sys = MonLoop /\ mode (store sys) = MONITOR) ->
  reading (store (next ev sys))
  = (getCelsius r, getFahrenheit r, getHumidity r).
Proof.
  rewrite next_store. intros [[E [Hpc Hm]]|[E [Hpc Hm]]]; subst ev; rewrite Hpc.
  - assert (T : (mode (store sys) =? MONITOR) || (mode (store sys) =? IDLE) = true).
    { apply orb_true_iff. destruct Hm as [Hm|Hm]; rewrite Hm; auto. }
    unfold update_lcd. prog. rewrite T. unfold display_climate, update_sensor.
    prog. branches; reflexivity.
  - unfold exec. rewrite (monitor_step_by_first_breach r _ Hm).
    destruct (first_breach _); reflexivity.
Qed.

Lemma no_sensor_read_in (l : list Effect) :
  forallb (fun e => match e with SensorRead => false | _ => true end) l = true ->
  ~ In SensorRead l.
Proof.
  intros H Hin. rewrite forallb_forall in H. specialize (H _ Hin). discriminate.
Qed.

(** While the mode is [INPUT] or [ALERT], an event that finds both threads
    at a loop test reads no sensor. *)
Lemma no_sensor_read_from_test ev sys :
  mode (store sys) = INPUT \/ mode (store sys) = ALERT ->
  lcd_at_test (lcd_pc sys) = true ->
  mon_at_test (mon_pc sys) = true ->
  reading (store (next ev sys)) = reading (store sys)
  /\ ~ In SensorRead (snd (step ev sys)).
Proof.
  intros Hm Hl Hn.
  assert (M1 : (mode (store sys) =? MONITOR) = false)
    by (apply Z.eqb_neq; unfold INPUT, ALERT, MONITOR in *; lia).
  assert (M2 : (mode (store sys) =? IDLE) = false)
    by (apply Z.eqb_neq; unfold INPUT, ALERT, IDLE in *; lia).
  split.
  - rewrite next_store. destruct ev.
    + rewrite main_loop_store. reflexivity.
    + destruct k; source; reflexivity.
    + destruct (lcd_pc sys) as [|k|p]; [| |discriminate].
      * unfold update_lcd, for_stage, get_input_enter, print_prompt. prog.
        rewrite M1, M2. cbn. branches; reflexivity.
      * apply reading_after_display_in_session. reflexivity.
    + destruct (mon_pc sys) as [| |p]; [| |discriminate].
      * unfold monitor_state. prog. rewrite M1. reflexivity.
      * apply reading_after_monitor_in_alert.
    + destruct (lcd_pc sys) as [|k|p]; [| |discriminate];
        statement; reflexivity.
    + destruct (mon_pc sys) as [| |p]; [| |discriminate];
        statement; reflexivity.
  - apply no_sensor_read_in. destruct ev.
    + unfold step, main_loop. prog. branches; reflexivity.
    + pose proof (step_press_output k sys) as E. rewrite E. reflexivity.
    + unfold step. destruct (lcd_pc sys) as [|k|p]; [| |discriminate].
      * unfold update_lcd, for_stage, get_input_enter, print_prompt. prog.
        rewrite M1, M2. cbn. branches; reflexivity.
      * unfold update_lcd, get_input_poll, for_stage, input_done,
          get_input_enter, print_prompt, convert_input. prog.
        repeat (cbn; branches); reflexivity.
    + unfold step. destruct (mon_pc sys) as [| |p]; [| |discriminate].
      * unfold monitor_state. prog. rewrite M1. reflexivity.
      * unfold monitor_state, alert_poll, beep_and_flash. prog.
        branches; reflexivity.
    + unfold step. destruct (lcd_pc sys) as [|k|p]; [| |discriminate].
      * unfold update_lcd_statement. prog. rewrite M1, M2. reflexivity.
      * unfold update_lcd_statement. prog. branches; reflexivity.
    + unfold step. destruct (mon_pc sys) as [| |p]; [| |discriminate].
      * unfold monitor_statement. prog. rewrite M1. reflexivity.
      * unfold monitor_statement, alert_poll, beep_and_flash. prog.
        branches; reflexivity.
Qed.

(** X6. The latest reading is written only by the two threads, and never
    by the display thread inside a session nor by the monitor thread
    inside the loop of [alert]; keys and the polling loop never write it.
    A stretch that starts at a loop test and reads the sensor (the display
    thread at its main loop in [IDLE] or [MONITOR] mode, the monitor
    thread at its loop in [MONITOR] mode) stores the three values the
    driver hands out.  An event that finds the mode [INPUT] or [ALERT] and
    both threads at a loop test reads no sensor and leaves the reading as
    it was; a thread preempted inside a stretch is not covered: it goes on
    to store what it read. *)
Theorem reading_written_only_by_sensor_read (sys : System) (ev : Event) :
  (reading (store (next ev sys)) = reading (store sys)
   \/ (display_event ev = true /\ in_session (lcd_pc sys) = false)
   \/ (monitor_event ev = true /\ mon_pc sys <> MonAlert))
  /\ (forall r,
        (ev = Display r /\ lcd_pc sys = LcdLoop
         /\ (mode (store sys) = MONITOR \/ mode (store sys) = IDLE))
        \/ (ev = Monitor r /\ mon_pc sys = MonLoop
            /\ mode (store sys) = MONITOR) ->
        reading (store (next ev sys))
        = (getCelsius r, getFahrenheit r, getHumidity r))
  /\ (mode (store sys) = INPUT \/ mode (store sys) = ALERT ->
      lcd_at_test (lcd_pc sys) = true ->
      mon_at_test (mon_pc sys) = true ->
      reading (store (next ev sys)) = reading (store sys)
      /\ ~ In SensorRead (snd (step ev sys))).
Proof.
  split; [apply reading_after_event|].
  split; [intros r; apply reading_after_sensor_read|].
  apply no_sensor_read_from_test.
Qed.

Lemma reading_written_only_by_sensor_read_witness :
  (mode (store alarmed) = INPUT \/ mode (store alarmed) = ALERT)
  /\ lcd_at_test (lcd_pc alarmed) = true
  /\ mon_at_test (mon_pc alarmed) = true
  /\ reading (store (next (Monitor mild) alarmed)) = reading (store alarmed)
  /\ ~ In SensorRead (snd (step (Monitor mild) alarmed)).
Proof.
  assert (Hm : mode (store alarmed) = INPUT \/ mode (store alarmed) = ALERT)
    by (right; vm_compute; reflexivity).
  assert (Hl : lcd_at_test (lcd_pc alarmed) = true) by reflexivity.
  assert (Hn : mon_at_test (mon_pc alarmed) = true) by reflexivity.
  split; [exact Hm|]. split; [exact Hl|]. split; [exact Hn|].
  exact (proj2 (proj2 (reading_written_only_by_sensor_read alarmed (Monitor mild)))
           Hm Hl Hn).
Defined.

(* ===================================================================== *)
(** ** The edges of the mode machine *)

(** Every write of [mode], by the event that makes it. *)
Lemma mode_after_event ev sys :
  mode (store (next ev sys)) = mode (store sys)
  \/ (ev = Press KB /\ mode (store sys) <> INPUT
      /\ mode (store (next ev sys)) = IDLE)
  \/ (ev = Press KD /\ mode (store (next ev sys)) = INPUT)
  \/ (display_event ev = true /\ in_session (lcd_pc sys) = true
      /\ mode (store (next ev sys)) = MONITOR)
  \/ (monitor_event ev = true
      /\ ((exists r, ev = Monitor r) /\ mon_pc sys = MonLoop
          /\ mode (store sys) = MONITOR
          \/ mon_at_test (mon_pc sys) = false)
      /\ mode (store (next ev sys)) = ALERT).
Proof.
  rewrite next_store. destruct ev.
  - left. apply mode_after_main_loop.
  - rewrite mode_after_keypress. destruct k; auto.
    destruct (mode (store sys) =? INPUT) eqn:E; [auto|].
    right. left. apply Z.eqb_neq in E. auto.
  - destruct (mode_after_display r (lcd_pc sys) (store sys)) as [H|[H1 H2]];
      [auto|]. right. right. right. left. auto.
  - destruct (mon_pc sys) as [| |p].
    + rewrite mode_after_monitor.
      destruct (mode (store sys) =? MONITOR) eqn:E; [|auto].
      cbv zeta. destruct (_ || _); [|auto].
      right. right. right. right. apply Z.eqb_eq in E.
      split; [reflexivity|]. split; [|reflexivity]. left. eauto.
    + left. rewrite mode_after_monitor. reflexivity.
    + destruct (mode_after_monitor_rest r p (store sys)) as [H|H]; [auto|].
      right. right. right. right. auto.
  - rewrite mode_after_display_statement.
    destruct (lcd_pc sys) as [|k|p]; auto. destruct p; auto.
    right. right. right. left. auto.
  - rewrite mode_after_monitor_statement.
    destruct (mon_pc sys) as [| |p]; auto. destruct p; auto.
    right. right. right. right. auto.
Qed.

(** X7. No key and no iteration of the polling loop ends [INPUT] mode:
    the B key is ignored, the C key clears the entry, and a session cannot
    be abandoned.  The mode leaves [INPUT] in two ways only: the display
    thread, inside a session, sets it to [MONITOR] (a stretch that takes
    an entry does so only for the last entry and a configuration that
    validates); or the monitor thread, preempted inside a stretch that it
    began in [MONITOR] mode, goes on and sets it to [ALERT]. *)
Theorem input_mode_exits (sys : System) (ev : Event) :
  mode (store sys) = INPUT ->
  (mode (store (next ev sys)) = INPUT
   \/ (display_event ev = true /\ in_session (lcd_pc sys) = true
       /\ mode (store (next ev sys)) = MONITOR)
   \/ (monitor_event ev = true /\ mon_at_test (mon_pc sys) = false
       /\ mode (store (next ev sys)) = ALERT))
  /\ (forall r k,
        ev = Display r -> lcd_pc sys = LcdGetInput k ->
        mode (store (next ev sys)) = MONITOR ->
        k < input_stage (store sys)
        /\ lcd_pc (next ev sys) = LcdLoop
        /\ valid_chain (store (next ev sys))).
Proof.
  intros Hm. split.
  - destruct (mode_after_event ev sys)
      as [H|[[_ [H _]]|[[_ H]|[H|[H1 [[[_ [_ H2]]|H2] H3]]]]]]; auto.
    + left. rewrite H. exact Hm.
    + contradiction.
    + rewrite Hm in H2. discriminate.
  - intros r k E Hpc Hmon. subst ev. rewrite next_lcd_pc.
    rewrite next_store in *. rewrite Hpc in *.
    destruct (convert_input_keeps k (store sys)) as [_ [M _]].
    destruct (display_prompt_step r k (store sys))
      as [[_ [_ E]]|[[_ [_ [_ E]]]|[H [_ [P E]]]]]; cbv zeta in *.
    + exfalso. rewrite E in Hmon.
      destruct (input_modified (store sys)); cbn in Hmon;
        rewrite Hm in Hmon; discriminate.
    + exfalso. rewrite E in Hmon. cbn in Hmon. rewrite M, Hm in Hmon.
      discriminate.
    + rewrite E in *.
      destruct (validate_input (exec (convert_input k) (store sys))) eqn:V.
      * repeat split; auto; apply validate_input_spec in V; apply V.
      * exfalso. cbn in Hmon. rewrite M, Hm in Hmon. discriminate.
Qed.

Lemma input_mode_exits_witness :
  mode (store first_prompt) = INPUT
  /\ (mode (store (next (Press KB) first_prompt)) = INPUT
      \/ (display_event (Press KB) = true
          /\ in_session (lcd_pc first_prompt) = true
          /\ mode (store (next (Press KB) first_prompt)) = MONITOR)
      \/ (monitor_event (Press KB) = true
          /\ mon_at_test (mon_pc first_prompt) = false
          /\ mode (store (next (Press KB) first_prompt)) = ALERT)).
Proof.
  assert (Hm : mode (store first_prompt) = INPUT) by reflexivity.
  split; [exact Hm|].
  exact (proj1 (input_mode_exits first_prompt (Press KB) Hm)).
Defined.

(** The statement [mode = ALERT] is reached only from a breach test that
    held. *)
Lemma alert_entered_from_breach_test r sys :
  mon_pc (next (MonitorStatement r) sys) = MonAt MonAlertEnter ->
  exists b,
    mon_pc sys = MonAt (breach_test b)
    /\ breached (store sys) b = true
    /\ snd (step (MonitorStatement r) sys) = breach_notice b.
Proof.
  rewrite next_mon_pc. unfold step.
  destruct (mon_pc sys) as [| |p]; [| |destruct p];
    unfold value, monitor_statement, alert_enter, alert_poll, beep_and_flash;
    prog; intros H.
  - destruct (mode (store sys) =? MONITOR); discriminate.
  - destruct (mode (store sys) =? ALERT); discriminate.
  - discriminate.
  - discriminate.
  - discriminate.
  - discriminate.
  - exists TemperatureLow. rewrite <- temperature_too_low_selected_unit.
    destruct (temperature_too_low (store sys)); [auto | discriminate].
  - exists TemperatureHigh. rewrite <- temperature_too_high_selected_unit.
    destruct (temperature_too_high (store sys)); [auto | discriminate].
  - exists HumidityLow.
    change (breached (store sys) HumidityLow)
      with (humidity_too_low (store sys)).
    destruct (humidity_too_low (store sys)); [auto | discriminate].
  - exists HumidityHigh.
    change (breached (store sys) HumidityHigh)
      with (humidity_too_high (store sys)).
    destruct (humidity_too_high (store sys)); [auto | discriminate].
  - discriminate.
Qed.

(** X8. The alert is raised by the monitor thread only, and only after a
    breach test has held.  An event that sets the mode to [ALERT] is a
    stretch of the monitor thread from its loop test, taken in [MONITOR]
    mode, whose fresh reading breaches a bound and whose notice is on the
    display, or the monitor thread going on from inside a stretch; and
    the thread comes to the statement [mode = ALERT] only from a breach
    test that held of the store at that moment, with the notice of that
    breach printed.  Between that test and the write, keys and the display
    thread may run: the write does not test the mode again. *)
Theorem alert_raised_only_on_breach (sys : System) (ev : Event) :
  (mode (store sys) <> ALERT ->
   mode (store (next ev sys)) = ALERT ->
   (exists r b,
      ev = Monitor r /\ mon_pc sys = MonLoop /\ mode (store sys) = MONITOR
      /\ first_breach (exec (update_sensor r) (store sys)) = Some b
      /\ snd (step ev sys) = SensorRead :: breach_notice b
      /\ mon_pc (next ev sys) = MonAlert)
   \/ (monitor_event ev = true /\ mon_at_test (mon_pc sys) = false))
  /\ (forall r,
        mon_pc (next (MonitorStatement r) sys) = MonAt MonAlertEnter ->
        exists b,
          mon_pc sys = MonAt (breach_test b)
          /\ breached (store sys) b = true
          /\ snd (step (MonitorStatement r) sys) = breach_notice b).
Proof.
  split; [|intros r; apply alert_entered_from_breach_test].
  intros Hm Ha.
  destruct (mode_after_event ev sys)
    as [H|[[_ [_ H]]|[[_ H]|[[_ [_ H]]|[H1 [[[[r E] [Hpc Hmon]]|H2] _]]]]]];
    try (rewrite H in Ha; try contradiction; discriminate).
  - left. subst ev.
    pose proof (monitor_step_by_first_breach r (store sys) Hmon) as S.
    cbv zeta in S. rewrite next_store, Hpc in Ha. unfold exec in Ha.
    rewrite S in Ha.
    destruct (first_breach (exec (update_sensor r) (store sys))) as [b|] eqn:B.
    + exists r, b. repeat split; auto.
      * unfold step. rewrite Hpc, S. reflexivity.
      * rewrite next_mon_pc, Hpc. unfold value. rewrite S. reflexivity.
    + cbn in Ha. cbn in Hm. contradiction.
  - right. auto.
Qed.

Lemma alert_raised_only_on_breach_witness :
  mode (store monitoring) <> ALERT
  /\ mode (store (next (Monitor hot) monitoring)) = ALERT
  /\ ((exists r b,
         Monitor hot = Monitor r /\ mon_pc monitoring = MonLoop
         /\ mode (store monitoring) = MONITOR
         /\ first_breach (exec (update_sensor r) (store monitoring)) = Some b
         /\ snd (step (Monitor hot) monitoring) = SensorRead :: breach_notice b
         /\ mon_pc (next (Monitor hot) monitoring) = MonAlert)
      \/ (monitor_event (Monitor hot) = true
          /\ mon_at_test (mon_pc monitoring) = false)).
Proof.
  assert (Hm : mode (store monitoring) <> ALERT) by (vm_compute; discriminate).
  assert (Ha : mode (store (next (Monitor hot) monitoring)) = ALERT)
    by (vm_compute; reflexivity).
  split; [exact Hm|]. split; [exact Ha|].
  exact (proj1 (alert_raised_only_on_breach monitoring (Monitor hot)) Hm Ha).
Defined.

(** X9. The edges out of [IDLE] and out of [MONITOR].  The only key that
    changes the mode [IDLE] is the D key, to [INPUT]; the only keys that
    change the mode [MONITOR] are the B key, to [IDLE], and the D key, to
    [INPUT].  The unit key, the digits, the A key and the polling loop
    leave both modes as they are.  Of the threads, the monitor thread
    changes them to [ALERT] only (from [IDLE] only when it was preempted
    inside a stretch), and the display thread changes [IDLE] only from
    inside a session, to [MONITOR]. *)
Theorem idle_and_monitor_exits (sys : System) (ev : Event) :
  (mode (store sys) = IDLE ->
   mode (store (next ev sys)) = IDLE
   \/ (ev = Press KD /\ mode (store (next ev sys)) = INPUT)
   \/ (display_event ev = true /\ in_session (lcd_pc sys) = true
       /\ mode (store (next ev sys)) = MONITOR)
   \/ (monitor_event ev = true /\ mon_at_test (mon_pc sys) = false
       /\ mode (store (next ev sys)) = ALERT))
  /\ (mode (store sys) = MONITOR ->
      mode (store (next ev sys)) = MONITOR
      \/ (ev = Press KB /\ mode (store (next ev sys)) = IDLE)
      \/ (ev = Press KD /\ mode (store (next ev sys)) = INPUT)
      \/ (monitor_event ev = true /\ mode (store (next ev sys)) = ALERT)).
Proof.
  split; intros Hm;
    destruct (mode_after_event ev sys)
      as [H|[[E [_ H]]|[[E H]|[[H1 [H2 H]]|[H1 [[[_ [_ H2]]|H2] H]]]]]];
    auto 6; try (left; rewrite H; exact Hm).
  - rewrite Hm in H2. discriminate.
Qed.

Lemma idle_and_monitor_exits_witness :
  mode (store power_on) = IDLE
  /\ (mode (store (next (Press KA) power_on)) = IDLE
      \/ (Press KA = Press KD
          /\ mode (store (next (Press KA) power_on)) = INPUT)
      \/ (display_event (Press KA) = true
          /\ in_session (lcd_pc power_on) = true
          /\ mode (store (next (Press KA) power_on)) = MONITOR)
      \/ (monitor_event (Press KA) = true
          /\ mon_at_test (mon_pc power_on) = false
          /\ mode (store (next (Press KA) power_on)) = ALERT)).
Proof.
  assert (Hm : mode (store power_on) = IDLE) by reflexivity.
  split; [exact Hm|].
  exact (proj1 (idle_and_monitor_exits power_on (Press KA)) Hm).
Defined.

(* ===================================================================== *)
(** ** The configuration in force *)

(** The invariant behind X10, event by event. *)
Lemma reachable_monitor_validated sys : Reachable sys -> monitor_validated sys.
Proof.
  apply reachable_by_statements; unfold monitor_validated.
  - cbn. repeat split; discriminate.
  - intros s IH. rewrite next_lcd_pc, next_store, mode_after_main_loop.
    assert (V : validate_input (exec main_loop (store s))
                = validate_input (store s)).
    { apply validate_input_thresholds. rewrite main_loop_store. reflexivity. }
    rewrite V. exact IH.
  - intros k s [I1 [I2 I3]]. rewrite next_lcd_pc, next_store.
    assert (V : validate_input (exec (keypress k) (store s))
                = validate_input (store s)).
    { apply validate_input_thresholds. destruct k; source; reflexivity. }
    rewrite V, mode_after_keypress.
    assert (M : match k with
                | KB => if mode (store s) =? INPUT then mode (store s) else IDLE
                | KD => INPUT
                | _ => mode (store s)
                end = MONITOR -> mode (store s) = MONITOR).
    { destruct k; auto; [|discriminate].
      destruct (mode (store s) =? INPUT); [auto | discriminate]. }
    split; [|split]; auto.
    intros H N. apply (I1 H), M, N.
  - intros r s [I1 [I2 I3]]. rewrite next_lcd_pc, next_store.
    assert (V : forall s', thresholds s' = thresholds (store s) ->
                           mode (store s) = MONITOR ->
                           validate_input s' = true).
    { intros s' T N. rewrite (validate_input_thresholds _ _ T). apply I3, N. }
    destruct (lcd_pc s) as [|k|p]; [| |destruct p]; cbn [in_session] in I1;
      statement; (split; [|split]); intros H; try discriminate H;
      try (exfalso; apply I1; [reflexivity | exact H]);
      try (apply V; [reflexivity | exact H]);
      try (apply I1; reflexivity);
      try assumption.
    + apply Z.eqb_eq in Heqb. rewrite Heqb. discriminate.
    + rewrite (validate_input_thresholds _ (store s)) by reflexivity.
      apply I2. reflexivity.
  - intros r s [I1 [I2 I3]]. rewrite next_lcd_pc, next_store.
    assert (V : validate_input (exec (monitor_statement r (mon_pc s)) (store s))
                = validate_input (store s)).
    { apply validate_input_thresholds, monitor_statement_keeps_thresholds. }
    rewrite V, mode_after_monitor_statement.
    assert (M : match mon_pc s with
                | MonAt MonAlertEnter => ALERT
                | _ => mode (store s)
                end = MONITOR -> mode (store s) = MONITOR).
    { destruct (mon_pc s) as [| |p]; auto. destruct p; auto. discriminate. }
    split; [|split]; auto.
    intros H N. apply (I1 H), M, N.
Qed.

(** While a session is open the mode is not [MONITOR]. *)
Lemma session_excludes_monitor sys :
  Reachable sys -> in_session (lcd_pc sys) = true -> mode (store sys) <> MONITOR.
Proof.
  intros Hr Hs. apply (reachable_monitor_validated sys Hr), Hs.
Qed.

(** The thresholds of a rejected session can be in force outside [INPUT]
    mode: a monitor stretch is preempted after its loop test, the D key
    and four empty entries follow, the stretch goes on to raise the alert
    before the last entry is confirmed, and the B key sets the mode to
    [IDLE] over thresholds that do not validate. *)
Lemma rejected_thresholds_in_idle :
  let sys :=
    run ([MonitorStatement hot; Press KD; Display mild;
          Press KA; Display mild; Press KA; Display mild;
          Press KA; Display mild]
         ++ repeat (MonitorStatement hot) 7
         ++ [Press KA; Display mild; Press KB]) monitoring in
  Reachable sys
  /\ mode (store sys) = IDLE
  /\ thresholds (store sys)
     = (0, 0, int_to_float 32, int_to_float 32, 0, 0)
  /\ validate_input (store sys) = false.
Proof.
  cbv zeta. split.
  - apply run_reachable, run_reachable, Reachable_power_on.
  - vm_compute. repeat split; reflexivity.
Qed.

(** X10. In every reachable system whose mode is [MONITOR], no session is
    open and the thresholds satisfy the three chains of [validate_input]:
    the mode is set to [MONITOR] only after the validation, and the
    thresholds are written only inside a session, which opens in [INPUT]
    mode and during which nothing sets the mode to [MONITOR].  The same
    does not hold of [IDLE] and [ALERT], nor of a monitor stretch preempted
    after its loop test, which compares against the thresholds of the
    moment. *)
Theorem thresholds_valid_in_monitor (sys : System) :
  Reachable sys ->
  mode (store sys) = MONITOR ->
  in_session (lcd_pc sys) = false
  /\ validate_input (store sys) = true
  /\ valid_chain (store sys).
Proof.
  intros Hr Hm.
  destruct (reachable_monitor_validated sys Hr) as [I1 [_ I3]].
  split; [|split; [apply I3, Hm | apply validate_input_spec, I3, Hm]].
  destruct (in_session (lcd_pc sys)); [|reflexivity].
  exfalso. apply I1; [reflexivity | exact Hm].
Qed.

Lemma thresholds_valid_in_monitor_witness :
  Reachable monitoring
  /\ mode (store monitoring) = MONITOR
  /\ valid_chain (store monitoring).
Proof.
  assert (Hr : Reachable monitoring) by apply run_reachable, Reachable_power_on.
  assert (Hm : mode (store monitoring) = MONITOR) by (vm_compute; reflexivity).
  split; [exact Hr|]. split; [exact Hm|].
  exact (proj2 (proj2 (thresholds_valid_in_monitor monitoring Hr Hm))).
Defined.

(* ===================================================================== *)
(** ** The number entered *)

Lemma atoi_digits_of_keys ks :
  forall acc,
    forallb is_digit_key ks = true ->
    atoi_digits (digits_of ks) acc
    = fold_left (fun a k => a * 10 + key_value k) ks acc.
Proof.
  induction ks as [|k ks IH]; intros acc H; [reflexivity|].
  cbn [forallb] in H. apply andb_true_iff in H. destruct H as [Hk Hks].
  destruct k; try discriminate Hk; cbn [digits_of key_digit fold_left key_value];
    cbn [String.append atoi_digits]; cbn; apply IH, Hks.
Qed.

Lemma fold_decimal_bounds ks :
  forall acc,
    0 <= acc ->
    forallb is_digit_key ks = true ->
    0 <= fold_left (fun a k => a * 10 + key_value k) ks acc
      < (acc + 1) * 10 ^ Z.of_nat (List.length ks).
Proof.
  induction ks as [|k ks IH]; intros acc Hacc H.
  - cbn. lia.
  - cbn [forallb] in H. apply andb_true_iff in H. destruct H as [Hk Hks].
    cbn [fold_left List.length].
    assert (Hv : 0 <= key_value k <= 9) by (destruct k; cbn; lia).
    specialize (IH (acc * 10 + key_value k) ltac:(lia) Hks).
    rewrite Nat2Z.inj_succ, Z.pow_succ_r by lia.
    assert (P : 0 < 10 ^ Z.of_nat (List.length ks)) by (apply Z.pow_pos_nonneg; lia).
    nia.
Qed.

Lemma decimal_bounds ks :
  forallb is_digit_key ks = true ->
  (List.length ks <= 9)%nat ->
  0 <= decimal ks < 10 ^ 9.
Proof.
  intros H L. unfold decimal.
  pose proof (fold_decimal_bounds ks 0 ltac:(lia) H) as B.
  assert (M : 10 ^ Z.of_nat (List.length ks) <= 10 ^ 9)
    by (apply Z.pow_le_mono_r; lia).
  lia.
Qed.

(** [atoi] of the digits of up to nine digit keys is the decimal number
    they write. *)
Lemma atoi_digits_of ks :
  forallb is_digit_key ks = true ->
  (List.length ks <= 9)%nat ->
  atoi (digits_of ks) = decimal ks.
Proof.
  intros H L.
  assert (W : Int.wrap (decimal ks) = decimal ks).
  { apply Int.wrap_small. pose proof (decimal_bounds ks H L).
    unfold Int.in_range, Int.min_signed, Int.max_signed. lia. }
  rewrite <- W. unfold decimal.
  rewrite <- (atoi_digits_of_keys ks 0 H).
  destruct ks as [|k ks]; [reflexivity|].
  cbn [forallb] in H. apply andb_true_iff in H. destruct H as [Hk _].
  destruct k; try discriminate Hk; reflexivity.
Qed.

Lemma firstn_digits ks n :
  forallb is_digit_key ks = true -> forallb is_digit_key (firstn n ks) = true.
Proof.
  revert n. induction ks as [|k ks IH]; intros [|n] H; cbn; try reflexivity.
  cbn in H. apply andb_true_iff in H. destruct H as [Hk Hks].
  rewrite Hk. cbn. apply IH, Hks.
Qed.

(** X11. Whatever run of digit keys is typed at an open prompt, the number
    that the conversion will read from the entry is the decimal number
    written by the first nine keys: it lies between 0 and 999999999, so
    [atoi] never leaves the range of [int], and with no key at all it is
    0. *)
Theorem entered_number_is_decimal (ks : list Key) (s : State) :
  forallb is_digit_key ks = true ->
  prompt_open s ->
  let entry := input_str (exec (keypresses ks) s) in
  atoi entry = decimal (firstn 9 ks)
  /\ 0 <= atoi entry <= 999999999
  /\ (ks = [] -> atoi entry = 0)
  /\ (forall k, is_digit_key k = true -> (List.length ks < 9)%nat ->
        atoi (input_str (exec (keypresses (ks ++ [k])) s))
        = 10 * atoi entry + key_value k).
Proof.
  intros H [Hm [Hstr Hlen]]. cbv zeta.
  assert (E : forall l, forallb is_digit_key l = true ->
                input_str (exec (keypresses l) s) = digits_of (firstn 9 l)).
  { intros l Hl.
    destruct (digit_keys_extend_entry l s Hl Hm) as [I1 _].
    { rewrite Hstr, Hlen. reflexivity. }
    rewrite I1, Hstr. reflexivity. }
  assert (F : forall l, forallb is_digit_key l = true ->
                atoi (input_str (exec (keypresses l) s)) = decimal (firstn 9 l)).
  { intros l Hl. rewrite (E l Hl). apply atoi_digits_of.
    - apply firstn_digits, Hl.
    - rewrite length_firstn. lia. }
  rewrite (F ks H).
  split; [reflexivity|]. split.
  - pose proof (decimal_bounds (firstn 9 ks) (firstn_digits ks 9 H)
                  ltac:(rewrite length_firstn; lia)). lia.
  - split; [intros ->; reflexivity|].
    intros k Hk L.
    rewrite F by (rewrite forallb_app, H; cbn; rewrite Hk; reflexivity).
    rewrite !firstn_all2 by (rewrite ?length_app; cbn; lia).
    unfold decimal. rewrite fold_left_app. cbn [fold_left].
    generalize (fold_left (fun a k0 => a * 10 + key_value k0) ks 0).
    intros z. lia.
Qed.

Lemma entered_number_is_decimal_witness :
  forallb is_digit_key eleven_digits = true
  /\ prompt_open opened_prompt
  /\ atoi (input_str (exec (keypresses eleven_digits) opened_prompt))
     = decimal (firstn 9 eleven_digits)
  /\ decimal (firstn 9 eleven_digits) = 123456789.
Proof.
  assert (Hk : forallb is_digit_key eleven_digits = true) by reflexivity.
  assert (Hs : prompt_open opened_prompt) by (repeat split).
  split; [exact Hk|]. split; [exact Hs|].
  split; [exact (proj1 (entered_number_is_decimal eleven_digits opened_prompt Hk Hs))|].
  reflexivity.
Defined.

(* ===================================================================== *)
(** ** Validation of a whole session *)

Lemma celsius_chain_table :
  forallb (fun a =>
     forallb (fun b =>
        negb (a <=? b)
        || (fle (int_to_float 32) (toFahrenheit a)
            && fle (toFahrenheit a) (toFahrenheit b)
            && fle (toFahrenheit b) (int_to_float 122)))
       (Zrange 0 51))
    (Zrange 0 51) = true.
Proof. vm_compute. reflexivity. Qed.

(** On 0..50 [toFahrenheit] is monotone for the [float] order and lands
    in 32..122. *)
Lemma celsius_chain_gives_fahrenheit_chain a b :
  0 <= a -> a <= b -> b <= 50 ->
  fle (int_to_float 32) (toFahrenheit a) = true
  /\ fle (toFahrenheit a) (toFahrenheit b) = true
  /\ fle (toFahrenheit b) (int_to_float 122) = true.
Proof.
  intros H0 H1 H2.
  pose proof (Zrange_forallb _ 0 51 celsius_chain_table a ltac:(lia)) as Ta.
  cbv beta in Ta.
  pose proof (Zrange_forallb _ 0 51 Ta b ltac:(lia)) as Tb. cbv beta in Tb.
  apply Z.leb_le in H1. rewrite H1 in Tb. cbn [negb orb] in Tb.
  rewrite !andb_true_iff in Tb. tauto.
Qed.

(** X12. A whole session with Celsius selected, from the D key to the
    step of the display thread that takes the fourth entry, each entry
    being at most nine digit keys closed by the A key.  The thresholds
    become the four decimal numbers entered, the Fahrenheit bounds being
    the conversions of the Celsius ones, and the mode becomes [MONITOR]
    exactly when [0 <= min <= max <= 50] for the temperatures and
    [20 <= min <= max <= 95] for the humidities; otherwise it stays
    [INPUT].  The Fahrenheit test of [validate_input] never rejects such
    a session: rounding to [float] keeps the converted bounds in order
    and inside 32..122. *)
Theorem celsius_session_monitors_iff (sys : System) (e0 e1 e2 e3 : list Key) :
  lcd_pc sys = LcdLoop ->
  unit (store sys) = CELCIUS ->
  forallb is_digit_key (e0 ++ e1 ++ e2 ++ e3) = true ->
  (List.length e0 <= 9 /\ List.length e1 <= 9
   /\ List.length e2 <= 9 /\ List.length e3 <= 9)%nat ->
  let sys' := run (session e0 e1 e2 e3) sys in
  thresholds (store sys')
  = (decimal e0, decimal e1,
     toFahrenheit (decimal e0), toFahrenheit (decimal e1),
     decimal e2, decimal e3)
  /\ lcd_pc sys' = LcdLoop
  /\ (mode (store sys') = MONITOR
      <-> (0 <= decimal e0 /\ decimal e0 <= decimal e1 /\ decimal e1 <= 50)
          /\ (20 <= decimal e2 /\ decimal e2 <= decimal e3 /\ decimal e3 <= 95))
  /\ (mode (store sys') = MONITOR \/ mode (store sys') = INPUT).
Proof.
  intros Hpc Hu He HL. cbv zeta.
  destruct (session_outcome sys e0 e1 e2 e3 Hpc Hu He HL) as [T [L M]].
  cbv zeta in T, L, M.
  destruct HL as [L0 [L1 [L2 L3]]].
  rewrite !forallb_app, !andb_true_iff in He. destruct He as [D0 [D1 [D2 D3]]].
  rewrite !atoi_digits_of in T by assumption.
  set (sys' := run (session e0 e1 e2 e3) sys) in *.
  split; [exact T|]. split; [exact L|].
  assert (V : validate_input (store sys') = true
              <-> (0 <= decimal e0 /\ decimal e0 <= decimal e1 /\ decimal e1 <= 50)
                  /\ (20 <= decimal e2 /\ decimal e2 <= decimal e3
                      /\ decimal e3 <= 95)).
  { rewrite validate_input_spec. unfold valid_chain.
    unfold thresholds in T. inversion T as [[A B C D E F]].
    rewrite C, D, A, B, E, F. split.
    - tauto.
    - intros [[H0 [H1 H2]] Hh].
      pose proof (celsius_chain_gives_fahrenheit_chain _ _ H0 H1 H2). tauto. }
  rewrite M. destruct (validate_input (store sys')).
  - split; [|left; reflexivity].
    split; [intros _; apply V; reflexivity | reflexivity].
  - split; [|right; reflexivity].
    split; [discriminate|]. intros H. apply V in H. discriminate.
Qed.

Lemma celsius_session_monitors_iff_witness :
  lcd_pc power_on = LcdLoop
  /\ unit (store power_on) = CELCIUS
  /\ mode (store (run (session [K1; K0] [K4; K0] [K3; K0] [K8; K0]) power_on))
     = MONITOR.
Proof.
  assert (Hpc : lcd_pc power_on = LcdLoop) by reflexivity.
  assert (Hu : unit (store power_on) = CELCIUS) by reflexivity.
  split; [exact Hpc|]. split; [exact Hu|].
  destruct (celsius_session_monitors_iff power_on
              [K1; K0] [K4; K0] [K3; K0] [K8; K0] Hpc Hu)
    as [_ [_ [I _]]].
  - reflexivity.
  - cbn. lia.
  - apply I. vm_compute. repeat split; discriminate.
Defined.

Lemma fahrenheit_chain_table :
  forallb (fun a =>
     forallb (fun b =>
        negb (a <=? b)
        || ((0 <=? toCelcius (int_to_float a))
            && (toCelcius (int_to_float a) <=? toCelcius (int_to_float b))
            && (toCelcius (int_to_float b) <=? 50)
            && fle (int_to_float 32) (int_to_float a)
            && fle (int_to_float a) (int_to_float b)
            && fle (int_to_float b) (int_to_float 122)))
       (Zrange 32 91))
    (Zrange 32 91) = true.
Proof. vm_compute. reflexivity. Qed.

(** X13. With Fahrenheit selected, two temperature entries with
    [32 <= min <= max <= 122] are always accepted when the humidity bounds
    are in order: the conversion of the first two entries stores the
    Fahrenheit bounds and Celsius bounds that are the integer parts of
    [5 (f - 32) / 9], and neither the truncation in [toCelcius] nor the
    [float] comparisons make [validate_input] fail. *)
Theorem fahrenheit_entries_in_range_validate (s : State) (d0 d1 : string) :
  unit s = FAHRENHEIT ->
  32 <= atoi d0 -> atoi d0 <= atoi d1 -> atoi d1 <= 122 ->
  20 <= humidity_min s -> humidity_min s <= humidity_max s ->
  humidity_max s <= 95 ->
  let s' := exec (convert_input 1)
              (set_input_str d1 (exec (convert_input 0) (set_input_str d0 s))) in
  validate_input s' = true
  /\ temp_min_f s' = int_to_float (atoi d0)
  /\ temp_max_f s' = int_to_float (atoi d1)
  /\ temp_min_c s' = 5 * (atoi d0 - 32) / 9
  /\ temp_max_c s' = 5 * (atoi d1 - 32) / 9.
Proof.
  intros U A0 A1 A2 H0 H1 H2. cbv zeta.
  pose proof (Zrange_forallb _ 32 91 fahrenheit_chain_table (atoi d0) ltac:(lia)) as Ta.
  cbv beta in Ta.
  pose proof (Zrange_forallb _ 32 91 Ta (atoi d1) ltac:(lia)) as Tb.
  cbv beta in Tb.
  pose proof A1 as A1'. apply Z.leb_le in A1'. rewrite A1' in Tb.
  cbn [negb orb] in Tb. rewrite !andb_true_iff, !Z.leb_le in Tb.
  pose proof (Zrange_forallb _ 32 91 toCelcius_table (atoi d0) ltac:(lia)) as C0.
  pose proof (Zrange_forallb _ 32 91 toCelcius_table (atoi d1) ltac:(lia)) as C1.
  cbv beta in C0, C1. apply Z.eqb_eq in C0, C1.
  unfold convert_input, FAHRENHEIT in *. prog.
  cbn [Z.eqb unit set_input_str input_str]. rewrite U. cbn. rewrite U. cbn.
  split.
  - apply validate_input_spec. unfold valid_chain. cbn. tauto.
  - repeat split; assumption.
Qed.

Lemma fahrenheit_entries_in_range_validate_witness :
  unit (set_unit FAHRENHEIT boot) = FAHRENHEIT
  /\ 32 <= atoi "50" /\ atoi "50" <= atoi "104" /\ atoi "104" <= 122
  /\ validate_input
       (exec (convert_input 1)
          (set_input_str "104"
             (exec (convert_input 0)
                (set_input_str "50" (set_unit FAHRENHEIT boot))))) = true.
Proof.
  assert (U : unit (set_unit FAHRENHEIT boot) = FAHRENHEIT) by reflexivity.
  assert (A0 : 32 <= atoi "50") by (vm_compute; discriminate).
  assert (A1 : atoi "50" <= atoi "104") by (vm_compute; discriminate).
  assert (A2 : atoi "104" <= 122) by (vm_compute; discriminate).
  split; [exact U|]. split; [exact A0|]. split; [exact A1|]. split; [exact A2|].
  apply (fahrenheit_entries_in_range_validate (set_unit FAHRENHEIT boot)
           "50" "104" U A0 A1 A2); vm_compute; discriminate.
Defined.

(* ===================================================================== *)
(** ** Editing and showing the entry *)

(** X14. In [INPUT] mode the C key empties the entry and sets the counter
    to 0, whatever they were, raises the flag, and leaves the unit, the
    stage and the thresholds alone.  Digit keys typed after it build the
    entry from scratch, so the key also frees an entry whose counter was
    used up. *)
Theorem clear_key_reopens_entry (s : State) (ks : list Key) :
  mode s = INPUT ->
  forallb is_digit_key ks = true ->
  let s1 := exec (keypress KC) s in
  s1 = set_input_modified true
         (set_input_len 0 (set_input_str EmptyString (set_row 2 s)))
  /\ prompt_open s1
  /\ unit s1 = unit s /\ input_stage s1 = input_stage s
  /\ thresholds s1 = thresholds s
  /\ input_str (exec (keypresses ks) s1) = digits_of (firstn 9 ks)
  /\ input_len (exec (keypresses ks) s1) = Z.of_nat (Nat.min 9 (List.length ks)).
Proof.
  intros Hm Hks. cbv zeta.
  assert (E : exec (keypress KC) s
              = set_input_modified true
                  (set_input_len 0 (set_input_str EmptyString (set_row 2 s)))).
  { unfold keypress, isr, key_column, key_row, isr_c3. prog.
    cbn [row mode set_row Z.eqb]. rewrite Hm. reflexivity. }
  rewrite E. split; [reflexivity|].
  split; [repeat split; exact Hm|].
  split; [reflexivity|]. split; [reflexivity|]. split; [reflexivity|].
  set (s1 := set_input_modified _ _).
  destruct (digit_keys_extend_entry ks s1 Hks Hm) as [I1 [I2 _]]; [reflexivity|].
  change (input_str s1) with EmptyString in I1.
  change (input_str (exec (keypresses ks) s1) = digits_of (firstn 9 ks)) in I1.
  split; [exact I1|].
  rewrite I2, I1, digits_of_length by (apply firstn_digits, Hks).
  rewrite length_firstn. reflexivity.
Qed.

Lemma clear_key_reopens_entry_witness :
  mode (store (run nine_stars first_prompt)) = INPUT
  /\ forallb is_digit_key [K5] = true
  /\ input_str (exec (keypresses [K5]) (store (run nine_stars first_prompt)))
     = EmptyString
  /\ input_str
       (exec (keypresses [K5])
          (exec (keypress KC) (store (run nine_stars first_prompt))))
     = "5".
Proof.
  assert (Hm : mode (store (run nine_stars first_prompt)) = INPUT) by reflexivity.
  assert (Hk : forallb is_digit_key [K5] = true) by reflexivity.
  split; [exact Hm|]. split; [exact Hk|]. split; [reflexivity|].
  destruct (clear_key_reopens_entry _ [K5] Hm Hk) as [_ [_ [_ [_ [_ [E _]]]]]].
  exact E.
Defined.

Lemma digit_key_keeps_flag k s :
  is_digit_key k = true ->
  input_modified s = true -> input_modified (exec (keypress k) s) = true.
Proof. destruct k; intros H F; try discriminate H; source; auto. Qed.

Lemma digit_keys_raise_flag ks :
  forall s,
    forallb is_digit_key ks = true ->
    mode s = INPUT -> 0 <= input_len s < MAX_INPUT ->
    ks <> [] ->
    input_modified (exec (keypresses ks) s) = true.
Proof.
  destruct ks as [|k ks]; intros s H Hm Hl Hne; [contradiction|].
  cbn [forallb] in H. apply andb_true_iff in H. destruct H as [Hk Hks].
  cbn [keypresses]. rewrite exec_bind.
  unfold is_digit_key in Hk. destruct (key_digit k) as [d|] eqn:Ed; [|discriminate].
  rewrite (keypress_digit_accepted k d s Ed Hm Hl).
  set (s1 := set_input_modified true _).
  assert (F : input_modified s1 = true) by reflexivity.
  clearbody s1. clear - Hks F. revert s1 F.
  induction ks as [|k' ks IH]; intros s1 F; [exact F|].
  cbn [forallb] in Hks. apply andb_true_iff in Hks. destruct Hks as [Hk' Hks].
  cbn [keypresses]. rewrite exec_bind. apply IH; [exact Hks|].
  apply digit_key_keeps_flag; assumption.
Qed.

(** A waiting step of the display thread inside a prompt. *)
Lemma display_waits r k sys :
  lcd_pc sys = LcdGetInput k ->
  input_stage (store sys) <= k ->
  step (Display r) sys
  = ({| store := (if input_modified (store sys)
                  then set_input_modified false (store sys) else store sys);
        lcd_pc := LcdGetInput k; mon_pc := mon_pc sys |},
     if input_modified (store sys)
     then [LcdClear; LcdPrint (prompt k); LcdSetCursor 0 1;
           LcdPrint (input_str (store sys))]
     else []).
Proof.
  intros Hpc Hst. apply Z.leb_le in Hst.
  unfold step. rewrite Hpc. unfold update_lcd, get_input_poll, print_prompt.
  prog. rewrite Hst. destruct (input_modified (store sys)); reflexivity.
Qed.

(** X15. The hand-over of the entry to the display.  At an open prompt,
    after one to nine digit keys, the next step of the display thread
    prints the prompt again and, on the second line, exactly the digits
    typed, and lowers the flag; it changes neither the entry nor the
    counter.  Further steps print nothing and change nothing until a key
    raises the flag again. *)
Theorem typed_digits_are_displayed (sys : System) (k : Z) (ks : list Key)
        (r : Reading) :
  prompting k sys ->
  forallb is_digit_key ks = true ->
  ks <> [] ->
  (List.length ks <= 9)%nat ->
  let typed := run (map Press ks) sys in
  let shown := next (Display r) typed in
  snd (step (Display r) typed)
  = [LcdClear; LcdPrint (prompt k); LcdSetCursor 0 1; LcdPrint (digits_of ks)]
  /\ store shown = set_input_modified false (store typed)
  /\ input_str (store shown) = digits_of ks
  /\ lcd_pc shown = LcdGetInput k
  /\ (forall r', step (Display r') shown = (shown, [])).
Proof.
  intros [Hpc [Hst Hopen]] Hks Hne Hlen. cbv zeta.
  rewrite run_presses.
  set (s0 := store sys) in *.
  set (sa := exec (keypresses ks) s0).
  pose proof (digit_keys_from_open_prompt ks s0 Hks Hopen Hlen) as Hstr.
  fold sa in Hstr.
  destruct (keypresses_digits_frame ks s0 Hks) as [F1 _]. fold sa in F1.
  destruct Hopen as [Hm [_ Hl0]].
  assert (Hf : input_modified sa = true).
  { apply digit_keys_raise_flag; try assumption. rewrite Hl0. unfold MAX_INPUT. lia. }
  assert (W : step (Display r)
                {| store := sa; lcd_pc := lcd_pc sys; mon_pc := mon_pc sys |}
              = ({| store := set_input_modified false sa;
                    lcd_pc := LcdGetInput k; mon_pc := mon_pc sys |},
                 [LcdClear; LcdPrint (prompt k); LcdSetCursor 0 1;
                  LcdPrint (digits_of ks)])).
  { rewrite (display_waits r k); cbn [store lcd_pc mon_pc].
    - rewrite Hf, Hstr. reflexivity.
    - exact Hpc.
    - rewrite F1, Hst. lia. }
  unfold next. rewrite W. cbn [fst snd store lcd_pc].
  split; [reflexivity|]. split; [reflexivity|].
  split; [exact Hstr|]. split; [reflexivity|].
  intros r'. rewrite (display_waits r' k); cbn [store lcd_pc mon_pc].
  - reflexivity.
  - reflexivity.
  - change (input_stage sa <= k). rewrite F1, Hst. lia.
Qed.

Lemma typed_digits_are_displayed_witness :
  prompting 0 first_prompt
  /\ forallb is_digit_key [K4; K0] = true
  /\ [K4; K0] <> []
  /\ (List.length [K4; K0] <= 9)%nat
  /\ snd (step (Display mild) (run (map Press [K4; K0]) first_prompt))
     = [LcdClear; LcdPrint (prompt 0); LcdSetCursor 0 1; LcdPrint "40"].
Proof.
  assert (P : prompting 0 first_prompt) by (repeat split).
  assert (D : forallb is_digit_key [K4; K0] = true) by reflexivity.
  assert (N : [K4; K0] <> []) by discriminate.
  assert (L : (List.length [K4; K0] <= 9)%nat) by (cbn; lia).
  split; [exact P|]. split; [exact D|]. split; [exact N|]. split; [exact L|].
  exact (proj1 (typed_digits_are_displayed first_prompt 0 [K4; K0] mild P D N L)).
Defined.

(* ===================================================================== *)
(** ** A repeated confirmation *)

Lemma bound_of_thresholds k a b :
  thresholds a = thresholds b -> bound_of k a = bound_of k b.
Proof.
  unfold thresholds, bound_of. intros H. inversion H.
  branches; congruence.
Qed.

Lemma bound_after_convert k d x :
  0 <= k <= 3 ->
  unit x = CELCIUS ->
  bound_of k (exec (convert_input k) (set_input_str d x)) = atoi d
  /\ forall j, 0 <= j <= 3 -> j <> k ->
       bound_of j (exec (convert_input k) (set_input_str d x)) = bound_of j x.
Proof.
  intros Hk U.
  assert (C : k = 0 \/ k = 1 \/ k = 2 \/ k = 3) by lia.
  destruct C as [E|[E|[E|E]]]; subst k;
    unfold bound_of, convert_input; prog;
    cbn [Z.eqb unit set_input_str]; rewrite ?U; cbn;
    (split; [reflexivity|]);
    intros j Hj Hne;
    assert (Cj : j = 0 \/ j = 1 \/ j = 2 \/ j = 3) by lia;
    destruct Cj as [Ej|[Ej|[Ej|Ej]]]; subst j; try contradiction;
    reflexivity.
Qed.

(** X16. A second interrupt of the A key before the display thread has
    taken the entry (a bounce, or an impatient operator) skips a prompt.
    From prompt [k] of a Celsius session, after the digits and two A keys,
    two steps of the display thread store the number typed as bound [k]
    and 0 as bound [k + 1], which the operator never got to enter, and
    move on to prompt [k + 2], or end the session when there is none. *)
Theorem repeated_confirm_skips_prompt (sys : System) (k : Z) (e : list Key)
        (r r' : Reading) :
  0 <= k <= 2 ->
  prompting k sys ->
  unit (store sys) = CELCIUS ->
  forallb is_digit_key e = true ->
  (List.length e <= 9)%nat ->
  let sys' := run (map Press e ++ [Press KA; Press KA; Display r; Display r']) sys in
  bound_of k (store sys') = decimal e
  /\ bound_of (k + 1) (store sys') = 0
  /\ (forall j, 0 <= j <= 3 -> j <> k -> j <> k + 1 ->
        bound_of j (store sys') = bound_of j (store sys))
  /\ lcd_pc sys' = (if k <? 2 then LcdGetInput (k + 2) else LcdLoop).
Proof.
  intros Hk [Hpc [Hst Hopen]] Hu He Hlen. cbv zeta.
  rewrite run_app, run_presses. cbn [run].
  rewrite !next_press. cbn [store lcd_pc mon_pc].
  set (s0 := store sys) in *.
  set (sa := exec (keypresses e) s0).
  pose proof (digit_keys_from_open_prompt e s0 He Hopen Hlen) as Hstr.
  fold sa in Hstr.
  destruct (keypresses_digits_frame e s0 He) as [F1 [F2 [F3 F4]]].
  fold sa in F1, F2, F3, F4.
  rewrite (keypress_A sa) by (rewrite F1, Hst; lia).
  rewrite F1, Hst.
  rewrite Int.incr_small by (unfold Int.min_signed, Int.max_signed; lia).
  set (sb := set_input_stage (k + 1) (set_row 0 sa)).
  rewrite (keypress_A sb) by (cbn; lia).
  change (input_stage sb) with (k + 1).
  rewrite Int.incr_small by (unfold Int.min_signed, Int.max_signed; lia).
  set (sc := set_input_stage (k + 1 + 1) (set_row 0 sb)).
  (* first step of the display thread: entry [k] *)
  assert (Hi : Int.incr k = k + 1)
    by (apply Int.incr_small; unfold Int.min_signed, Int.max_signed; lia).
  assert (Hi' : Int.incr (k + 1) = k + 2)
    by (rewrite Int.incr_small; [lia | unfold Int.min_signed, Int.max_signed; lia]).
  set (sd := set_input_len 0 (set_input_str EmptyString (exec (convert_input k) sc))).
  assert (Nd : next (Display r)
                 {| store := sc; lcd_pc := lcd_pc sys; mon_pc := mon_pc sys |}
               = {| store := sd; lcd_pc := LcdGetInput (k + 1);
                    mon_pc := mon_pc sys |}).
  { rewrite next_display. cbn [store lcd_pc mon_pc]. rewrite Hpc.
    destruct (display_takes_entry r k sc) as [E1 E2]; [cbn; lia|].
    rewrite E1, E2, Hi.
    destruct (for_stage_next (k + 1) (exec (convert_input k) sc) ltac:(lia))
      as [X1 X2].
    rewrite X1, X2. reflexivity. }
  rewrite Nd.
  destruct (convert_input_keeps k sc) as [Uc [_ [_ [Sc _]]]].
  assert (Hsd : input_stage sd = k + 1 + 1) by (cbn; rewrite Sc; reflexivity).
  assert (Usd : unit sd = CELCIUS).
  { cbn. rewrite Uc. cbn. rewrite F3. exact Hu. }
  (* second step: entry [k + 1], which is empty *)
  rewrite next_display. cbn [store lcd_pc mon_pc].
  destruct (display_takes_entry r' (k + 1) sd) as [E3 E4]; [lia|].
  rewrite E3, E4, Hi'.
  set (se := exec (convert_input (k + 1)) sd).
  assert (Tsd : thresholds sd
                = thresholds (exec (convert_input k) (set_input_str (digits_of e) s0))).
  { change (thresholds sd) with (thresholds (exec (convert_input k) sc)).
    apply convert_input_depends; [exact Hstr | exact F3 | exact F4]. }
  assert (Tse : thresholds se
                = thresholds (exec (convert_input (k + 1))
                                (set_input_str EmptyString sd))).
  { apply convert_input_depends; reflexivity. }
  destruct (bound_after_convert k (digits_of e) s0 ltac:(lia) Hu) as [B1 B2].
  destruct (bound_after_convert (k + 1) EmptyString sd ltac:(lia) Usd) as [B3 B4].
  assert (Bk : bound_of k se = decimal e).
  { rewrite (bound_of_thresholds k _ _ Tse), B4 by lia.
    rewrite (bound_of_thresholds k _ _ Tsd), B1.
    apply atoi_digits_of; assumption. }
  assert (Bk1 : bound_of (k + 1) se = 0).
  { rewrite (bound_of_thresholds (k + 1) _ _ Tse), B3. reflexivity. }
  assert (Bj : forall j, 0 <= j <= 3 -> j <> k -> j <> k + 1 ->
                 bound_of j se = bound_of j s0).
  { intros j Hj Nk Nk1.
    rewrite (bound_of_thresholds j _ _ Tse), B4 by assumption.
    rewrite (bound_of_thresholds j _ _ Tsd). apply B2; assumption. }
  destruct (Z_lt_le_dec (k + 2) 4) as [H4|H4].
  - destruct (for_stage_next (k + 2) se H4) as [Y1 Y2]. rewrite Y1, Y2.
    assert (K : (k <? 2) = true) by (apply Z.ltb_lt; lia). rewrite K.
    repeat split; assumption.
  - destruct (for_stage_end (k + 2) se H4) as [Y1 Y2]. rewrite Y1, Y2.
    assert (K : (k <? 2) = false) by (apply Z.ltb_ge; lia). rewrite K.
    destruct (validate_input se); repeat split; assumption.
Qed.

Lemma repeated_confirm_skips_prompt_witness :
  prompting 0 first_prompt
  /\ unit (store first_prompt) = CELCIUS
  /\ bound_of 0
       (store (run (map Press [K1; K0]
                    ++ [Press KA; Press KA; Display mild; Display mild])
                 first_prompt)) = 10
  /\ bound_of 1
       (store (run (map Press [K1; K0]
                    ++ [Press KA; Press KA; Display mild; Display mild])
                 first_prompt)) = 0.
Proof.
  assert (P : prompting 0 first_prompt) by (repeat split).
  assert (U : unit (store first_prompt) = CELCIUS) by reflexivity.
  split; [exact P|]. split; [exact U|].
  destruct (repeated_confirm_skips_prompt first_prompt 0 [K1; K0] mild mild)
    as [B0 [B1 _]]; try assumption; try reflexivity; try lia.
  - cbn. lia.
  - split; [exact B0 | exact B1].
Defined.

(* ===================================================================== *)
(** ** Keys without effect *)

(** Outside a session the stage counter is -1. *)
Lemma reachable_stage_idle sys :
  Reachable sys -> stage_idle (lcd_pc sys) = true -> input_stage (store sys) = -1.
Proof.
  revert sys.
  apply (reachable_by_statements
           (fun sys => stage_idle (lcd_pc sys) = true
                       -> input_stage (store sys) = -1)).
  - reflexivity.
  - intros s IH. rewrite next_lcd_pc, next_store, main_loop_store. exact IH.
  - intros k s IH. rewrite next_lcd_pc, next_store. intros H.
    specialize (IH H). destruct k; source; auto.
    apply Z.eqb_neq in Heqb. contradiction.
  - intros r s. rewrite next_lcd_pc, next_store.
    destruct (lcd_pc s) as [|k|p]; [| |destruct p];
      cbn [stage_idle in_session negb]; intros IH; statement;
      intros H; try discriminate H; try reflexivity; apply IH; reflexivity.
  - intros r s IH. rewrite next_lcd_pc, next_store. intros H.
    specialize (IH H).
    destruct (mon_pc s) as [| |p]; [| |destruct p]; statement; exact IH.
Qed.

Lemma set_mode_same s : set_mode (mode s) s = s.
Proof. destruct s; reflexivity. Qed.

(** X17. Keys that do nothing.  In [INPUT] mode the B key and the D key
    change nothing in the store but the cursor position: a session is
    neither abandoned nor restarted by them.  When the mode is not
    [INPUT], the ten digits, the star and the hash change nothing but the
    cursor position.  The A key changes nothing but the cursor position
    when the stage counter is -1, which it is in every reachable system
    whose display thread is outside a session; inside a session the A key
    advances the stage whatever the mode. *)
Theorem keys_without_effect (sys : System) (k : Key) :
  (mode (store sys) = INPUT -> k = KB \/ k = KD ->
   exec (keypress k) (store sys) = set_row (key_row k) (store sys))
  /\ (mode (store sys) <> INPUT ->
      k <> KA -> k <> KB -> k <> KC -> k <> KD ->
      exec (keypress k) (store sys) = set_row (key_row k) (store sys))
  /\ (Reachable sys -> in_session (lcd_pc sys) = false ->
      input_stage (store sys) = -1
      /\ exec (keypress KA) (store sys) = set_row (key_row KA) (store sys)).
Proof.
  split; [|split].
  - intros Hm [E|E]; subst k.
    + unfold keypress, isr, key_column, key_row, isr_c3. prog.
      cbn [row mode set_row Z.eqb]. rewrite Hm. reflexivity.
    + unfold keypress, isr, key_column, key_row, isr_c3. prog.
      cbn [row mode set_row Z.eqb]. cbn.
      rewrite <- Hm. destruct (store sys); reflexivity.
  - intros Hm NA NB NC ND.
    assert (Hc : (mode (store sys) =? INPUT) && (input_len (store sys) <? MAX_INPUT) = false).
    { apply andb_false_iff. left. apply Z.eqb_neq. exact Hm. }
    destruct k; try contradiction;
      (unfold keypress; rewrite exec_bind;
       change (exec (modify (set_row ?r)) ?s) with (set_row r s);
       apply digit_isr_closed; [discriminate | exact Hc]).
  - intros Hr Hs.
    assert (Hst : input_stage (store sys) = -1).
    { apply (reachable_stage_idle sys Hr).
      destruct (lcd_pc sys) as [|j|p]; [reflexivity|discriminate|].
      destruct p; try discriminate; reflexivity. }
    split; [exact Hst|].
    unfold keypress, isr, key_column, key_row, isr_c3. prog.
    cbn [row input_stage set_row Z.eqb]. rewrite Hst. reflexivity.
Qed.

Lemma keys_without_effect_witness :
  mode (store alarmed) <> INPUT
  /\ Reachable alarmed
  /\ in_session (lcd_pc alarmed) = false
  /\ exec (keypress KA) (store alarmed) = set_row (key_row KA) (store alarmed)
  /\ exec (keypress K5) (store alarmed) = set_row (key_row K5) (store alarmed).
Proof.
  assert (Hr : Reachable alarmed).
  { apply Reachable_next. apply run_reachable. apply Reachable_power_on. }
  assert (Hm : mode (store alarmed) <> INPUT) by (vm_compute; discriminate).
  assert (Hs : in_session (lcd_pc alarmed) = false) by reflexivity.
  split; [exact Hm|]. split; [exact Hr|]. split; [exact Hs|]. split.
  - apply (proj2 (proj2 (keys_without_effect alarmed KA)) Hr Hs).
  - apply (proj1 (proj2 (keys_without_effect alarmed K5)) Hm); discriminate.
Defined.
